(** * AI Math Mentor: the pipeline orchestrator and its decision policy

    A shallow embedding of the Python sources under [aimath/]:
    the guardrail gate, the solve stage with its deterministic calculator
    path, the verify stage, and the orchestrator with its human-in-the-loop
    (HITL) decision, followed by the properties established about them.

    Python values that come out of JSON or of a collaborator are modelled
    dynamically ([pyval]); a Python [str] is a [string] whose characters are
    code points below 256; a Python [float] is a binary64 primitive float.
    Calls that leave the process (language-model agents, OCR, speech
    recognition, SymPy, the vector store) are answered by [Services] and
    recorded, with their answers, in the trace of events of the run. *)

From Stdlib Require Import ZArith List String Ascii Bool Lia DecimalString.
From Stdlib Require Import PrimFloat FloatOps SpecFloat Uint63.
From Stdlib Require FloatAxioms.
Import ListNotations.

Set Warnings "-inexact-float,-register-all".
Local Open Scope string_scope.
Local Open Scope Z_scope.

(* ===================================================================== *)
(** ** Python values and exceptions *)
(* ===================================================================== *)

Module Py.

Inductive exn_kind : Type :=
| ValueError | TypeError | KeyError | IndexError | AttributeError
| JSONDecodeError | ExternalError.

(** An exception: its class and the text [str(e)] gives. *)
Record exn : Type := mk_exn { exn_class : exn_kind; exn_str : string }.

(** The outcome of a call: a value, or an exception on its way up. *)
Inductive Res (A : Type) : Type :=
| Ok (a : A)
| Raise (e : exn).
Arguments Ok {A} a.
Arguments Raise {A} e.

Inductive pyval : Type :=
| PNone
| PBool (b : bool)
| PInt (z : Z)
| PFloat (f : float)
| PStr (s : string)
| PList (l : list pyval)
| PDict (d : list (string * pyval)).

(** A [dict] with [str] keys, in insertion order, a key at most once. *)
Definition pydict : Type := list (string * pyval).

Fixpoint dict_get (d : pydict) (k : string) : option pyval :=
  match d with
  | [] => None
  | (k', v) :: d' => if String.eqb k' k then Some v else dict_get d' k
  end.

(** [d.get(k, dflt)] *)
Definition dict_get_or (d : pydict) (k : string) (dflt : pyval) : pyval :=
  match dict_get d k with Some v => v | None => dflt end.

(** [d.get(k)] *)
Definition dict_get_none (d : pydict) (k : string) : pyval :=
  dict_get_or d k PNone.

(** [k in d] *)
Definition dict_mem (d : pydict) (k : string) : bool :=
  match dict_get d k with Some _ => true | None => false end.

(** [d[k] = v] *)
Fixpoint dict_set (d : pydict) (k : string) (v : pyval) : pydict :=
  match d with
  | [] => [(k, v)]
  | (k', v') :: d' =>
      if String.eqb k' k then (k', v) :: d' else (k', v') :: dict_set d' k v
  end.

Definition is_zero (f : float) : bool := PrimFloat.eqb f 0%float.

(** Truth value testing, as [if v:] and [not v] do it. *)
Definition truthy (v : pyval) : bool :=
  match v with
  | PNone => false
  | PBool b => b
  | PInt z => negb (z =? 0)
  | PFloat f => negb (is_zero f)
  | PStr s => negb (String.eqb s "")
  | PList l => match l with [] => false | _ => true end
  | PDict d => match d with [] => false | _ => true end
  end.

(** [a or b] *)
Definition py_or (a b : pyval) : pyval := if truthy a then a else b.

Definition type_name (v : pyval) : string :=
  match v with
  | PNone => "NoneType"
  | PBool _ => "bool"
  | PInt _ => "int"
  | PFloat _ => "float"
  | PStr _ => "str"
  | PList _ => "list"
  | PDict _ => "dict"
  end.

(** [c < z] for a float [c] and an integer [z]: Python compares the two
    exactly, without converting the integer. *)
Definition float_lt_int (c : float) (z : Z) : bool :=
  match Prim2SF c with
  | S754_nan => false
  | S754_infinity neg => neg
  | S754_zero _ => 0 <? z
  | S754_finite neg m e =>
      let v := if neg then Z.neg m else Z.pos m in
      if 0 <=? e then v * 2 ^ e <? z else v <? z * 2 ^ (- e)
  end.

(** [v > c] for a float constant [c]. *)
Definition py_gt (v : pyval) (c : float) : Res bool :=
  match v with
  | PFloat f => Ok (PrimFloat.ltb c f)
  | PInt z => Ok (float_lt_int c z)
  | PBool b => Ok (float_lt_int c (if b then 1 else 0))
  | _ => Raise (mk_exn TypeError
           ("'>' not supported between instances of '" ++ type_name v ++ "' and 'float'"))
  end.

(** [v == s] for a string constant [s]. *)
Definition py_eq_str (v : pyval) (s : string) : bool :=
  match v with PStr s' => String.eqb s' s | _ => false end.

(** [v.get(k, dflt)]: only a dict has the method. *)
Definition py_get (v : pyval) (k : string) (dflt : pyval) : Res pyval :=
  match v with
  | PDict d => Ok (dict_get_or d k dflt)
  | _ => Raise (mk_exn AttributeError
           ("'" ++ type_name v ++ "' object has no attribute 'get'"))
  end.

(** [v[k]] for a string key [k]. *)
Definition py_item (v : pyval) (k : string) : Res pyval :=
  match v with
  | PDict d =>
      match dict_get d k with
      | Some x => Ok x
      | None => Raise (mk_exn KeyError ("'" ++ k ++ "'"))
      end
  | PStr _ => Raise (mk_exn TypeError "string indices must be integers, not 'str'")
  | PList _ => Raise (mk_exn TypeError "list indices must be integers or slices, not str")
  | _ => Raise (mk_exn TypeError ("'" ++ type_name v ++ "' object is not subscriptable"))
  end.

(** [v[0]] *)
Definition py_first (v : pyval) : Res pyval :=
  match v with
  | PList (x :: _) => Ok x
  | PList [] => Raise (mk_exn IndexError "list index out of range")
  | PStr (String c _) => Ok (PStr (String c ""))
  | PStr EmptyString => Raise (mk_exn IndexError "string index out of range")
  | PDict d => Raise (mk_exn KeyError "0")
  | _ => Raise (mk_exn TypeError ("'" ++ type_name v ++ "' object is not subscriptable"))
  end.

(** [v[:n]] for [n >= 0]. *)
Definition py_prefix (v : pyval) (n : nat) : Res pyval :=
  match v with
  | PList l => Ok (PList (firstn n l))
  | PStr s => Ok (PStr (String.substring 0 n s))
  | PDict _ => Raise (mk_exn TypeError "unhashable type: 'slice'")
  | _ => Raise (mk_exn TypeError ("'" ++ type_name v ++ "' object is not subscriptable"))
  end.

End Py.
Import Py.

(* ===================================================================== *)
(** ** Strings: the [str] methods the sources call *)
(* ===================================================================== *)

Module Str.

Definition chr (n : nat) : string := String (ascii_of_nat n) "".

(** The double quote and the line feed, which a literal cannot hold. *)
Definition dq : string := chr 34.
Definition nl : string := chr 10.

Definition code (c : ascii) : N := N_of_ascii c.

(** [c.isspace()] on the code points below 256. *)
Definition is_space (c : ascii) : bool :=
  let n := code c in
  ((9 <=? n) && (n <=? 13) || (28 <=? n) && (n <=? 32) || (n =? 133) || (n =? 160))%N.

(** [\d] / [c.isdecimal()] on the code points below 256. *)
Definition is_digit (c : ascii) : bool :=
  let n := code c in ((48 <=? n) && (n <=? 57))%N.

(** [c.isalnum()] on the code points below 256: letters, decimal digits
    and the numeric characters (superscripts and vulgar fractions). *)
Definition is_alnum (c : ascii) : bool :=
  let n := code c in
  (is_digit c
   || (65 <=? n) && (n <=? 90) || (97 <=? n) && (n <=? 122)
   || (n =? 170) || (n =? 178) || (n =? 179) || (n =? 181)
   || (n =? 185) || (n =? 186) || (188 <=? n) && (n <=? 190)
   || (192 <=? n) && (n <=? 214) || (216 <=? n) && (n <=? 246)
   || (248 <=? n))%N.

Fixpoint lstrip (s : string) : string :=
  match s with
  | String c s' => if is_space c then lstrip s' else s
  | EmptyString => s
  end.

Fixpoint rev_onto (s acc : string) : string :=
  match s with
  | String c s' => rev_onto s' (String c acc)
  | EmptyString => acc
  end.

Definition rev (s : string) : string := rev_onto s "".

Definition rstrip (s : string) : string := rev (lstrip (rev s)).

(** [s.strip()] *)
Definition strip (s : string) : string := rstrip (lstrip s).

Fixpoint drop (n : nat) (s : string) : string :=
  match n, s with
  | S n', String _ s' => drop n' s'
  | _, _ => s
  end.

(** [s[a:b]] for [0 <= a] and [0 <= b]. *)
Definition slice (s : string) (a b : Z) : string :=
  String.substring (Z.to_nat a) (Z.to_nat (b - a)) s.

(** [s.find(x)]: the lowest index where [x] starts, or [-1]. *)
Fixpoint find (x s : string) : Z :=
  if String.prefix x s then 0
  else match s with
       | EmptyString => -1
       | String _ s' => let i := find x s' in if i <? 0 then -1 else i + 1
       end.

(** [s.rfind(x)]: the highest index where [x] starts, or [-1]. *)
Fixpoint rfind (x s : string) : Z :=
  match s with
  | EmptyString => if String.prefix x s then 0 else -1
  | String _ s' =>
      let i := rfind x s' in
      if 0 <=? i then i + 1 else if String.prefix x s then 0 else -1
  end.

(** [x in s] *)
Definition contains (x s : string) : bool := 0 <=? find x s.

(** [s.split(sep)] for a non-empty [sep]: [skip] counts the characters of a
    separator just matched that are still to be passed over, [cur] is the
    piece read so far. *)
Fixpoint split_go (sep : string) (skip : nat) (cur : string) (s : string) : list string :=
  match s with
  | EmptyString => [cur]
  | String c s' =>
      match skip with
      | S k => split_go sep k cur s'
      | O =>
          if String.prefix sep s
          then cur :: split_go sep (String.length sep - 1) "" s'
          else split_go sep 0 (cur ++ String c "") s'
      end
  end.

Definition split (sep s : string) : list string := split_go sep 0 "" s.

(** [s.replace(x, y)] for a non-empty [x]. *)
Definition replace (x y s : string) : string := String.concat y (split x s).

(** [sep.join(l)] *)
Definition join (sep : string) (l : list string) : string := String.concat sep l.

Definition is_empty (s : string) : bool :=
  match s with EmptyString => true | _ => false end.

End Str.

(* ===================================================================== *)
(** ** Regular expressions: the fragment of [re] the sources' patterns use *)
(* ===================================================================== *)

Module Re.

(** A pattern is a sequence of items, matched by backtracking in the order
    Python's engine tries the alternatives. *)
Inductive item : Type :=
| Lit (s : string)
    (** literal text *)
| Opt (c : ascii)
    (** [c?] *)
| Rep (cls : ascii -> bool) (at_least_one greedy capture : bool).
    (** [cls*], [cls+], [cls*?]; in a capturing group when [capture] *)

Record found : Type := mk_found {
  groups : list string;   (** [group(1)], [group(2)], ... *)
  matched : string;       (** [group(0)] *)
  rest : string           (** what follows the match *)
}.

Definition any (_ : ascii) : bool := true.

Section Repeat.
Context {A : Type}.

(** As many characters of the class as possible, then one fewer, ... *)
Fixpoint rep_greedy (cls : ascii -> bool) (s taken : string)
    (k : string -> string -> option A) : option A :=
  match s with
  | String c s' =>
      if cls c
      then match rep_greedy cls s' (taken ++ String c "") k with
           | Some r => Some r
           | None => k taken s
           end
      else k taken s
  | EmptyString => k taken s
  end.

(** As few characters of the class as possible, then one more, ... *)
Fixpoint rep_lazy (cls : ascii -> bool) (s taken : string)
    (k : string -> string -> option A) : option A :=
  match k taken s with
  | Some r => Some r
  | None =>
      match s with
      | String c s' => if cls c then rep_lazy cls s' (taken ++ String c "") k else None
      | EmptyString => None
      end
  end.
End Repeat.

(** [re.match]: the pattern at the start of [s]; [m] and [gs] are the text
    and the groups matched so far. *)
Fixpoint match_here (p : list item) (s m : string) (gs : list string) : option found :=
  match p with
  | [] => Some (mk_found gs m s)
  | Lit x :: p' =>
      if String.prefix x s
      then match_here p' (Str.drop (String.length x) s) (m ++ x) gs
      else None
  | Opt c :: p' =>
      match s with
      | String c' s' =>
          if Ascii.eqb c c'
          then match match_here p' s' (m ++ String c "") gs with
               | Some r => Some r
               | None => match_here p' s m gs
               end
          else match_here p' s m gs
      | EmptyString => match_here p' s m gs
      end
  | Rep cls at_least_one greedy capture :: p' =>
      (if greedy then rep_greedy else rep_lazy) cls s ""
        (fun taken s' =>
           if at_least_one && Str.is_empty taken then None
           else match_here p' s' (m ++ taken)
                  (if capture then (gs ++ [taken])%list else gs))
  end.

Definition re_match (p : list item) (s : string) : option found :=
  match_here p s "" [].

(** [re.search]: the leftmost position where the pattern matches. *)
Fixpoint search (p : list item) (s : string) : option found :=
  match re_match p s with
  | Some r => Some r
  | None =>
      match s with
      | String _ s' => search p s'
      | EmptyString => None
      end
  end.

(** [m.group(i)] for [i >= 1]. *)
Definition group (r : found) (i : nat) : string := nth (i - 1) (groups r) "".

End Re.

(* ===================================================================== *)
(** ** The world outside: library functions, collaborators, events *)
(* ===================================================================== *)

(** Functions of the Python runtime and its standard library. *)
Record Runtime : Type := {
  json_loads : string -> Res pyval;   (** [json.loads(s)] *)
  json_dumps : pyval -> string;       (** [json.dumps(v)] *)
  py_float : pyval -> option float;   (** [float(v)]; [None] when it raises *)
  py_str : pyval -> string;           (** [str(v)], what an f-string inserts *)
  py_repr : pyval -> string;          (** [repr(v)] *)
  str_upper : string -> string;       (** [s.upper()] *)
  str_lower : string -> string        (** [s.lower()] *)
}.

(** The language-model agents, one per component that owns one. *)
Inductive Agent : Type :=
| ParserLLM | RouterLLM | PlannerLLM | GuardrailLLM
| ExecutorLLM | VerifierLLM | ExplainerLLM | CalculatorLLM.

(** What SymPy gives for an expression: [str(simplified)],
    [float(simplified.evalf())] when that succeeds, [latex(simplified)]. *)
Record SympyValue : Type := {
  sym_str : string;
  sym_float : option float;
  sym_latex : string
}.

(** The collaborators: every answer may also be an exception. *)
Record Services : Type := {
  agent_run : Agent -> string -> Res string;
    (** [agent.run(prompt).content] *)
  ocr_reader : option (string -> Res (list string));
    (** [reader.readtext(path, detail=0)]; [None] when easyocr is missing *)
  whisper_model : option (string -> Res (list string));
    (** the text of the segments of [whisper_model.transcribe(path)] *)
  sympy_eval : string -> Res SympyValue;
    (** [simplify(parse_expr(expression))] *)
  collection_query : pyval -> Z -> Res pyval;
    (** [collection.query(query_texts=[q], n_results=n)] *)
  collection_add : list string -> list pydict -> list string -> Res unit;
    (** [collection.add(documents, metadatas, ids)] *)
  uuid4 : string
    (** [str(uuid.uuid4())] *)
}.

Inductive event : Type :=
| AgentRun (a : Agent) (prompt : string) (r : Res string)
| OcrRead (path : string) (r : Res (list string))
| AsrTranscribe (path : string) (r : Res (list string))
| SympyEval (expression : string) (r : Res SympyValue)
| StoreQuery (q : pyval) (n : Z) (r : Res pyval)
| StoreAdd (docs : list string) (metas : list pydict) (ids : list string) (r : Res unit)
| CreateSession (sid : string)
| LogInteraction (sid role : string) (content : pyval).

(** A computation: the events it caused, in order, and how it ended. *)
Definition M (A : Type) : Type := (list event * Res A)%type.

Definition ret {A} (a : A) : M A := ([], Ok a).

Definition raise {A} (e : exn) : M A := ([], Raise e).

Definition bind {A B} (m : M A) (f : A -> M B) : M B :=
  match m with
  | (t, Ok a) => let (t', r) := f a in ((t ++ t')%list, r)
  | (t, Raise e) => (t, Raise e)
  end.

(** [try: m except Exception as e: h e] *)
Definition try_except {A} (m : M A) (h : exn -> M A) : M A :=
  match m with
  | (t, Ok a) => (t, Ok a)
  | (t, Raise e) => let (t', r) := h e in ((t ++ t')%list, r)
  end.

Definition lift {A} (r : Res A) : M A := ([], r).

Definition emit (ev : event) : M unit := ([ev], Ok tt).

Definition trace {A} (m : M A) : list event := fst m.
Definition result {A} (m : M A) : Res A := snd m.

Declare Scope py_scope.
Delimit Scope py_scope with py.
Notation "x <- m ;; k" := (bind m (fun x => k))
  (at level 61, m at next level, right associativity) : py_scope.
Notation "m ;;; k" := (bind m (fun _ => k))
  (at level 61, right associativity) : py_scope.
Local Open Scope py_scope.

Section Calls.
Variable sv : Services.

Definition run_agent (a : Agent) (prompt : string) : M string :=
  let r := agent_run sv a prompt in ([AgentRun a prompt r], r).

Definition run_sympy (expression : string) : M SympyValue :=
  let r := sympy_eval sv expression in ([SympyEval expression r], r).

Definition store_query (q : pyval) (n : Z) : M pyval :=
  let r := collection_query sv q n in ([StoreQuery q n r], r).

Definition store_add (docs : list string) (metas : list pydict) (ids : list string) : M unit :=
  let r := collection_add sv docs metas ids in ([StoreAdd docs metas ids r], r).
End Calls.

(* ===================================================================== *)
(** ** Robust JSON extraction (the block shared by the guardrail, the
       verifier and the parser) *)
(* ===================================================================== *)

(** The pattern of a fenced block: three backquotes and [json], white
    space, the shortest text (any character, as with [re.DOTALL]) up to the
    next three backquotes. *)
Definition json_fence : list Re.item :=
  [Re.Lit "```json"; Re.Rep Str.is_space false true false;
   Re.Rep Re.any false false true; Re.Lit "```"].

(** The text handed to [json.loads]: the inside of the first fenced block,
    stripped; failing that, from the first opening brace to the last closing
    brace; failing that, the response as it is. *)
Definition extract_json (content_str : string) : string :=
  match Re.search json_fence content_str with
  | Some m => Str.strip (Re.group m 1)
  | None =>
      let start := Str.find "{" content_str in
      let end_ := Str.rfind "}" content_str + 1 in
      if negb (start =? -1) && negb (end_ =? 0)
      then Str.slice content_str start end_
      else content_str
  end.

(* ===================================================================== *)
(** ** agents/guardrail_agent.py *)
(* ===================================================================== *)

Module GuardrailAgent.
Section WithWorld.
Variable rt : Runtime.
Variable sv : Services.

(** The verdict returned when the evaluator's answer cannot be decoded. *)
Definition fail_closed (e : exn) : pyval :=
  PDict [("is_safe", PBool false);
         ("violation_type", PStr "Guardrail_Error");
         ("reason", PStr ("Guardrail failed to parse confirmation: " ++ exn_str e));
         ("recommended_action", PStr "TRIGGER_HITL")].

Definition check (problem_text : pyval) (plan : string) : M pyval :=
  let prompt := "Problem: " ++ py_str rt problem_text ++ Str.nl ++ Str.nl
                ++ "Proposed Plan:" ++ Str.nl ++ plan in
  content_str <- run_agent sv GuardrailLLM prompt ;;
  try_except
    (lift (json_loads rt (extract_json content_str)))
    (fun e => ret (fail_closed e)).

End WithWorld.
End GuardrailAgent.

(* ===================================================================== *)
(** ** tools/calculator.py *)
(* ===================================================================== *)

Module Calculator.

Definition digits : Re.item := Re.Rep Str.is_digit true true true.
Definition spaces0 : Re.item := Re.Rep Str.is_space false true false.
Definition spaces1 : Re.item := Re.Rep Str.is_space true true false.

(** The fast-path patterns, in the order the dict holds them, each with the
    expression it produces. *)
Definition simple_patterns : list (list Re.item * (Re.found -> string)) :=
  [ ([Re.Lit "square root of"; spaces1; digits],
     fun m => "sqrt(" ++ Re.group m 1 ++ ")");
    ([Re.Lit "sqrt"; spaces0; Re.Opt "("; spaces0; digits; Re.Opt ")"],
     fun m => "sqrt(" ++ Re.group m 1 ++ ")");
    ([digits; spaces1; Re.Lit "squared"],
     fun m => "(" ++ Re.group m 1 ++ ")**2");
    ([digits; spaces0; Re.Lit "^"; spaces0; digits],
     fun m => "(" ++ Re.group m 1 ++ ")**" ++ Re.group m 2) ].

Fixpoint first_match (ps : list (list Re.item * (Re.found -> string))) (s : string)
    : option string :=
  match ps with
  | [] => None
  | (pattern, replacement) :: ps' =>
      match Re.search pattern s with
      | Some m => Some (replacement m)
      | None => first_match ps' s
      end
  end.

Section WithWorld.
Variable rt : Runtime.
Variable sv : Services.

(** [query.lower()] needs a [str]. *)
Definition _try_simple_parse (query : pyval) : Res (option string) :=
  match query with
  | PStr q =>
      let query_lower := Str.strip (str_lower rt q) in
      Ok (first_match simple_patterns query_lower)
  | _ => Raise (mk_exn AttributeError
           ("'" ++ type_name query ++ "' object has no attribute 'lower'"))
  end.

Definition _try_llm_parse (query : pyval) : M (bool * option string) :=
  try_except
    (content <- run_agent sv CalculatorLLM ("Convert: " ++ py_str rt query) ;;
     let expr := Str.strip content in
     if Str.contains "ERROR_NOT_MATH" expr then ret (false, None)
     else
       let expr := Str.strip (Str.replace "python" "" (Str.replace "```" "" expr)) in
       ret (true, Some expr))
    (fun _ => ret (false, None)).

(** [(success, expression, error_message)] *)
Definition parse_query (query : pyval) : M (bool * option string * option string) :=
  simple_expr <- lift (_try_simple_parse query) ;;
  match simple_expr with
  | Some (String c e) => ret (true, Some (String c e), None)
  | _ =>
      r <- _try_llm_parse query ;;
      let (success, llm_expr) := r in
      if success then ret (true, llm_expr, None)
      else ret (false, None, Some "Could not parse mathematical expression")
  end.

Definition opt_float (o : option float) : pyval :=
  match o with Some f => PFloat f | None => PNone end.

Definition compute (expression : string) : M pydict :=
  try_except
    (v <- run_sympy sv expression ;;
     ret [("success", PBool true);
          ("symbolic", PStr (sym_str v));
          ("numerical", opt_float (sym_float v));
          ("latex", PStr (sym_latex v));
          ("engine", PStr "sympy")])
    (fun e =>
       ret [("success", PBool false);
            ("error", PStr ("SymPy computation failed: " ++ exn_str e))]).

Definition opt_str (o : option string) : pyval :=
  match o with Some s => PStr s | None => PNone end.

Definition solve_arithmetic (query : pyval) : M pydict :=
  p <- parse_query query ;;
  let '(success, expression, error) := p in
  if negb success then
    ret [("success", PBool false); ("error", opt_str error); ("raw_query", query)]
  else
    match expression with
    | Some expression =>
        result <- compute expression ;;
        let result := dict_set result "parsed_expression" (PStr expression) in
        let result := dict_set result "original_query" query in
        ret result
    | None =>
        (* not reached: [parse_query] reports success with an expression *)
        raise (mk_exn TypeError "expression is None")
    end.

End WithWorld.
End Calculator.

(* ===================================================================== *)
(** ** agents/solver_agent.py *)
(* ===================================================================== *)

(** The dict a solution attempt is returned as. The keys [plan], [steps],
    [final_answer] and [confidence] are always there; [error], [context] and
    [tool_used] are there on some paths only. *)
Record Solution : Type := {
  sol_plan : string;
  sol_steps : list string;
  sol_final_answer : string;
  sol_confidence : float;
  sol_error : option string;
  sol_context : option pyval;
  sol_tool_used : option string
}.

Definition opt_entry {A} (k : string) (f : A -> pyval) (o : option A) : pydict :=
  match o with Some a => [(k, f a)] | None => [] end.

(** The same dict as a Python value, for the log. *)
Definition solution_to_py (s : Solution) : pyval :=
  PDict ([("plan", PStr (sol_plan s));
          ("steps", PList (map PStr (sol_steps s)));
          ("final_answer", PStr (sol_final_answer s));
          ("confidence", PFloat (sol_confidence s))]
         ++ opt_entry "error" PStr (sol_error s)
         ++ opt_entry "context" (fun v => v) (sol_context s)
         ++ opt_entry "tool_used" PStr (sol_tool_used s))%list.

Module SolverAgent.

(** [a, b = l] *)
Definition unpack2 (l : list string) : Res (string * string) :=
  match l with
  | [a; b] => Ok (a, b)
  | _ :: _ :: _ :: _ => Raise (mk_exn ValueError "too many values to unpack (expected 2)")
  | [_] => Raise (mk_exn ValueError "not enough values to unpack (expected 2, got 1)")
  | [] => Raise (mk_exn ValueError "not enough values to unpack (expected 2, got 0)")
  end.

(** [l[1]] *)
Definition second (l : list string) : Res string :=
  match l with
  | _ :: x :: _ => Ok x
  | _ => Raise (mk_exn IndexError "list index out of range")
  end.

(** The pattern [^\d+\.\s*] of the numbering of a step. *)
Definition numbering : list Re.item :=
  [Re.Rep Str.is_digit true true false; Re.Lit "."; Re.Rep Str.is_space false true false].

(** [re.sub(r'^\d+\.\s*', '', s)] *)
Definition strip_numbering (s : string) : string :=
  match Re.re_match numbering s with
  | Some m => Re.rest m
  | None => s
  end.

(** [[line.strip() for line in steps_part.split('\n') if line.strip()]],
    then the numbering removed from each. *)
Definition parse_steps (steps_part : string) : list string :=
  let raw_steps :=
    map Str.strip
      (filter (fun line => negb (Str.is_empty (Str.strip line)))
              (Str.split Str.nl steps_part)) in
  map strip_numbering raw_steps.

Section WithWorld.
Variable rt : Runtime.
Variable sv : Services.

Definition _solve_with_tool (problem_text : pyval) : M Solution :=
  result <- Calculator.solve_arithmetic rt sv problem_text ;;
  success <- lift (py_item (PDict result) "success") ;;
  if truthy success then
    ret {| sol_plan := "Direct computation via SymPy";
           sol_steps :=
             ["Parsed expression: "
                ++ py_str rt (dict_get_or result "parsed_expression" (PStr "N/A"));
              "Computed exact value: "
                ++ py_str rt (dict_get_or result "symbolic" (PStr "N/A"))];
           sol_final_answer :=
             py_str rt (py_or (dict_get_none result "numerical")
                              (dict_get_none result "symbolic"));
           sol_confidence := 1.0;
           sol_error := None;
           sol_context := Some (PStr "Exact symbolic computation tool used");
           sol_tool_used := Some "calculator" |}
  else
    ret {| sol_plan := "Tool computation failed";
           sol_steps := [];
           sol_final_answer := "Error";
           sol_confidence := 0.0;
           sol_error := Some ("Calculator error: " ++ py_str rt (dict_get_none result "error"));
           sol_context := None;
           sol_tool_used := Some "calculator" |}.

(** The sections of the executor's answer: steps, final answer,
    confidence (lines 157 to 189 of the source, the body of the [try]). *)
Definition extract_sections (content_str : string) : Res (list string * string * float) :=
  let steps := [] in
  let final_answer := "Error" in
  let confidence := 0.0%float in
  let extracted : Res (list string * string * float) :=
    if Str.contains "---STEPS---" content_str then
      match second (Str.split "---STEPS---" content_str) with
      | Raise e => Raise e
      | Ok parts =>
          if Str.contains "---FINAL_ANSWER---" parts then
            match unpack2 (Str.split "---FINAL_ANSWER---" parts) with
            | Raise e => Raise e
            | Ok (steps_part, remaining) =>
                let steps := parse_steps steps_part in
                if Str.contains "---CONFIDENCE---" remaining then
                  match unpack2 (Str.split "---CONFIDENCE---" remaining) with
                  | Raise e => Raise e
                  | Ok (ans_part, conf_part) =>
                      let final_answer := Str.strip ans_part in
                      let confidence :=
                        match py_float rt (PStr (Str.strip conf_part)) with
                        | Some f => f
                        | None => 1.0%float
                        end in
                      Ok (steps, final_answer, confidence)
                  end
                else Ok (steps, Str.strip remaining, confidence)
            end
          else Ok (steps, final_answer, confidence)
      end
    else Ok (steps, final_answer, confidence) in
  match extracted with
  | Raise e => Raise e
  | Ok (steps, final_answer, confidence) =>
      match steps with
      | [] => Raise (mk_exn ValueError "Could not extract steps with delimiters")
      | _ => Ok (steps, final_answer, confidence)
      end
  end.

Definition is_arithmetic (problem_type : option string) : bool :=
  match problem_type with Some t => String.eqb t "ARITHMETIC" | None => false end.

(** Step 1 of [solve]: when no context was supplied, the nearest document
  of the knowledge store, cut to 1500 characters. *)
Definition retrieve (problem_text context_str : pyval) : M pyval :=
if negb (truthy context_str) then
  results <- store_query sv problem_text 1 ;;
  documents <- lift (py_get results "documents" (PList [PList []])) ;;
  docs <- lift (py_first documents) ;;
  if truthy docs then
    doc <- lift (py_first docs) ;;
    lift (py_prefix doc 1500)
  else ret (PStr "")
else ret context_str.

Definition solve (problem_text : pyval) (problem_type : option string)
    (context_str : pyval) : M Solution :=
  if is_arithmetic problem_type then _solve_with_tool problem_text
  else
    (* 1. retrieval, bounded *)
    context_str <- retrieve problem_text context_str ;;
    (* 2. planning, without the context *)
    plan <- run_agent sv PlannerLLM
              ("Problem: " ++ py_str rt problem_text ++ Str.nl ++ "Create a strategy plan.") ;;
    (* the guardrail *)
    guard_result <- GuardrailAgent.check rt sv problem_text plan ;;
    is_safe <- lift (py_get guard_result "is_safe" (PBool false)) ;;
    if negb (truthy is_safe) then
      violation_type <- lift (py_get guard_result "violation_type" PNone) ;;
      reason <- lift (py_get guard_result "reason" PNone) ;;
      recommended_action <- lift (py_get guard_result "recommended_action" PNone) ;;
      ret {| sol_plan := plan;
             sol_steps := [];
             sol_final_answer := "Guardrail Intercepted";
             sol_confidence := 0.0;
             sol_error :=
               Some ("Guardrail Violation: " ++ py_str rt violation_type ++ " - "
                     ++ py_str rt reason ++ ". Rec: " ++ py_str rt recommended_action);
             sol_context := Some context_str;
             sol_tool_used := None |}
    else
      (* 3. execution, with the context *)
      let input_prompt :=
        "Problem: " ++ py_str rt problem_text ++ Str.nl
        ++ "Context Highlghts: " ++ py_str rt context_str ++ Str.nl
        ++ "Plan: " ++ plan ++ Str.nl
        ++ "Execute this and return with ---SECTION--- delimiters." in
      content <- run_agent sv ExecutorLLM input_prompt ;;
      (* 4. parsing *)
      try_except
        (r <- lift (extract_sections content) ;;
         let '(steps, final_answer, confidence) := r in
         ret {| sol_plan := plan;
                sol_steps := steps;
                sol_final_answer := final_answer;
                sol_confidence := confidence;
                sol_error := None;
                sol_context := Some context_str;
                sol_tool_used := None |})
        (fun e =>
           ret {| sol_plan := plan;
                  sol_steps := ["Error parsing solver output"];
                  sol_final_answer := "Error";
                  sol_confidence := 0.0;
                  sol_error := Some ("Solver Parse Error: " ++ exn_str e
                                     ++ ". Raw: " ++ content);
                  sol_context := None;
                  sol_tool_used := None |}).

End WithWorld.
End SolverAgent.

(* ===================================================================== *)
(** ** agents/verifier_agent.py *)
(* ===================================================================== *)

(** The dict the orchestrator rebuilds for the verifier. *)
Record SolutionData : Type := {
  sd_steps : list string;
  sd_final_answer : pyval;
  sd_tool_used : option string
}.

Definition solution_data_to_py (d : SolutionData) : pyval :=
  PDict [("steps", PList (map PStr (sd_steps d)));
         ("final_answer", sd_final_answer d);
         ("tool_used", match sd_tool_used d with Some t => PStr t | None => PNone end)].

Definition is_calculator (tool_used : option string) : bool :=
  match tool_used with Some t => String.eqb t "calculator" | None => false end.

Module VerifierAgent.
Section WithWorld.
Variable rt : Runtime.
Variable sv : Services.

(** [-1e100 < x < 1e100] *)
Definition in_range (num_val : float) : bool :=
  PrimFloat.ltb (-1e100)%float num_val && PrimFloat.ltb num_val 1e100%float.

Definition _sanity_check_calculator (solution_data : SolutionData) : bool :=
  let final_answer := sd_final_answer solution_data in
  (* Check 1: the answer exists *)
  match final_answer with
  | PNone => false
  | PStr EmptyString => false
  | _ =>
      (* Check 2: not NaN or infinity; a symbolic answer is let through *)
      let out_of_range :=
        match py_float rt final_answer with
        | Some num_val => negb (in_range num_val)
        | None => false
        end in
      if out_of_range then false
      else
        (* Check 3: steps exist *)
        match sd_steps solution_data with
        | [] => false
        | _ => true
        end
  end.

Definition tool_verdict : pyval :=
  PDict [("is_correct", PBool true);
         ("critique", PStr "Correct (verified by SymPy calculator)");
         ("adjusted_confidence", PFloat 1.0);
         ("verification_method", PStr "symbolic")].

Definition parse_failure (e : exn) (content : string) : pyval :=
  PDict [("is_correct", PBool false);
         ("critique", PStr ("JSON parsing failed. Error: " ++ exn_str e
                            ++ ". Raw response: " ++ content));
         ("adjusted_confidence", PFloat 0.0)].

Definition strict_header : string :=
  "STRICT AUDIT MODE ENABLED." ++ Str.nl
  ++ "1. CHECK EVERY SINGLE ALGEBRAIC STEP." ++ Str.nl
  ++ "2. FAIL IF ANY DOMAIN RESTRICTION IS MISSED." ++ Str.nl
  ++ "3. FAIL IF PLAN DOES NOT MATCH EXECUTION." ++ Str.nl.

Definition verify (problem_text : pyval) (solution_data : SolutionData)
    (strict : bool) : M pyval :=
  if is_calculator (sd_tool_used solution_data)
     && _sanity_check_calculator solution_data
  then ret tool_verdict
  else
    let solution_str := json_dumps rt (solution_data_to_py solution_data) in
    let prompt := "Problem: " ++ py_str rt problem_text ++ Str.nl
                  ++ "Solution: " ++ solution_str ++ Str.nl ++ "Verify this." in
    let prompt := if strict then strict_header ++ prompt else prompt in
    content <- run_agent sv VerifierLLM prompt ;;
    try_except
      (lift (json_loads rt (extract_json content)))
      (fun e => ret (parse_failure e content)).

End WithWorld.
End VerifierAgent.

(* ===================================================================== *)
(** ** agents/explainer_agent.py *)
(* ===================================================================== *)

Module ExplainerAgent.
Section WithWorld.
Variable rt : Runtime.
Variable sv : Services.

(** [\{.*\}] with [re.DOTALL]: from the first opening brace to the last
    closing brace after it. *)
Definition braces : list Re.item :=
  [Re.Lit "{"; Re.Rep Re.any false true false; Re.Lit "}"].

Definition explain (problem_text : pyval) (solution_steps : list string)
    (final_answer : pyval) (category : pyval) : M pyval :=
  let prompt :=
    Str.nl ++ "Problem: " ++ py_str rt problem_text ++ Str.nl
    ++ "Category: " ++ py_str rt category ++ Str.nl
    ++ "Steps: " ++ py_str rt (PList (map PStr solution_steps)) ++ Str.nl
    ++ "Final Answer: " ++ py_str rt final_answer ++ Str.nl ++ Str.nl
    ++ "Generate a structured JEE-style explanation following the output format."
    ++ Str.nl in
  content <- run_agent sv ExplainerLLM prompt ;;
  try_except
    (match Re.search braces content with
     | Some m => lift (json_loads rt (Re.matched m))
     | None =>
         ret (PDict [("concept", category);
                     ("strategy", PStr "Direct computation");
                     ("key_insight", PStr (String.substring 0 200 content));
                     ("learning_points", PList [PStr "Review the solution carefully"]);
                     ("common_mistakes", PList []);
                     ("difficulty", PStr "Medium");
                     ("jee_relevance", PStr "JEE Main")])
     end)
    (fun e =>
       ret (PDict [("concept", category);
                   ("strategy", PStr "Standard approach");
                   ("key_insight", PStr (String.substring 0 300 content));
                   ("learning_points", PList [PStr "Focus on the methodology"]);
                   ("common_mistakes", PList []);
                   ("difficulty", PStr "Medium");
                   ("jee_relevance", PStr "JEE Main");
                   ("error", PStr (exn_str e))])).

End WithWorld.
End ExplainerAgent.

(* ===================================================================== *)
(** ** agents/intent_router_agent.py *)
(* ===================================================================== *)

Module IntentRouterAgent.
Section WithWorld.
Variable rt : Runtime.
Variable sv : Services.

Definition route (problem_text : pyval) : M string :=
  content <- run_agent sv RouterLLM ("Classify this problem: " ++ py_str rt problem_text) ;;
  ret (str_upper rt (Str.strip content)).

End WithWorld.
End IntentRouterAgent.

(* ===================================================================== *)
(** ** agents/parser_agent.py *)
(* ===================================================================== *)

Module ParserAgent.

(** The markers of a corrupted transcript. The source lists two more, each
    a Greek letter followed by [1]; no string of code points below 256
    contains them. *)
Definition corruption_markers : list string :=
  ["&"; "~"; "Xt"; "X1"; "?="; "--"; "|"; "ERROR"; "sec8"; "tane"].

Fixpoint count_clean (text : string) : nat :=
  match text with
  | EmptyString => 0%nat
  | String c text' =>
      ((if Str.is_alnum c || Str.is_space c then 1 else 0) + count_clean text')%nat
  end.

Definition float_of_nat (n : nat) : float :=
  PrimFloat.of_uint63 (Uint63.of_Z (Z.of_nat n)).

Definition looks_corrupted (text : string) : bool :=
  if Str.is_empty text || (String.length text <? 3)%nat then true
  else if existsb (fun marker => Str.contains marker text) corruption_markers then true
  else
    PrimFloat.ltb
      (PrimFloat.div (float_of_nat (count_clean text)) (float_of_nat (String.length text)))
      0.5%float.

Definition required_keys : list string :=
  ["problem_text"; "input_type"; "is_ambiguous"; "ambiguity_reason"].

(** [path] when it is given and not empty, as [if path:] tests it. *)
Definition given (o : option string) : option string :=
  match o with
  | Some (String c s) => Some (String c s)
  | _ => None
  end.

(** [l.append(x)] *)
Definition append (l : list string) (x : string) : list string := (l ++ [x])%list.

Section WithWorld.
Variable rt : Runtime.
Variable sv : Services.

Definition process_image (image_path : string) : M string :=
  match ocr_reader sv with
  | None => ret "ERROR_OCR_MISSING"
  | Some readtext =>
      let r := readtext image_path in
      bind (emit (OcrRead image_path r)) (fun _ =>
      match r with
      | Ok results => ret (Str.join " " results)
      | Raise _ => ret "ERROR_OCR_FAILED"
      end)
  end.

Definition process_audio (audio_path : string) : M string :=
  match whisper_model sv with
  | None => ret "ERROR_ASR_MISSING"
  | Some transcribe =>
      let r := transcribe audio_path in
      bind (emit (AsrTranscribe audio_path r)) (fun _ =>
      match r with
      | Ok segments => ret (Str.join " " segments)
      | Raise _ => ret "ERROR_ASR_FAILED"
      end)
  end.

Definition corrupted_result (input_type reason raw : string) : pydict :=
  [("problem_text", PStr "");
   ("input_type", PStr input_type);
   ("is_ambiguous", PBool true);
   ("ambiguity_reason", PStr reason);
   ("raw_input_combined", PStr raw);
   ("sources", PList [PStr input_type])].

(** Step 3 of [run]: decoding the model's answer and enforcing the schema
    (the body of the [try]). *)
Definition structure (content full_input_str : string) (input_sources : list string)
    : Res pydict :=
  match json_loads rt (extract_json content) with
  | Raise e => Raise e
  | Ok (PDict data) =>
      if negb (forallb (dict_mem data) required_keys) then
        Raise (mk_exn ValueError
                 ("Missing required JSON keys. Found: dict_keys("
                  ++ py_repr rt (PList (map (fun kv => PStr (fst kv)) data)) ++ ")"))
      else
        let data :=
          if truthy (dict_get_none data "ambiguity_reason") then
            dict_set data "is_ambiguous" (PBool true)
          else if truthy (dict_get_none data "is_ambiguous") then
            dict_set data "ambiguity_reason"
              (PStr "Ambiguous input detected (unspecified by parser)")
          else dict_set data "ambiguity_reason" PNone in
        let data := dict_set data "raw_input_combined" (PStr full_input_str) in
        let data := dict_set data "sources" (PList (map PStr input_sources)) in
        Ok data
  | Ok v => Raise (mk_exn AttributeError
              ("'" ++ type_name v ++ "' object has no attribute 'keys'"))
  end.

Definition run (text image_path audio_path : option string) : M pydict :=
  (* 1. extraction and the deterministic corruption check *)
  image_stage <-
    match given image_path with
    | Some path =>
        ocr_text <- process_image path ;;
        if looks_corrupted ocr_text then
          ret (inl (corrupted_result "image" "OCR output is corrupted or unreadable"
                      ("OCR Output: " ++ ocr_text)))
        else ret (inr (["OCR Output: " ++ ocr_text], ["image"]))
    | None => ret (inr ([], []))
    end ;;
  match image_stage with
  | inl halted => ret halted
  | inr (raw_inputs, input_sources) =>
  audio_stage <-
    match given audio_path with
    | Some path =>
        asr_text <- process_audio path ;;
        if looks_corrupted asr_text then
          ret (inl (corrupted_result "audio"
                      "Audio transcript is corrupted or unintelligible"
                      ("Audio Output: " ++ asr_text)))
        else ret (inr (append raw_inputs ("Audio Transcript: " ++ asr_text),
                       append input_sources "audio"))
    | None => ret (inr (raw_inputs, input_sources))
    end ;;
  match audio_stage with
  | inl halted => ret halted
  | inr (raw_inputs, input_sources) =>
  let '(raw_inputs, input_sources) :=
    match given text with
    | Some t => (append raw_inputs ("User Text: " ++ t), append input_sources "text")
    | None => (raw_inputs, input_sources)
    end in
  match raw_inputs with
  | [] =>
      ret [("problem_text", PStr "");
           ("input_type", PStr "none");
           ("is_ambiguous", PBool true);
           ("ambiguity_reason", PStr "No valid input provided");
           ("raw_input_combined", PStr "");
           ("sources", PList [])]
  | _ =>
      let full_input_str := Str.join Str.nl raw_inputs in
      (* 2. structuring by the model *)
      content <- run_agent sv ParserLLM
                   ("Process this raw input into structured JSON: " ++ Str.nl
                    ++ full_input_str) ;;
      (* 3. safe parsing and schema enforcement *)
      try_except
        (lift (structure content full_input_str input_sources))
        (fun e =>
           ret [("problem_text", PStr full_input_str);
                ("input_type", PList (map PStr input_sources));
                ("is_ambiguous", PBool true);
                ("ambiguity_reason", PStr ("Parser Error: " ++ exn_str e));
                ("raw_response", PStr content)])
  end
  end
  end.

End WithWorld.
End ParserAgent.

(* ===================================================================== *)
(** ** core/types.py *)
(* ===================================================================== *)

(** The session aggregate. Pydantic checks the fields when the object is
    built, not when one is assigned: a field assigned from a decoded verdict
    or from the feedback holds whatever value that was. *)
Record PipelineState : Type := {
  session_id : string;
  step : string;
  raw_input : option string;
  input_images : list string;
  input_audio : option string;
  parsed_data : pydict;
  problem_category : option string;
  solution_plan : option string;
  solution_steps : list string;
  final_answer : pyval;
  confidence : float;
  tool_used : option string;
  rag_context : pyval;
  verification_passed : pyval;
  critique : pyval;
  explanation : pyval;
  needs_hitl : bool;
  hitl_reason : option string
}.

(** Assignment to one field: [state.f = v]. *)
Definition set_step (v : string) (st : PipelineState) : PipelineState :=
  {| session_id := session_id st;
     step := v;
     raw_input := raw_input st;
     input_images := input_images st;
     input_audio := input_audio st;
     parsed_data := parsed_data st;
     problem_category := problem_category st;
     solution_plan := solution_plan st;
     solution_steps := solution_steps st;
     final_answer := final_answer st;
     confidence := confidence st;
     tool_used := tool_used st;
     rag_context := rag_context st;
     verification_passed := verification_passed st;
     critique := critique st;
     explanation := explanation st;
     needs_hitl := needs_hitl st;
     hitl_reason := hitl_reason st |}.

Definition set_parsed_data (v : pydict) (st : PipelineState) : PipelineState :=
  {| session_id := session_id st;
     step := step st;
     raw_input := raw_input st;
     input_images := input_images st;
     input_audio := input_audio st;
     parsed_data := v;
     problem_category := problem_category st;
     solution_plan := solution_plan st;
     solution_steps := solution_steps st;
     final_answer := final_answer st;
     confidence := confidence st;
     tool_used := tool_used st;
     rag_context := rag_context st;
     verification_passed := verification_passed st;
     critique := critique st;
     explanation := explanation st;
     needs_hitl := needs_hitl st;
     hitl_reason := hitl_reason st |}.

Definition set_problem_category (v : option string) (st : PipelineState) : PipelineState :=
  {| session_id := session_id st;
     step := step st;
     raw_input := raw_input st;
     input_images := input_images st;
     input_audio := input_audio st;
     parsed_data := parsed_data st;
     problem_category := v;
     solution_plan := solution_plan st;
     solution_steps := solution_steps st;
     final_answer := final_answer st;
     confidence := confidence st;
     tool_used := tool_used st;
     rag_context := rag_context st;
     verification_passed := verification_passed st;
     critique := critique st;
     explanation := explanation st;
     needs_hitl := needs_hitl st;
     hitl_reason := hitl_reason st |}.

Definition set_solution_plan (v : option string) (st : PipelineState) : PipelineState :=
  {| session_id := session_id st;
     step := step st;
     raw_input := raw_input st;
     input_images := input_images st;
     input_audio := input_audio st;
     parsed_data := parsed_data st;
     problem_category := problem_category st;
     solution_plan := v;
     solution_steps := solution_steps st;
     final_answer := final_answer st;
     confidence := confidence st;
     tool_used := tool_used st;
     rag_context := rag_context st;
     verification_passed := verification_passed st;
     critique := critique st;
     explanation := explanation st;
     needs_hitl := needs_hitl st;
     hitl_reason := hitl_reason st |}.

Definition set_solution_steps (v : list string) (st : PipelineState) : PipelineState :=
  {| session_id := session_id st;
     step := step st;
     raw_input := raw_input st;
     input_images := input_images st;
     input_audio := input_audio st;
     parsed_data := parsed_data st;
     problem_category := problem_category st;
     solution_plan := solution_plan st;
     solution_steps := v;
     final_answer := final_answer st;
     confidence := confidence st;
     tool_used := tool_used st;
     rag_context := rag_context st;
     verification_passed := verification_passed st;
     critique := critique st;
     explanation := explanation st;
     needs_hitl := needs_hitl st;
     hitl_reason := hitl_reason st |}.

Definition set_final_answer (v : pyval) (st : PipelineState) : PipelineState :=
  {| session_id := session_id st;
     step := step st;
     raw_input := raw_input st;
     input_images := input_images st;
     input_audio := input_audio st;
     parsed_data := parsed_data st;
     problem_category := problem_category st;
     solution_plan := solution_plan st;
     solution_steps := solution_steps st;
     final_answer := v;
     confidence := confidence st;
     tool_used := tool_used st;
     rag_context := rag_context st;
     verification_passed := verification_passed st;
     critique := critique st;
     explanation := explanation st;
     needs_hitl := needs_hitl st;
     hitl_reason := hitl_reason st |}.

Definition set_confidence (v : float) (st : PipelineState) : PipelineState :=
  {| session_id := session_id st;
     step := step st;
     raw_input := raw_input st;
     input_images := input_images st;
     input_audio := input_audio st;
     parsed_data := parsed_data st;
     problem_category := problem_category st;
     solution_plan := solution_plan st;
     solution_steps := solution_steps st;
     final_answer := final_answer st;
     confidence := v;
     tool_used := tool_used st;
     rag_context := rag_context st;
     verification_passed := verification_passed st;
     critique := critique st;
     explanation := explanation st;
     needs_hitl := needs_hitl st;
     hitl_reason := hitl_reason st |}.

Definition set_tool_used (v : option string) (st : PipelineState) : PipelineState :=
  {| session_id := session_id st;
     step := step st;
     raw_input := raw_input st;
     input_images := input_images st;
     input_audio := input_audio st;
     parsed_data := parsed_data st;
     problem_category := problem_category st;
     solution_plan := solution_plan st;
     solution_steps := solution_steps st;
     final_answer := final_answer st;
     confidence := confidence st;
     tool_used := v;
     rag_context := rag_context st;
     verification_passed := verification_passed st;
     critique := critique st;
     explanation := explanation st;
     needs_hitl := needs_hitl st;
     hitl_reason := hitl_reason st |}.

Definition set_rag_context (v : pyval) (st : PipelineState) : PipelineState :=
  {| session_id := session_id st;
     step := step st;
     raw_input := raw_input st;
     input_images := input_images st;
     input_audio := input_audio st;
     parsed_data := parsed_data st;
     problem_category := problem_category st;
     solution_plan := solution_plan st;
     solution_steps := solution_steps st;
     final_answer := final_answer st;
     confidence := confidence st;
     tool_used := tool_used st;
     rag_context := v;
     verification_passed := verification_passed st;
     critique := critique st;
     explanation := explanation st;
     needs_hitl := needs_hitl st;
     hitl_reason := hitl_reason st |}.

Definition set_verification_passed (v : pyval) (st : PipelineState) : PipelineState :=
  {| session_id := session_id st;
     step := step st;
     raw_input := raw_input st;
     input_images := input_images st;
     input_audio := input_audio st;
     parsed_data := parsed_data st;
     problem_category := problem_category st;
     solution_plan := solution_plan st;
     solution_steps := solution_steps st;
     final_answer := final_answer st;
     confidence := confidence st;
     tool_used := tool_used st;
     rag_context := rag_context st;
     verification_passed := v;
     critique := critique st;
     explanation := explanation st;
     needs_hitl := needs_hitl st;
     hitl_reason := hitl_reason st |}.

Definition set_critique (v : pyval) (st : PipelineState) : PipelineState :=
  {| session_id := session_id st;
     step := step st;
     raw_input := raw_input st;
     input_images := input_images st;
     input_audio := input_audio st;
     parsed_data := parsed_data st;
     problem_category := problem_category st;
     solution_plan := solution_plan st;
     solution_steps := solution_steps st;
     final_answer := final_answer st;
     confidence := confidence st;
     tool_used := tool_used st;
     rag_context := rag_context st;
     verification_passed := verification_passed st;
     critique := v;
     explanation := explanation st;
     needs_hitl := needs_hitl st;
     hitl_reason := hitl_reason st |}.

Definition set_explanation (v : pyval) (st : PipelineState) : PipelineState :=
  {| session_id := session_id st;
     step := step st;
     raw_input := raw_input st;
     input_images := input_images st;
     input_audio := input_audio st;
     parsed_data := parsed_data st;
     problem_category := problem_category st;
     solution_plan := solution_plan st;
     solution_steps := solution_steps st;
     final_answer := final_answer st;
     confidence := confidence st;
     tool_used := tool_used st;
     rag_context := rag_context st;
     verification_passed := verification_passed st;
     critique := critique st;
     explanation := v;
     needs_hitl := needs_hitl st;
     hitl_reason := hitl_reason st |}.

Definition set_needs_hitl (v : bool) (st : PipelineState) : PipelineState :=
  {| session_id := session_id st;
     step := step st;
     raw_input := raw_input st;
     input_images := input_images st;
     input_audio := input_audio st;
     parsed_data := parsed_data st;
     problem_category := problem_category st;
     solution_plan := solution_plan st;
     solution_steps := solution_steps st;
     final_answer := final_answer st;
     confidence := confidence st;
     tool_used := tool_used st;
     rag_context := rag_context st;
     verification_passed := verification_passed st;
     critique := critique st;
     explanation := explanation st;
     needs_hitl := v;
     hitl_reason := hitl_reason st |}.

Definition set_hitl_reason (v : option string) (st : PipelineState) : PipelineState :=
  {| session_id := session_id st;
     step := step st;
     raw_input := raw_input st;
     input_images := input_images st;
     input_audio := input_audio st;
     parsed_data := parsed_data st;
     problem_category := problem_category st;
     solution_plan := solution_plan st;
     solution_steps := solution_steps st;
     final_answer := final_answer st;
     confidence := confidence st;
     tool_used := tool_used st;
     rag_context := rag_context st;
     verification_passed := verification_passed st;
     critique := critique st;
     explanation := explanation st;
     needs_hitl := needs_hitl st;
     hitl_reason := v |}.

(** [PipelineState(session_id=..., raw_input=..., input_images=...,
    input_audio=...)], the other fields at their defaults. *)
Definition new_state (session_id : string) (raw_input : option string)
    (input_images : list string) (input_audio : option string) : PipelineState :=
  {| session_id := session_id;
     step := "init";
     raw_input := raw_input;
     input_images := input_images;
     input_audio := input_audio;
     parsed_data := [];
     problem_category := None;
     solution_plan := None;
     solution_steps := [];
     final_answer := PNone;
     confidence := 0.0;
     tool_used := None;
     rag_context := PNone;
     verification_passed := PBool false;
     critique := PNone;
     explanation := PNone;
     needs_hitl := false;
     hitl_reason := None |}.

(* ===================================================================== *)
(** ** database/memory.py and database/vector_store.py *)
(* ===================================================================== *)

(** The session memory is an append-only log; its two writes are events of
    the run. *)
Module Memory.

Definition create_session (session_id : string) : M unit :=
  emit (CreateSession session_id).

Definition log_interaction (session_id role : string) (content : pyval) : M unit :=
  emit (LogInteraction session_id role content).

End Memory.

Module VectorStore.
Section WithWorld.
Variable sv : Services.

Definition add_documents (documents : list string) (metadatas : list pydict)
    (ids : list string) : M unit :=
  store_add sv documents metadatas ids.

Definition query (query_text : pyval) (n_results : Z) : M pyval :=
  store_query sv query_text n_results.

End WithWorld.
End VectorStore.

(* ===================================================================== *)
(** ** core/orchestrator.py *)
(* ===================================================================== *)

Module Orchestrator.
Section WithWorld.
Variable rt : Runtime.
Variable sv : Services.

(** [state.parsed_data.get("problem_text", "")] *)
Definition problem_text_of (state : PipelineState) : pyval :=
  dict_get_or (parsed_data state) "problem_text" (PStr "").

(** The block headed Smart HITL Logic: from the solver's confidence, the
    verifier's confidence and the provenance to [needs_hitl] and
    [hitl_reason]. A comparison of a value that is not a number raises. *)
Definition smart_hitl_logic (verification : pyval) (state : PipelineState)
    : Res PipelineState :=
  let solver_conf := confidence state in
  match py_get verification "adjusted_confidence" (PFloat 1.0) with
  | Raise e => Raise e
  | Ok verifier_conf =>
      (* the default: HITL is needed unless shown otherwise *)
      let state := set_needs_hitl true state in
      if is_calculator (tool_used state) then
        match py_gt verifier_conf 0.5 with
        | Raise e => Raise e
        | Ok true => Ok (set_needs_hitl false state)
        | Ok false =>
            Ok (set_hitl_reason
                  (Some ("Calculator Sanity Check Failed: " ++ py_str rt (critique state)))
                  state)
        end
      else
        let consensus : Res bool :=
          if truthy (verification_passed state) then
            if PrimFloat.ltb 0.9 solver_conf then py_gt verifier_conf 0.7 else Ok false
          else Ok false in
        match consensus with
        | Raise e => Raise e
        | Ok true => Ok (set_needs_hitl false state)
        | Ok false =>
            if truthy (verification_passed state) && PrimFloat.ltb 0.95 solver_conf
            then Ok (set_needs_hitl false state)
            else
              Ok (set_hitl_reason
                    (Some ("Verification Failed. Solver: " ++ py_str rt (PFloat solver_conf)
                           ++ ", Verifier: " ++ py_str rt verifier_conf
                           ++ ", Critique: " ++ py_str rt (critique state)))
                    state)
        end
  end.

Definition run_solver_phase (state : PipelineState) : M PipelineState :=
  (* Step 3: solve *)
  solution <- SolverAgent.solve rt sv (problem_text_of state)
                (problem_category state) (PStr "") ;;
  let state := set_solution_steps (sol_steps solution) state in
  let state := set_final_answer (PStr (sol_final_answer solution)) state in
  let state := set_confidence (sol_confidence solution) state in
  let state := set_solution_plan (Some (sol_plan solution)) state in
  let state :=
    set_rag_context
      (match sol_context solution with
       | Some c => c
       | None => PStr "No context retrieved"
       end) state in
  let state := set_tool_used (sol_tool_used solution) state in
  Memory.log_interaction (session_id state) "solver" (solution_to_py solution) ;;;
  let state := set_step "solved" state in
  (* Step 4: verify *)
  let solution_data :=
    {| sd_steps := solution_steps state;
       sd_final_answer := final_answer state;
       sd_tool_used := tool_used state |} in
  verification <- VerifierAgent.verify rt sv (problem_text_of state) solution_data false ;;
  is_correct <- lift (py_item verification "is_correct") ;;
  let state := set_verification_passed is_correct state in
  critique <- lift (py_get verification "critique" (PStr "")) ;;
  let state := set_critique critique state in
  Memory.log_interaction (session_id state) "verifier" verification ;;;
  state <- lift (smart_hitl_logic verification state) ;;
  if needs_hitl state then
    ret (set_step "verified" state)
  else
    (* Step 5: explain *)
    explanation <- ExplainerAgent.explain rt sv (problem_text_of state)
                     (solution_steps state) (final_answer state)
                     (Calculator.opt_str (problem_category state)) ;;
    let state := set_explanation explanation state in
    Memory.log_interaction (session_id state) "explainer" explanation ;;;
    ret (set_step "complete" state).

Definition start_pipeline (text image_path audio_path session_id : option string)
    : M PipelineState :=
  session_id <-
    match ParserAgent.given session_id with
    | Some sid => ret sid
    | None =>
        let sid := uuid4 sv in
        Memory.create_session sid ;;; ret sid
    end ;;
  let state :=
    new_state session_id text
      (match ParserAgent.given image_path with Some p => [p] | None => [] end)
      audio_path in
  (* Step 1: parse *)
  parsed <- ParserAgent.run rt sv text image_path audio_path ;;
  let state := set_parsed_data parsed state in
  Memory.log_interaction session_id "parser" (PDict parsed) ;;;
  if truthy (dict_get_none parsed "is_ambiguous") then
    let state := set_needs_hitl true state in
    let state :=
      set_hitl_reason
        (Some ("Ambiguous Input: " ++ py_str rt (dict_get_none parsed "ambiguity_reason")))
        state in
    ret (set_step "parsed" state)
  else
    (* Step 2: route *)
    category <- IntentRouterAgent.route rt sv (dict_get_or parsed "problem_text" (PStr "")) ;;
    let state := set_problem_category (Some category) state in
    Memory.log_interaction session_id "router" (PStr category) ;;;
    let state := set_step "routed" state in
    (* Step 3: solve *)
    run_solver_phase state.

(** Whether [learn_from_success] goes on to write: the state has a problem
    text and a final answer. *)
Definition learnable (state : PipelineState) : bool :=
  truthy (dict_get_none (parsed_data state) "problem_text") && truthy (final_answer state).

Definition learn_from_success (state : PipelineState) : M unit :=
  if negb (learnable state) then ret tt
  else
    let doc_text :=
      "Problem: " ++ py_str rt (dict_get_none (parsed_data state) "problem_text") ++ Str.nl
      ++ "Solution Plan: " ++ py_str rt (Calculator.opt_str (solution_plan state)) ++ Str.nl
      ++ "Final Answer: " ++ py_str rt (final_answer state) in
    let metadata :=
      [("type", PStr "solved_example");
       ("category", Calculator.opt_str (problem_category state));
       ("confidence", PFloat 1.0);
       ("source", PStr "user_feedback")] in
    let doc_id := "learn_" ++ String.substring 0 8 (session_id state) in
    try_except
      (VectorStore.add_documents sv [doc_text] [metadata] [doc_id])
      (fun _ => ret tt).

Definition resume_with_feedback (state : PipelineState) (feedback : pydict)
    : M PipelineState :=
  if dict_mem feedback "corrected_text" then
    let corrected := dict_get_none feedback "corrected_text" in
    let state :=
      set_parsed_data (dict_set (parsed_data state) "problem_text" corrected) state in
    let state :=
      set_parsed_data (dict_set (parsed_data state) "is_ambiguous" (PBool false)) state in
    let state := set_needs_hitl false state in
    (* resume from routing *)
    category <- IntentRouterAgent.route rt sv
                  (dict_get_none (parsed_data state) "problem_text") ;;
    let state := set_problem_category (Some category) state in
    run_solver_phase state
  else if dict_mem feedback "override_answer" then
    let state := set_final_answer (dict_get_none feedback "override_answer") state in
    let state := set_needs_hitl false state in
    let state := set_verification_passed (PBool true) state in
    let state := set_step "verified" state in
    explanation <- ExplainerAgent.explain rt sv (problem_text_of state)
                     ["User provided solution"] (final_answer state)
                     (Calculator.opt_str (problem_category state)) ;;
    let state := set_explanation explanation state in
    let state := set_step "complete" state in
    learn_from_success state ;;;
    ret state
  else if dict_mem feedback "approve" && truthy (dict_get_none feedback "approve") then
    let state := set_needs_hitl false state in
    let state := set_verification_passed (PBool true) state in
    explanation <- ExplainerAgent.explain rt sv (problem_text_of state)
                     (solution_steps state) (final_answer state)
                     (Calculator.opt_str (problem_category state)) ;;
    let state := set_explanation explanation state in
    let state := set_step "complete" state in
    learn_from_success state ;;;
    ret state
  else ret state.

Definition handle_failure_feedback (state : PipelineState) : M PipelineState :=
  let solution_data :=
    {| sd_steps := solution_steps state;
       sd_final_answer := final_answer state;
       sd_tool_used := tool_used state |} in
  strict_result <- VerifierAgent.verify rt sv (problem_text_of state) solution_data true ;;
  critique <- lift (py_get strict_result "critique" (PStr "No issues found")) ;;
  let state := set_critique (PStr ("Strict Review: " ++ py_str rt critique)) state in
  is_correct <- lift (py_get strict_result "is_correct" (PBool false)) ;;
  let state := set_verification_passed is_correct state in
  if negb (truthy (verification_passed state)) then
    ret (set_hitl_reason (Some "User Rejected + Strict Verify Failed") state)
  else ret state.

End WithWorld.
End Orchestrator.

(* ===================================================================== *)
(** ** A model of the CPython runtime

    Concrete versions of the library functions of [Runtime], on strings of
    code points below 256. The properties below hold for every runtime;
    this one serves to run the pipeline on concrete inputs. *)
(* ===================================================================== *)

Module CPython.

Definition Z_to_string (z : Z) : string := NilZero.string_of_int (Z.to_int z).

(** *** Decimal text to binary64, correctly rounded *)

(** The integer nearest to [n / d], ties to even ([0 <= n], [0 < d]). *)
Definition round_div_even (n d : Z) : Z :=
  let q := n / d in
  let r := n mod d in
  match 2 * r ?= d with
  | Lt => q
  | Gt => q + 1
  | Eq => if Z.even q then q else q + 1
  end.

Definition signed_zero (neg : bool) : float := if neg then (-0)%float else 0%float.
Definition signed_inf (neg : bool) : float := if neg then neg_infinity else infinity.

(** The binary64 nearest to [m * 10^e], ties to even, for [0 <= m]. *)
Definition dec_to_float (neg : bool) (m e : Z) : float :=
  if m =? 0 then signed_zero neg
  else if 400 <? e + Z.log2 m / 4 then signed_inf neg
  else if e + Z.log2 m <? -1200 then signed_zero neg
  else
    let n := if 0 <=? e then m * 10 ^ e else m in
    let d := if 0 <=? e then 1 else 10 ^ (- e) in
    let k0 := Z.log2 n - Z.log2 d in
    (* [2^k <= n / d < 2^(k+1)] *)
    let k := if n * 2 ^ (Z.max 0 (- k0)) <? d * 2 ^ (Z.max 0 k0) then k0 - 1 else k0 in
    (* the exponent of the last place: 53 bits, or the subnormal grid *)
    let ex := Z.max (k - 52) (-1074) in
    let q := if 0 <=? ex then round_div_even n (d * 2 ^ ex)
             else round_div_even (n * 2 ^ (- ex)) d in
    if q =? 0 then signed_zero neg
    else if (971 <? ex) || ((ex =? 971) && (2 ^ 53 <=? q)) then signed_inf neg
    else SF2Prim (S754_finite neg (Z.to_pos q) ex).

Definition digit_val (c : ascii) : Z := Z.of_N (Str.code c) - 48.

(** The digits at the head of [s]: their value continuing [acc], how many
    there are, and what follows. *)
Fixpoint take_digits (s : string) (acc n : Z) : Z * Z * string :=
  match s with
  | String c s' =>
      if Str.is_digit c then take_digits s' (acc * 10 + digit_val c) (n + 1)
      else (acc, n, s)
  | EmptyString => (acc, n, s)
  end.

(** The same, with single underscores allowed between digits, as the
    [float] constructor allows them. *)
Fixpoint take_digits_us (s : string) (acc n : Z) : Z * Z * string :=
  match s with
  | String c s' =>
      if Str.is_digit c then take_digits_us s' (acc * 10 + digit_val c) (n + 1)
      else if Ascii.eqb c "_" && (0 <? n) then
        match s' with
        | String c' _ => if Str.is_digit c' then take_digits_us s' acc n else (acc, n, s)
        | EmptyString => (acc, n, s)
        end
      else (acc, n, s)
  | EmptyString => (acc, n, s)
  end.

(** An exponent part [e[+-]digits] at the head of [s], if there is one. *)
Definition take_exponent (us : bool) (s : string) : Z * string :=
  match s with
  | String c s1 =>
      if Ascii.eqb c "e" || Ascii.eqb c "E" then
        let '(eneg, s2) :=
          match s1 with
          | String sg s2 =>
              if Ascii.eqb sg "-" then (true, s2)
              else if Ascii.eqb sg "+" then (false, s2)
              else (false, s1)
          | EmptyString => (false, s1)
          end in
        let '(ev, en, s3) := (if us then take_digits_us else take_digits) s2 0 0 in
        if 0 <? en then ((if eneg then - ev else ev), s3) else (0, s)
      else (0, s)
  | EmptyString => (0, s)
  end.

Definition lower_ascii (c : ascii) : ascii :=
  let n := Str.code c in
  if ((65 <=? n) && (n <=? 90))%N then ascii_of_N (n + 32) else c.

Fixpoint lower_ascii_str (s : string) : string :=
  match s with
  | String c s' => String (lower_ascii c) (lower_ascii_str s')
  | EmptyString => s
  end.

(** [float(s)] for a string; [None] when it raises [ValueError]. *)
Definition float_of_string (s : string) : option float :=
  let s := Str.strip s in
  let '(neg, body) :=
    match s with
    | String c s' =>
        if Ascii.eqb c "-" then (true, s')
        else if Ascii.eqb c "+" then (false, s')
        else (false, s)
    | EmptyString => (false, s)
    end in
  let low := lower_ascii_str body in
  if String.eqb low "inf" || String.eqb low "infinity" then Some (signed_inf neg)
  else if String.eqb low "nan" then Some nan
  else
    let '(iv, inn, s1) := take_digits_us body 0 0 in
    let '(fv, fnn, s2) :=
      match s1 with
      | String c s1' =>
          if Ascii.eqb c "." then take_digits_us s1' iv 0 else (iv, 0, s1)
      | EmptyString => (iv, 0, s1)
      end in
    if (inn + fnn =? 0) then None
    else
      let '(ev, s3) := take_exponent true s2 in
      match s3 with
      | EmptyString => Some (dec_to_float neg fv (ev - fnn))
      | _ => None
      end.

Definition is_inf (f : float) : bool :=
  PrimFloat.eqb f infinity || PrimFloat.eqb f neg_infinity.

(** [float(v)]; [None] when it raises. *)
Definition py_float (v : pyval) : option float :=
  match v with
  | PFloat f => Some f
  | PInt z =>
      let f := dec_to_float (z <? 0) (Z.abs z) 0 in
      if is_inf f then None else Some f
  | PBool b => Some (if b then 1%float else 0%float)
  | PStr s => float_of_string s
  | _ => None
  end.

(** *** binary64 to text: the shortest digits that read back the same *)

(** [floor (log10 (n / d))] for [0 < n], [0 < d]. *)
Definition floor_log10 (n d : Z) : Z :=
  let ge (t : Z) := if 0 <=? t then d * 10 ^ t <=? n else d <=? n * 10 ^ (- t) in
  let t0 := (Z.log2 n - Z.log2 d) * 30103 / 100000 in
  if ge (t0 + 2) then t0 + 2
  else if ge (t0 + 1) then t0 + 1
  else if ge t0 then t0
  else if ge (t0 - 1) then t0 - 1
  else t0 - 2.

(** Among the decimals [c * 10^s] with [p] digits next to [n / d], the one
    that reads back as [f], the nearer one when both do. *)
Definition candidate (f : float) (n d t : Z) (p : Z) : option (Z * Z) :=
  let s := t - p + 1 in
  let lo := if 0 <=? s then n / (d * 10 ^ s) else (n * 10 ^ (- s)) / d in
  let hi := lo + 1 in
  let back (c : Z) := PrimFloat.Leibniz.eqb (dec_to_float false c s) f in
  (* [2 * n / d] against [(lo + hi) * 10^s] *)
  let lo_nearer :=
    if 0 <=? s then 2 * n <=? (lo + hi) * 10 ^ s * d
    else 2 * n * 10 ^ (- s) <=? (lo + hi) * d in
  match back lo, back hi with
  | true, true => Some ((if lo_nearer then lo else hi), s)
  | true, false => Some (lo, s)
  | false, true => Some (hi, s)
  | false, false => None
  end.

Fixpoint shortest (f : float) (n d t : Z) (ps : list Z) : Z * Z :=
  match ps with
  | [] => (0, 0)
  | p :: ps' =>
      match candidate f n d t p with
      | Some r => r
      | None => shortest f n d t ps'
      end
  end.

Fixpoint strip_zeros (fuel : nat) (c s : Z) : Z * Z :=
  match fuel with
  | O => (c, s)
  | S fuel' => if (c mod 10 =? 0) && negb (c =? 0) then strip_zeros fuel' (c / 10) (s + 1) else (c, s)
  end.

Fixpoint zeros (n : nat) : string :=
  match n with O => "" | S n' => String "0" (zeros n') end.

(** [repr(f)] *)
Definition repr_float (f : float) : string :=
  match Prim2SF f with
  | S754_nan => "nan"
  | S754_infinity neg => if neg then "-inf" else "inf"
  | S754_zero neg => if neg then "-0.0" else "0.0"
  | S754_finite neg m e =>
      let n := if 0 <=? e then Z.pos m * 2 ^ e else Z.pos m in
      let d := if 0 <=? e then 1 else 2 ^ (- e) in
      let t := floor_log10 n d in
      let '(c, s) := shortest (PrimFloat.abs f) n d t
                       [1; 2; 3; 4; 5; 6; 7; 8; 9; 10; 11; 12; 13; 14; 15; 16; 17] in
      let '(c, s) := strip_zeros 20 c s in
      let ds := Z_to_string c in
      let nd := Z.of_nat (String.length ds) in
      let decpt := nd + s in
      let body :=
        if (-4 <? decpt) && (decpt <=? 16) then
          if decpt <=? 0 then "0." ++ zeros (Z.to_nat (- decpt)) ++ ds
          else if nd <=? decpt then ds ++ zeros (Z.to_nat (decpt - nd)) ++ ".0"
          else String.substring 0 (Z.to_nat decpt) ds ++ "."
               ++ String.substring (Z.to_nat decpt) (Z.to_nat (nd - decpt)) ds
        else
          let x := decpt - 1 in
          let mant :=
            if nd =? 1 then ds
            else String.substring 0 1 ds ++ "." ++ String.substring 1 (Z.to_nat (nd - 1)) ds in
          let xs := Z_to_string (Z.abs x) in
          mant ++ "e" ++ (if x <? 0 then "-" else "+")
               ++ (if Z.abs x <? 10 then "0" else "") ++ xs in
      (if neg then "-" else "") ++ body
  end.

(** *** [repr], [str], [json.dumps] *)

Definition hex_digit (n : N) : string :=
  String.substring (N.to_nat n) 1 "0123456789abcdef".

Definition hex2 (c : ascii) : string :=
  let n := Str.code c in (hex_digit (n / 16) ++ hex_digit (n mod 16))%N.

(** [c.isprintable()] on the code points below 256. *)
Definition is_printable (c : ascii) : bool :=
  let n := Str.code c in
  ((32 <=? n) && (n <=? 126) || (161 <=? n) && negb (n =? 173))%N.

Definition backslash : string := Str.chr 92.

Fixpoint repr_chars (quote : ascii) (s : string) : string :=
  match s with
  | EmptyString => ""
  | String c s' =>
      let n := Str.code c in
      (if Ascii.eqb c quote || (n =? 92)%N then backslash ++ String c ""
       else if (n =? 9)%N then backslash ++ "t"
       else if (n =? 10)%N then backslash ++ "n"
       else if (n =? 13)%N then backslash ++ "r"
       else if is_printable c then String c ""
       else backslash ++ "x" ++ hex2 c)
      ++ repr_chars quote s'
  end.

(** [repr(s)]: single quotes, unless the text has one and no double quote. *)
Definition repr_str (s : string) : string :=
  let q : string :=
    if Str.contains "'" s && negb (Str.contains Str.dq s) then Str.dq else "'" in
  match q with
  | String quote _ => q ++ repr_chars quote s ++ q
  | EmptyString => s
  end.

Fixpoint repr (v : pyval) : string :=
  match v with
  | PNone => "None"
  | PBool b => if b then "True" else "False"
  | PInt z => Z_to_string z
  | PFloat f => repr_float f
  | PStr s => repr_str s
  | PList l => "[" ++ Str.join ", " (map repr l) ++ "]"
  | PDict d =>
      "{" ++ Str.join ", " (map (fun kv : string * pyval => let (k, x) := kv in repr_str k ++ ": " ++ repr x) d)
      ++ "}"
  end.

(** [str(v)] *)
Definition str (v : pyval) : string :=
  match v with
  | PStr s => s
  | _ => repr v
  end.

Fixpoint json_chars (s : string) : string :=
  match s with
  | EmptyString => ""
  | String c s' =>
      let n := Str.code c in
      (if (n =? 34)%N || (n =? 92)%N then backslash ++ String c ""
       else if (n =? 10)%N then backslash ++ "n"
       else if (n =? 13)%N then backslash ++ "r"
       else if (n =? 9)%N then backslash ++ "t"
       else if (n =? 8)%N then backslash ++ "b"
       else if (n =? 12)%N then backslash ++ "f"
       else if ((32 <=? n) && (n <=? 126))%N then String c ""
       else backslash ++ "u00" ++ hex2 c)
      ++ json_chars s'
  end.

Definition json_str (s : string) : string := Str.dq ++ json_chars s ++ Str.dq.

Definition json_float (f : float) : string :=
  match Prim2SF f with
  | S754_nan => "NaN"
  | S754_infinity neg => if neg then "-Infinity" else "Infinity"
  | _ => repr_float f
  end.

(** [json.dumps(v)] with the default separators and [ensure_ascii]. *)
Fixpoint json_dumps (v : pyval) : string :=
  match v with
  | PNone => "null"
  | PBool b => if b then "true" else "false"
  | PInt z => Z_to_string z
  | PFloat f => json_float f
  | PStr s => json_str s
  | PList l => "[" ++ Str.join ", " (map json_dumps l) ++ "]"
  | PDict d =>
      "{" ++ Str.join ", "
               (map (fun kv : string * pyval => let (k, x) := kv in json_str k ++ ": " ++ json_dumps x) d)
      ++ "}"
  end.

(** *** [str.upper], [str.lower] *)

(** The letters of the alphabet whose other case is in it too. The capital
    of the sharp s is two letters; the micro sign and the y with diaeresis
    have their capitals outside the alphabet and are left as they are. *)
Definition lower_char (c : ascii) : ascii :=
  let n := Str.code c in
  if ((65 <=? n) && (n <=? 90) || (192 <=? n) && (n <=? 222) && negb (n =? 215))%N
  then ascii_of_N (n + 32) else c.

Definition upper_char (c : ascii) : string :=
  let n := Str.code c in
  if ((97 <=? n) && (n <=? 122) || (224 <=? n) && (n <=? 254) && negb (n =? 247))%N
  then String (ascii_of_N (n - 32)) ""
  else if (n =? 223)%N then "SS"
  else String c "".

Fixpoint lower (s : string) : string :=
  match s with
  | String c s' => String (lower_char c) (lower s')
  | EmptyString => s
  end.

Fixpoint upper (s : string) : string :=
  match s with
  | String c s' => upper_char c ++ upper s'
  | EmptyString => s
  end.

(** *** [json.loads] *)

(** A scan ends with the place and the kind of a syntax error, or with a
    value, the index after it and the text after it. *)
Definition scan (A : Type) : Type := ((string * Z) + (A * Z * string))%type.

Definition is_json_space (c : ascii) : bool :=
  let n := Str.code c in ((n =? 32) || (n =? 9) || (n =? 10) || (n =? 13))%N.

Fixpoint skip_ws (pos : Z) (s : string) : Z * string :=
  match s with
  | String c s' => if is_json_space c then skip_ws (pos + 1) s' else (pos, s)
  | EmptyString => (pos, s)
  end.

Definition hex_val (c : ascii) : option Z :=
  let n := Z.of_N (Str.code c) in
  if (48 <=? n) && (n <=? 57) then Some (n - 48)
  else if (65 <=? n) && (n <=? 70) then Some (n - 55)
  else if (97 <=? n) && (n <=? 102) then Some (n - 87)
  else None.

Definition hex4 (a b c d : ascii) : option Z :=
  match hex_val a, hex_val b, hex_val c, hex_val d with
  | Some x, Some y, Some z, Some w => Some (((x * 16 + y) * 16 + z) * 16 + w)
  | _, _, _, _ => None
  end.

(** An escape the model cannot follow: a code point of 256 or more. *)
Definition outside : string := "code point outside the modelled alphabet".

(** The inside of a string, from after its opening quote at [start]. *)
Fixpoint scan_string (start pos : Z) (s acc : string) : scan string :=
  match s with
  | EmptyString => inl ("Unterminated string starting at", start)
  | String c s' =>
      let n := Str.code c in
      if (n =? 34)%N then inr (acc, pos + 1, s')
      else if (n =? 92)%N then
        match s' with
        | EmptyString => inl ("Unterminated string starting at", start)
        | String e s'' =>
            let simple (x : nat) := scan_string start (pos + 2) s'' (acc ++ Str.chr x) in
            let m := Str.code e in
            if (m =? 34)%N then simple 34%nat
            else if (m =? 92)%N then simple 92%nat
            else if (m =? 47)%N then simple 47%nat
            else if (m =? 98)%N then simple 8%nat
            else if (m =? 102)%N then simple 12%nat
            else if (m =? 110)%N then simple 10%nat
            else if (m =? 114)%N then simple 13%nat
            else if (m =? 116)%N then simple 9%nat
            else if (m =? 117)%N then
              match s'' with
              | String h1 (String h2 (String h3 (String h4 s5))) =>
                  match hex4 h1 h2 h3 h4 with
                  | Some u =>
                      if u <? 256
                      then scan_string start (pos + 6) s5 (acc ++ Str.chr (Z.to_nat u))
                      else inl (outside, pos)
                  | None => inl ("Invalid \uXXXX escape", pos + 1)
                  end
              | _ => inl ("Invalid \uXXXX escape", pos + 1)
              end
            else inl ("Invalid \escape", pos)
        end
      else if (n <? 32)%N then inl ("Invalid control character at", pos)
      else scan_string start (pos + 1) s' (acc ++ String c "")
  end.

(** A number at the head of [s], if there is one. *)
Definition scan_number (pos : Z) (s : string) : scan pyval :=
  let '(neg, s0, p0) :=
    match s with
    | String c s' => if Ascii.eqb c "-" then (true, s', pos + 1) else (false, s, pos)
    | EmptyString => (false, s, pos)
    end in
  let int_part : option (Z * Z * string) :=
    match s0 with
    | String c s' =>
        if Ascii.eqb c "0" then Some (0, 1, s')
        else if Str.is_digit c then Some (take_digits s0 0 0)
        else None
    | EmptyString => None
    end in
  match int_part with
  | None => inl ("Expecting value", pos)
  | Some (iv, inn, s1) =>
      let '(fv, fnn, s2) :=
        match s1 with
        | String c (String c' s1'') =>
            if Ascii.eqb c "." && Str.is_digit c'
            then take_digits (String c' s1'') iv 0
            else (iv, 0, s1)
        | _ => (iv, 0, s1)
        end in
      let '(ev, s3) := take_exponent false s2 in
      let consumed := Z.of_nat (String.length s0) - Z.of_nat (String.length s3) in
      let is_float := (0 <? fnn) || negb (String.length s2 =? String.length s3)%nat in
      if is_float then inr (PFloat (dec_to_float neg fv (ev - fnn)), p0 + consumed, s3)
      else inr (PInt (if neg then - iv else iv), p0 + consumed, s3)
  end.

(** A literal at the head of [s]. *)
Definition scan_literal (pos : Z) (s : string) : scan pyval :=
  let lit (word : string) (v : pyval) (otherwise : scan pyval) : scan pyval :=
    if String.prefix word s
    then inr (v, pos + Z.of_nat (String.length word), Str.drop (String.length word) s)
    else otherwise in
  lit "null" PNone
    (lit "true" (PBool true)
       (lit "false" (PBool false)
          (lit "NaN" (PFloat nan)
             (lit "Infinity" (PFloat infinity)
                (lit "-Infinity" (PFloat neg_infinity)
                   (scan_number pos s)))))).

Fixpoint scan_value (fuel : nat) (pos : Z) (s : string) : scan pyval :=
  match fuel with
  | O => inl ("maximum recursion depth exceeded", pos)
  | S fuel' =>
      match s with
      | EmptyString => inl ("Expecting value", pos)
      | String c s' =>
          let n := Str.code c in
          if (n =? 34)%N then
            match scan_string pos (pos + 1) s' "" with
            | inl e => inl e
            | inr (x, p, r) => inr (PStr x, p, r)
            end
          else if (n =? 123)%N then
            let (p1, s1) := skip_ws (pos + 1) s' in
            match s1 with
            | String c1 s2 =>
                if (Str.code c1 =? 125)%N then inr (PDict [], p1 + 1, s2)
                else scan_members fuel' p1 s1 []
            | EmptyString => scan_members fuel' p1 s1 []
            end
          else if (n =? 91)%N then
            let (p1, s1) := skip_ws (pos + 1) s' in
            match s1 with
            | String c1 s2 =>
                if (Str.code c1 =? 93)%N then inr (PList [], p1 + 1, s2)
                else scan_elements fuel' p1 s1 []
            | EmptyString => scan_elements fuel' p1 s1 []
            end
          else scan_literal pos s
      end
  end

(** The members of an object, from the start of a key. *)
with scan_members (fuel : nat) (pos : Z) (s : string) (acc : pydict) : scan pyval :=
  match fuel with
  | O => inl ("maximum recursion depth exceeded", pos)
  | S fuel' =>
      match s with
      | String c s' =>
          if (Str.code c =? 34)%N then
            match scan_string pos (pos + 1) s' "" with
            | inl e => inl e
            | inr (key, p1, s1) =>
                let (p2, s2) := skip_ws p1 s1 in
                match s2 with
                | String c2 s3 =>
                    if (Str.code c2 =? 58)%N then
                      let (p3, s4) := skip_ws (p2 + 1) s3 in
                      match scan_value fuel' p3 s4 with
                      | inl e => inl e
                      | inr (v, p4, s5) =>
                          let acc := dict_set acc key v in
                          let (p5, s6) := skip_ws p4 s5 in
                          match s6 with
                          | String c6 s7 =>
                              if (Str.code c6 =? 125)%N then inr (PDict acc, p5 + 1, s7)
                              else if (Str.code c6 =? 44)%N then
                                let (p6, s8) := skip_ws (p5 + 1) s7 in
                                scan_members fuel' p6 s8 acc
                              else inl ("Expecting ',' delimiter", p5)
                          | EmptyString => inl ("Expecting ',' delimiter", p5)
                          end
                      end
                    else inl ("Expecting ':' delimiter", p2)
                | EmptyString => inl ("Expecting ':' delimiter", p2)
                end
            end
          else inl ("Expecting property name enclosed in double quotes", pos)
      | EmptyString => inl ("Expecting property name enclosed in double quotes", pos)
      end
  end

(** The elements of an array, from the start of one. *)
with scan_elements (fuel : nat) (pos : Z) (s : string) (acc : list pyval) : scan pyval :=
  match fuel with
  | O => inl ("maximum recursion depth exceeded", pos)
  | S fuel' =>
      match scan_value fuel' pos s with
      | inl e => inl e
      | inr (v, p1, s1) =>
          let acc := (acc ++ [v])%list in
          let (p2, s2) := skip_ws p1 s1 in
          match s2 with
          | String c2 s3 =>
              if (Str.code c2 =? 93)%N then inr (PList acc, p2 + 1, s3)
              else if (Str.code c2 =? 44)%N then
                let (p3, s4) := skip_ws (p2 + 1) s3 in
                scan_elements fuel' p3 s4 acc
              else inl ("Expecting ',' delimiter", p2)
          | EmptyString => inl ("Expecting ',' delimiter", p2)
          end
      end
  end.

(** The line and the column of index [pos] of [doc], counted from 1. *)
Fixpoint line_col (doc : string) (pos : nat) (line col : Z) : Z * Z :=
  match pos, doc with
  | S pos', String c doc' =>
      if (Str.code c =? 10)%N then line_col doc' pos' (line + 1) 1
      else line_col doc' pos' line (col + 1)
  | _, _ => (line, col)
  end.

(** [str(JSONDecodeError(msg, doc, pos))] *)
Definition errmsg (msg doc : string) (pos : Z) : exn :=
  let (line, col) := line_col doc (Z.to_nat pos) 1 1 in
  mk_exn JSONDecodeError
    (msg ++ ": line " ++ Z_to_string line ++ " column " ++ Z_to_string col
         ++ " (char " ++ Z_to_string pos ++ ")").

Definition json_loads (doc : string) : Res pyval :=
  let (p0, s0) := skip_ws 0 doc in
  match scan_value (2 * String.length doc + 4) p0 s0 with
  | inl (msg, pos) =>
      if String.eqb msg outside then Raise (mk_exn ExternalError outside)
      else Raise (errmsg msg doc pos)
  | inr (v, p1, s1) =>
      let (p2, s2) := skip_ws p1 s1 in
      match s2 with
      | EmptyString => Ok v
      | _ => Raise (errmsg "Extra data" doc p2)
      end
  end.

(** The runtime. *)
Definition runtime : Runtime :=
  Build_Runtime json_loads json_dumps py_float str repr upper lower.

End CPython.

(* ===================================================================== *)
(** ** Concrete collaborators, for runs on concrete inputs *)
(* ===================================================================== *)

Module Scenario.

(** A JSON text written with apostrophes in the place of double quotes. *)
Fixpoint quoted (s : string) : string :=
  match s with
  | EmptyString => ""
  | String c s' =>
      (if Ascii.eqb c "'" then Str.dq else String c "") ++ quoted s'
  end.

(** Text with a vertical bar in the place of each line feed. *)
Fixpoint lines (s : string) : string :=
  match s with
  | EmptyString => ""
  | String c s' =>
      (if Ascii.eqb c "|" then Str.nl else String c "") ++ lines s'
  end.

Definition agent_eqb (a b : Agent) : bool :=
  match a, b with
  | ParserLLM, ParserLLM | RouterLLM, RouterLLM | PlannerLLM, PlannerLLM
  | GuardrailLLM, GuardrailLLM | ExecutorLLM, ExecutorLLM
  | VerifierLLM, VerifierLLM | ExplainerLLM, ExplainerLLM
  | CalculatorLLM, CalculatorLLM => true
  | _, _ => false
  end.

Definition unavailable {A} : Res A := Raise (mk_exn ExternalError "service unavailable").

(** Collaborators given by what each agent answers (to any prompt), what
    SymPy computes and what the store returns. *)
Definition services (answers : Agent -> Res string)
    (sympy : string -> Res SympyValue) (documents : pyval) : Services :=
  {| agent_run := fun a _ => answers a;
     ocr_reader := None;
     whisper_model := None;
     sympy_eval := sympy;
     collection_query := fun _ _ => Ok (PDict [("documents", documents)]);
     collection_add := fun _ _ _ => Ok tt;
     uuid4 := "3f2b8c1e-5d4a-4c6b-9e7f-0a1b2c3d4e5f" |}.

Definition no_sympy (_ : string) : Res SympyValue := unavailable.

(** An evaluator that approves the plan. *)
Definition approve : string :=
  quoted "{'is_safe': true, 'violation_type': null, 'reason': null, 'recommended_action': 'EXECUTE'}".

End Scenario.

(* ===================================================================== *)
(** ** The vocabulary of the properties *)
(* ===================================================================== *)

(** What a guardrail verdict says. *)
Definition says_unsafe (v : pyval) : Prop :=
  exists d, v = PDict d /\ dict_get d "is_safe" = Some (PBool false).

Definition recommends (v : pyval) (action : string) : Prop :=
  exists d, v = PDict d /\ dict_get d "recommended_action" = Some (PStr action).

(** The invariant of a verdict: not safe implies not EXECUTE. *)
Definition verdict_invariant (v : pyval) : Prop :=
  says_unsafe v -> ~ recommends v "EXECUTE".

(** The agent answered [content] in the run [m]. *)
Definition answered {A} (m : M A) (a : Agent) (content : string) : Prop :=
  exists prompt, In (AgentRun a prompt (Ok content)) (trace m).

(** The agent was not called in the run [m]. *)
Definition not_called {A} (m : M A) (a : Agent) : Prop :=
  forall prompt r, ~ In (AgentRun a prompt r) (trace m).

(** The agent answers whatever it is asked. *)
Definition answers (sv : Services) (a : Agent) : Prop :=
  forall prompt, exists content, agent_run sv a prompt = Ok content.

(** The answers the agent gave in a trace, in order. *)
Fixpoint answers_of (a : Agent) (t : list event) : list string :=
  match t with
  | [] => []
  | AgentRun a' _ (Ok content) :: t' =>
      if Scenario.agent_eqb a a' then content :: answers_of a t' else answers_of a t'
  | _ :: t' => answers_of a t'
  end.

Module Examples.

(** An evaluator that answers in prose. *)
Definition prose_evaluator : Services :=
  Scenario.services (fun _ => Ok "I cannot judge this plan.") Scenario.no_sympy (PList []).

(** An evaluator whose verdict is not safe and recommends EXECUTE. *)
Definition contradictory_verdict : string :=
  Scenario.quoted
    "{'is_safe': false, 'violation_type': 'Rule 5', 'reason': 'explicit equation', 'recommended_action': 'EXECUTE'}".

Definition contradictory_evaluator : Services :=
  Scenario.services (fun _ => Ok contradictory_verdict) Scenario.no_sympy (PList []).

End Examples.

(** What a verification verdict says about correctness. *)
Definition is_correct_of (v : pyval) : Res pyval := py_item v "is_correct".

Module VerifyExamples.

(** A solution attempt of the calculator for ten to the power 101. *)
Definition huge_answer : SolutionData :=
  {| sd_steps := ["Parsed expression: (10)**101"; "Computed exact value: 10**101"];
     sd_final_answer := PStr "1e+101";
     sd_tool_used := Some "calculator" |}.

(** An evaluator that finds nothing wrong. *)
Definition lenient_verdict : string :=
  Scenario.quoted
    "{'is_correct': true, 'critique': 'Correct', 'adjusted_confidence': 0.9, 'verification_method': 'symbolic'}".

Definition lenient_evaluator : Services :=
  Scenario.services (fun _ => Ok lenient_verdict) Scenario.no_sympy (PList []).

End VerifyExamples.

(** The events the calculator can cause: its own translation agent and
    SymPy. *)
Definition calculator_event (ev : event) : Prop :=
  match ev with
  | AgentRun CalculatorLLM _ _ => True
  | SympyEval _ _ => True
  | _ => False
  end.

(** The executor's answer from which no attempt can be extracted: the
    STEPS or the FINAL_ANSWER delimiter is missing, the FINAL_ANSWER or the
    CONFIDENCE delimiter is there more than once, or no step line is left
    between STEPS and FINAL_ANSWER. *)
Definition extraction_fails (content : string) : bool :=
  match Str.split "---STEPS---" content with
  | _ :: parts :: _ =>
      match Str.split "---FINAL_ANSWER---" parts with
      | [steps_part; remaining] =>
          match SolverAgent.parse_steps steps_part with
          | [] => true
          | _ :: _ => (2 <? List.length (Str.split "---CONFIDENCE---" remaining))%nat
          end
      | _ => true
      end
  | _ => true
  end.

(** The degraded attempt of a parse failure. *)
Definition parse_error_attempt (plan diagnostic content : string) : Solution :=
  {| sol_plan := plan;
     sol_steps := ["Error parsing solver output"];
     sol_final_answer := "Error";
     sol_confidence := 0.0;
     sol_error := Some ("Solver Parse Error: " ++ diagnostic ++ ". Raw: " ++ content);
     sol_context := None;
     sol_tool_used := None |}.

Module SolveExamples.

(** An executor that answers without any delimiter. *)
Definition rambling : Agent -> Res string :=
  fun a =>
    match a with
    | PlannerLLM => Ok "Rearrange the first equation, then substitute."
    | GuardrailLLM => Ok Scenario.approve
    | ExecutorLLM => Ok "The answer is probably 4."
    | _ => Scenario.unavailable
    end.

Definition rambling_executor : Services :=
  Scenario.services rambling Scenario.no_sympy (PList [PList []]).

End SolveExamples.

(** The events the retrieval step can cause. *)
Definition store_query_event (ev : event) : Prop :=
  match ev with
  | StoreQuery _ _ _ => True
  | _ => False
  end.

(** The events of a run that stops after the parse stage: the session's
    creation, OCR and speech recognition, the parser's own agent, and the
    log entry of the parser. No call of the router, the planner, the
    guardrail, the executor, the calculator, the verifier or the explainer,
    no access to the store, and no log entry of a later stage is among
    them. *)
Definition parse_stage_event (ev : event) : Prop :=
  match ev with
  | CreateSession _ => True
  | OcrRead _ _ => True
  | AsrTranscribe _ _ => True
  | AgentRun ParserLLM _ _ => True
  | LogInteraction _ role _ => role = "parser"
  | _ => False
  end.

(** The verifier's confidence as the HITL decision reads it:
    [verification.get("adjusted_confidence", 1.0)]. *)
Definition verifier_conf_of (verification : pyval) : Res pyval :=
  py_get verification "adjusted_confidence" (PFloat 1.0).

(** The dict the orchestrator hands to the verifier for a solution. *)
Definition solution_data_of (solution : Solution) : SolutionData :=
  {| sd_steps := sol_steps solution;
     sd_final_answer := PStr (sol_final_answer solution);
     sd_tool_used := sol_tool_used solution |}.

Module PolicyExamples.

(** The state after routing, for a problem text and a category. *)
Definition routed (problem_text category : string) : PipelineState :=
  set_step "routed"
    (set_problem_category (Some category)
       (set_parsed_data
          [("problem_text", PStr problem_text);
           ("input_type", PStr "text");
           ("is_ambiguous", PBool false);
           ("ambiguity_reason", PNone)]
          (new_state "3f2b8c1e-5d4a-4c6b-9e7f-0a1b2c3d4e5f" (Some problem_text) [] None))).

(** Scenario 3: the executor reports confidence 0.92, the verifier finds the
    solution correct with adjusted confidence 0.6. *)
Definition scenario3_agents : Agent -> Res string :=
  fun a =>
    match a with
    | PlannerLLM => Ok "Isolate the unknown by the inverse operation."
    | GuardrailLLM => Ok Scenario.approve
    | ExecutorLLM =>
        Ok (Scenario.lines
              "---STEPS---|1. Divide both sides by 2|---FINAL_ANSWER---|x = 4|---CONFIDENCE---|0.92")
    | VerifierLLM =>
        Ok (Scenario.quoted
              "{'is_correct': true, 'critique': 'Correct', 'adjusted_confidence': 0.6}")
    | _ => Scenario.unavailable
    end.

Definition scenario3 : Services :=
  Scenario.services scenario3_agents Scenario.no_sympy (PList [PList []]).

(** Scenario 1: the square root of 123456 on the calculator. *)
Definition sympy_sqrt (expression : string) : Res SympyValue :=
  if String.eqb expression "sqrt(123456)"
  then Ok {| sym_str := "8*sqrt(1929)";
             sym_float := Some 351.363060095964%float;
             sym_latex := "8 \sqrt{1929}" |}
  else Scenario.unavailable.

Definition explanation_text : string :=
  Scenario.quoted "{'concept': 'Square roots', 'strategy': 'Factor out the perfect square'}".

Definition scenario1_agents : Agent -> Res string :=
  fun a =>
    match a with
    | ExplainerLLM => Ok explanation_text
    | _ => Scenario.unavailable
    end.

Definition scenario1 : Services :=
  Scenario.services scenario1_agents sympy_sqrt (PList [PList []]).

(** A calculator answer out of range, and a verifier that answers without
    any confidence. *)
Definition sympy_power (expression : string) : Res SympyValue :=
  if String.eqb expression "(10)**101"
  then Ok {| sym_str := "100000000000000000000000000000000000000000000000000000000000000000000000000000000000000000000000000000";
             sym_float := Some 1e101%float;
             sym_latex := "100000000000000000000000000000000000000000000000000000000000000000000000000000000000000000000000000000" |}
  else Scenario.unavailable.

(** The calculator's attempt for it. *)
Definition power_attempt : Solution :=
  {| sol_plan := "Direct computation via SymPy";
     sol_steps := ["Parsed expression: (10)**101"; 
                  "Computed exact value: 100000000000000000000000000000000000000000000000000000000000000000000000000000000000000000000000000000"];
     sol_final_answer := "1e+101";
     sol_confidence := 1.0;
     sol_error := None;
     sol_context := Some (PStr "Exact symbolic computation tool used");
     sol_tool_used := Some "calculator" |}.

Definition terse_agents : Agent -> Res string :=
  fun a =>
    match a with
    | VerifierLLM => Ok (Scenario.quoted "{'is_correct': false, 'critique': 'Too large'}")
    | ExplainerLLM => Ok explanation_text
    | _ => Scenario.unavailable
    end.

Definition terse_verifier : Services :=
  Scenario.services terse_agents sympy_power (PList [PList []]).

End PolicyExamples.

Module ResumeExamples.

(** A session halted on ambiguous input. *)
Definition halted : PipelineState :=
  set_step "parsed"
    (set_hitl_reason (Some "Ambiguous Input: Ambiguous input detected (unspecified by parser)")
       (set_needs_hitl true
          (set_parsed_data
             [("problem_text", PStr "Solve 2x = B");
              ("input_type", PStr "text");
              ("is_ambiguous", PBool true);
              ("ambiguity_reason", PStr "Ambiguous input detected (unspecified by parser)")]
             (new_state "3f2b8c1e-5d4a-4c6b-9e7f-0a1b2c3d4e5f" (Some "Solve 2x = B") [] None)))).

(** Feedback that corrects the text and also supplies an answer. *)
Definition both : pydict :=
  [("corrected_text", PStr "Solve 2x = 8"); ("override_answer", PStr "x = 5")].

(** Feedback that supplies an answer only. *)
Definition override_only : pydict := [("override_answer", PStr "x = 5")].

Definition agents : Agent -> Res string :=
  fun a =>
    match a with
    | RouterLLM => Ok " algebra "
    | ExplainerLLM => Ok PolicyExamples.explanation_text
    | _ => PolicyExamples.scenario3_agents a
    end.

Definition services : Services :=
  Scenario.services agents Scenario.no_sympy (PList [PList []]).

End ResumeExamples.

(** The agents called in a trace, in order. *)
Fixpoint agents_of (t : list event) : list Agent :=
  match t with
  | [] => []
  | AgentRun a _ _ :: t' => a :: agents_of t'
  | _ :: t' => agents_of t'
  end.

(** The roles of the log entries of a trace, in order. *)
Fixpoint roles_of (t : list event) : list string :=
  match t with
  | [] => []
  | LogInteraction _ role _ :: t' => role :: roles_of t'
  | _ :: t' => roles_of t'
  end.

(** The paths through [solve] for a problem that is not arithmetic, each
    with the events it causes and the way it ends. *)
Section SolvePaths.
Variable rt : Runtime.
Variable sv : Services.
Variable problem_text : pyval.
Variable context_str : pyval.

Definition planner_prompt : string :=
  "Problem: " ++ py_str rt problem_text ++ Str.nl ++ "Create a strategy plan.".

Definition executor_prompt (context : pyval) (plan : string) : string :=
  "Problem: " ++ py_str rt problem_text ++ Str.nl
  ++ "Context Highlghts: " ++ py_str rt context ++ Str.nl
  ++ "Plan: " ++ plan ++ Str.nl
  ++ "Execute this and return with ---SECTION--- delimiters.".

(** The attempt returned when the guardrail blocks the plan. *)
Definition intercepted (plan : string) (context : pyval) (verdict : pydict) : Solution :=
  {| sol_plan := plan;
     sol_steps := [];
     sol_final_answer := "Guardrail Intercepted";
     sol_confidence := 0.0;
     sol_error :=
       Some ("Guardrail Violation: " ++ py_str rt (dict_get_none verdict "violation_type")
             ++ " - " ++ py_str rt (dict_get_none verdict "reason")
             ++ ". Rec: " ++ py_str rt (dict_get_none verdict "recommended_action"));
     sol_context := Some context;
     sol_tool_used := None |}.

(** The attempt returned for what the executor answered. *)
Definition executed (plan : string) (context : pyval) (content : string) : Solution :=
  match SolverAgent.extract_sections rt content with
  | Ok (steps, final_answer, confidence) =>
      {| sol_plan := plan;
         sol_steps := steps;
         sol_final_answer := final_answer;
         sol_confidence := confidence;
         sol_error := None;
         sol_context := Some context;
         sol_tool_used := None |}
  | Raise e => parse_error_attempt plan (exn_str e) content
  end.

Inductive solve_path : list event -> Res Solution -> Prop :=
| retrieval_raised (t : list event) (e : exn) :
    SolverAgent.retrieve sv problem_text context_str = (t, Raise e) ->
    solve_path t (Raise e)
| planner_raised (t : list event) (context : pyval) (e : exn) :
    SolverAgent.retrieve sv problem_text context_str = (t, Ok context) ->
    agent_run sv PlannerLLM planner_prompt = Raise e ->
    solve_path (t ++ [AgentRun PlannerLLM planner_prompt (Raise e)]) (Raise e)
| guardrail_raised (t : list event) (context : pyval) (plan : string) (e : exn) :
    SolverAgent.retrieve sv problem_text context_str = (t, Ok context) ->
    agent_run sv PlannerLLM planner_prompt = Ok plan ->
    result (GuardrailAgent.check rt sv problem_text plan) = Raise e ->
    solve_path (t ++ AgentRun PlannerLLM planner_prompt (Ok plan)
                  :: trace (GuardrailAgent.check rt sv problem_text plan))
      (Raise e)
| verdict_not_a_dict (t : list event) (context : pyval) (plan : string)
    (verdict : pyval) (e : exn) :
    SolverAgent.retrieve sv problem_text context_str = (t, Ok context) ->
    agent_run sv PlannerLLM planner_prompt = Ok plan ->
    result (GuardrailAgent.check rt sv problem_text plan) = Ok verdict ->
    py_get verdict "is_safe" (PBool false) = Raise e ->
    solve_path (t ++ AgentRun PlannerLLM planner_prompt (Ok plan)
                  :: trace (GuardrailAgent.check rt sv problem_text plan))
      (Raise e)
| blocked (t : list event) (context : pyval) (plan : string) (verdict : pydict) :
    SolverAgent.retrieve sv problem_text context_str = (t, Ok context) ->
    agent_run sv PlannerLLM planner_prompt = Ok plan ->
    result (GuardrailAgent.check rt sv problem_text plan) = Ok (PDict verdict) ->
    truthy (dict_get_or verdict "is_safe" (PBool false)) = false ->
    solve_path (t ++ AgentRun PlannerLLM planner_prompt (Ok plan)
                  :: trace (GuardrailAgent.check rt sv problem_text plan))
      (Ok (intercepted plan context verdict))
| executor_raised (t : list event) (context : pyval) (plan : string)
    (verdict : pydict) (e : exn) :
    SolverAgent.retrieve sv problem_text context_str = (t, Ok context) ->
    agent_run sv PlannerLLM planner_prompt = Ok plan ->
    result (GuardrailAgent.check rt sv problem_text plan) = Ok (PDict verdict) ->
    truthy (dict_get_or verdict "is_safe" (PBool false)) = true ->
    agent_run sv ExecutorLLM (executor_prompt context plan) = Raise e ->
    solve_path (t ++ AgentRun PlannerLLM planner_prompt (Ok plan)
                  :: trace (GuardrailAgent.check rt sv problem_text plan)
                  ++ [AgentRun ExecutorLLM (executor_prompt context plan) (Raise e)])
      (Raise e)
| executor_answered (t : list event) (context : pyval) (plan : string)
    (verdict : pydict) (content : string) :
    SolverAgent.retrieve sv problem_text context_str = (t, Ok context) ->
    agent_run sv PlannerLLM planner_prompt = Ok plan ->
    result (GuardrailAgent.check rt sv problem_text plan) = Ok (PDict verdict) ->
    truthy (dict_get_or verdict "is_safe" (PBool false)) = true ->
    agent_run sv ExecutorLLM (executor_prompt context plan) = Ok content ->
    solve_path (t ++ AgentRun PlannerLLM planner_prompt (Ok plan)
                  :: trace (GuardrailAgent.check rt sv problem_text plan)
                  ++ [AgentRun ExecutorLLM (executor_prompt context plan) (Ok content)])
      (Ok (executed plan context content)).

End SolvePaths.

(** The prompt of the guardrail's evaluator. *)
Definition guardrail_prompt (rt : Runtime) (problem_text : pyval) (plan : string) : string :=
  "Problem: " ++ py_str rt problem_text ++ Str.nl ++ Str.nl
  ++ "Proposed Plan:" ++ Str.nl ++ plan.

Module GuardExamples.

(** A guardrail that blocks the plan. *)
Definition blocking_verdict : string :=
  Scenario.quoted
    "{'is_safe': false, 'violation_type': 'Rule 2', 'reason': 'wrong domain', 'recommended_action': 'TRIGGER_HITL'}".

Definition agents_with_guardrail (guardrail : string) : Agent -> Res string :=
  fun a =>
    match a with
    | PlannerLLM => Ok "Isolate the unknown by the inverse operation."
    | GuardrailLLM => Ok guardrail
    | ExecutorLLM =>
        Ok (Scenario.lines
              "---STEPS---|1. Divide both sides by 2|---FINAL_ANSWER---|x = 4|---CONFIDENCE---|0.95")
    | _ => Scenario.unavailable
    end.

(** The store holds one worked example. *)
Definition store : pyval := PList [PList [PStr "Worked example: 3x = 9 gives x = 3."]].

Definition blocking : Services :=
  Scenario.services (agents_with_guardrail blocking_verdict) Scenario.no_sympy store.

(** A guardrail that answers in prose. *)
Definition garbled : Services :=
  Scenario.services (agents_with_guardrail "The plan looks fine to me.")
    Scenario.no_sympy store.

(** A guardrail that answers with a JSON list. *)
Definition listing : Services :=
  Scenario.services (agents_with_guardrail (Scenario.quoted "['is_safe', true]"))
    Scenario.no_sympy store.

Definition approving : Services :=
  Scenario.services (agents_with_guardrail Scenario.approve) Scenario.no_sympy store.

End GuardExamples.

(** The prompt of the verifier's evaluator. *)
Definition verifier_prompt (rt : Runtime) (problem_text : pyval)
    (solution_data : SolutionData) (strict : bool) : string :=
  let prompt := "Problem: " ++ py_str rt problem_text ++ Str.nl
                ++ "Solution: " ++ json_dumps rt (solution_data_to_py solution_data)
                ++ Str.nl ++ "Verify this." in
  if strict then VerifierAgent.strict_header ++ prompt else prompt.

(** The dict handed to the verifier for the attempt a state holds. *)
Definition solution_data_of_state (state : PipelineState) : SolutionData :=
  {| sd_steps := solution_steps state;
     sd_final_answer := final_answer state;
     sd_tool_used := tool_used state |}.

Module AuditExamples.

(** A completed calculator attempt with a symbolic answer. *)
Definition completed : PipelineState :=
  set_step "complete"
    (set_verification_passed (PBool true)
       (set_critique (PStr "Correct (verified by SymPy calculator)")
          (set_tool_used (Some "calculator")
             (set_confidence 1.0
                (set_final_answer (PStr "3*sqrt(5)")
                   (set_solution_steps
                      ["Parsed expression: sqrt(45)"; "Computed exact value: 3*sqrt(5)"]
                      (PolicyExamples.routed "square root of 45" "ARITHMETIC"))))))).

(** A completed attempt of the model. *)
Definition completed_model : PipelineState :=
  set_step "complete"
    (set_verification_passed (PBool true)
       (set_critique (PStr "Correct")
          (set_confidence 0.97
             (set_final_answer (PStr "x = 4")
                (set_solution_steps ["Divide both sides by 2"]
                   (PolicyExamples.routed "Solve 2x = 8" "ALGEBRA")))))).

(** A verifier that answers in prose. *)
Definition prose_agents : Agent -> Res string :=
  fun a =>
    match a with
    | PlannerLLM => Ok "Isolate the unknown by the inverse operation."
    | GuardrailLLM => Ok Scenario.approve
    | ExecutorLLM =>
        Ok (Scenario.lines
              "---STEPS---|1. Divide both sides by 2|---FINAL_ANSWER---|x = 4|---CONFIDENCE---|0.99")
    | VerifierLLM => Ok "Looks right to me."
    | _ => Scenario.unavailable
    end.

Definition prose_verifier : Services :=
  Scenario.services prose_agents Scenario.no_sympy (PList [PList []]).

End AuditExamples.

(** The state on which the HITL decision is taken: the attempt and the
    verdict are recorded, the step is solved. *)
Definition before_decision (state : PipelineState) (solution : Solution)
    (is_correct critique : pyval) : PipelineState :=
  set_critique critique
    (set_verification_passed is_correct
       (set_step "solved"
          (set_tool_used (sol_tool_used solution)
             (set_rag_context
                (match sol_context solution with
                 | Some c => c
                 | None => PStr "No context retrieved"
                 end)
                (set_solution_plan (Some (sol_plan solution))
                   (set_confidence (sol_confidence solution)
                      (set_final_answer (PStr (sol_final_answer solution))
                         (set_solution_steps (sol_steps solution) state)))))))).

Module ApprovalExamples.

(** Scenario 3 after the solver phase: kept for a human. *)
Definition kept : PipelineState :=
  set_step "verified"
    (set_hitl_reason
       (Some "Verification Failed. Solver: 0.92, Verifier: 0.6, Critique: Correct")
       (set_needs_hitl true
          (before_decision (PolicyExamples.routed "Solve 2x = 8" "ALGEBRA")
             {| sol_plan := "Isolate the unknown by the inverse operation.";
                sol_steps := ["Divide both sides by 2"];
                sol_final_answer := "x = 4";
                sol_confidence := 0.92;
                sol_error := None;
                sol_context := Some (PStr "");
                sol_tool_used := None |}
             (PBool true) (PStr "Correct")))).

Definition approve : pydict := [("approve", PBool true)].

(** Feedback that corrects the text only. *)
Definition corrected : pydict := [("corrected_text", PStr "Solve 2x = 8")].

End ApprovalExamples.

Module ParserExamples.

(** A reader that fails on every image, and a parser agent that would
    structure the text. *)
Definition failing_reader : Services :=
  {| agent_run := fun _ _ =>
       Ok (Scenario.quoted
             "{'problem_text': 'Solve 2x = 8', 'input_type': 'text', 'is_ambiguous': false, 'ambiguity_reason': null}");
     ocr_reader := Some (fun _ => Scenario.unavailable);
     whisper_model := None;
     sympy_eval := Scenario.no_sympy;
     collection_query := fun _ _ => Ok (PDict [("documents", PList [PList []])]);
     collection_add := fun _ _ _ => Ok tt;
     uuid4 := "3f2b8c1e-5d4a-4c6b-9e7f-0a1b2c3d4e5f" |}.


End ParserExamples.

(** The events the parser itself can cause: OCR, speech recognition and
    its own agent. *)
Definition parser_event (ev : event) : Prop :=
  match ev with
  | OcrRead _ _ => True
  | AsrTranscribe _ _ => True
  | AgentRun ParserLLM _ _ => True
  | _ => False
  end.

(** The sessions created in a trace, in order. *)
Fixpoint sessions_of (t : list event) : list string :=
  match t with
  | [] => []
  | CreateSession sid :: t' => sid :: sessions_of t'
  | _ :: t' => sessions_of t'
  end.

(** The session ids under which the log entries of a trace are written. *)
Fixpoint log_sessions_of (t : list event) : list string :=
  match t with
  | [] => []
  | LogInteraction sid _ _ :: t' => sid :: log_sessions_of t'
  | _ :: t' => log_sessions_of t'
  end.

(** The calls of collaborators that leave the session store alone: agents,
    SymPy and queries of the knowledge store. *)
Definition call_event (ev : event) : Prop :=
  match ev with
  | AgentRun _ _ _ => True
  | SympyEval _ _ => True
  | StoreQuery _ _ _ => True
  | _ => False
  end.

Module RunExamples.

(** A whole run on the calculator: the parser structures the text, the
    router answers ARITHMETIC, SymPy computes, the explainer answers. *)
Definition agents : Agent -> Res string :=
  fun a =>
    match a with
    | ParserLLM =>
        Ok (Scenario.quoted
              "{'problem_text': 'square root of 123456', 'input_type': 'text', 'is_ambiguous': false, 'ambiguity_reason': null}")
    | RouterLLM => Ok "ARITHMETIC"
    | ExplainerLLM => Ok PolicyExamples.explanation_text
    | _ => Scenario.unavailable
    end.

Definition services : Services :=
  Scenario.services agents PolicyExamples.sympy_sqrt (PList [PList []]).

End RunExamples.

(** The two sections of an executor's answer that has them: the text
    between the first STEPS delimiter and the next one (or the end), cut at
    its only FINAL_ANSWER delimiter into the steps and what follows. *)
Definition sections_of (content : string) : option (string * string) :=
  match Str.split "---STEPS---" content with
  | _ :: parts :: _ =>
      match Str.split "---FINAL_ANSWER---" parts with
      | [steps_part; remaining] => Some (steps_part, remaining)
      | _ => None
      end
  | _ => None
  end.

Module ExtractExamples.

(** An executor that gives steps and an answer and no confidence. *)
Definition unsure : Agent -> Res string :=
  fun a =>
    match a with
    | ExecutorLLM =>
        Ok (Scenario.lines "---STEPS---|1. Divide both sides by 2|---FINAL_ANSWER---|x = 4|")
    | _ => SolveExamples.rambling a
    end.

Definition unsure_executor : Services :=
  Scenario.services unsure Scenario.no_sympy (PList [PList []]).

End ExtractExamples.

Module RaiseExamples.

(** The plan is approved and the executor cannot be reached. *)
Definition agents : Agent -> Res string :=
  fun a =>
    match a with
    | PlannerLLM => Ok "Isolate the unknown by the inverse operation."
    | GuardrailLLM => Ok Scenario.approve
    | _ => Scenario.unavailable
    end.

Definition services : Services :=
  Scenario.services agents Scenario.no_sympy (PList [PList []]).

End RaiseExamples.

(* ===================================================================== *)
(** * Properties *)
(* ===================================================================== *)

(** ** The monad and the traces *)

Lemma agent_eqb_eq (a b : Agent) : Scenario.agent_eqb a b = true -> a = b.
Proof. destruct a, b; simpl; congruence. Qed.

Lemma answered_intro {A} (m : M A) (a : Agent) (content : string) :
  In content (answers_of a (trace m)) -> answered m a content.
Proof.
  unfold answered. generalize (trace m) as t.
  induction t as [| ev t IH]; simpl; [contradiction|].
  assert (Hskip : In content (answers_of a t) ->
                  exists prompt, ev = AgentRun a prompt (Ok content)
                                 \/ In (AgentRun a prompt (Ok content)) t).
  { intros H. destruct (IH H) as [q Hq]. exists q. right. exact Hq. }
  destruct ev as [a' p [c | e] | | | | | | |]; try exact Hskip.
  destruct (Scenario.agent_eqb a a') eqn:E; [|exact Hskip].
  intros [<- | H]; [|exact (Hskip H)].
  apply agent_eqb_eq in E. subst a'. exists p. left. reflexivity.
Qed.

Lemma trace_bind {A B} (m : M A) (f : A -> M B) :
  trace (bind m f)
  = (trace m ++ match result m with Ok a => trace (f a) | Raise _ => [] end)%list.
Proof.
  destruct m as [t [a | e]]; simpl.
  - destruct (f a); reflexivity.
  - rewrite app_nil_r. reflexivity.
Qed.

Lemma result_bind {A B} (m : M A) (f : A -> M B) :
  result (bind m f) = match result m with Ok a => result (f a) | Raise e => Raise e end.
Proof.
  destruct m as [t [a | e]]; simpl.
  - destruct (f a); reflexivity.
  - reflexivity.
Qed.

Lemma trace_try_except {A} (m : M A) (h : exn -> M A) :
  trace (try_except m h)
  = (trace m ++ match result m with Ok _ => [] | Raise e => trace (h e) end)%list.
Proof.
  destruct m as [t [a | e]]; simpl.
  - rewrite app_nil_r. reflexivity.
  - destruct (h e); reflexivity.
Qed.

Lemma result_try_except {A} (m : M A) (h : exn -> M A) :
  result (try_except m h)
  = match result m with Ok a => Ok a | Raise e => result (h e) end.
Proof.
  destruct m as [t [a | e]]; simpl.
  - reflexivity.
  - destruct (h e); reflexivity.
Qed.

Lemma trace_lift {A} (r : Res A) : trace (lift r) = [].
Proof. reflexivity. Qed.

Lemma result_lift {A} (r : Res A) : result (lift r) = r.
Proof. reflexivity. Qed.

Lemma trace_ret {A} (a : A) : trace (ret a) = [].
Proof. reflexivity. Qed.

Lemma result_ret {A} (a : A) : result (ret a) = Ok a.
Proof. reflexivity. Qed.

(** ** Dicts *)

Lemma dict_get_set_other (d : pydict) (k k' : string) (v : pyval) :
  k <> k' -> dict_get (dict_set d k v) k' = dict_get d k'.
Proof.
  intros Hk. induction d as [| [k0 v0] d IH]; simpl.
  - destruct (String.eqb_spec k k'); [contradiction | reflexivity].
  - destruct (String.eqb_spec k0 k) as [-> | Hne]; simpl.
    + destruct (String.eqb_spec k k'); [contradiction | reflexivity].
    + destruct (String.eqb_spec k0 k'); [reflexivity | exact IH].
Qed.

Lemma dict_get_set_same (d : pydict) (k : string) (v : pyval) :
  dict_get (dict_set d k v) k = Some v.
Proof.
  induction d as [| [k0 v0] d IH]; simpl.
  - rewrite String.eqb_refl. reflexivity.
  - destruct (String.eqb_spec k0 k) as [-> | Hne]; simpl.
    + rewrite String.eqb_refl. reflexivity.
    + destruct (String.eqb_spec k0 k); [contradiction | exact IH].
Qed.

(** ** The library model on sample inputs *)

Example json_loads_verdict :
  CPython.json_loads
    (Scenario.quoted "{'is_correct': true, 'critique': 'ok', 'adjusted_confidence': 0.6}")
  = Ok (PDict [("is_correct", PBool true);
               ("critique", PStr "ok");
               ("adjusted_confidence", PFloat 0.6)]).
Proof. vm_compute. reflexivity. Qed.

Example json_loads_numbers :
  CPython.json_loads "[1, -0, 2.5e-3, 1e400, NaN]"
  = Ok (PList [PInt 1; PInt 0; PFloat 0.0025; PFloat infinity; PFloat nan]).
Proof. vm_compute. reflexivity. Qed.

Example json_loads_prose :
  CPython.json_loads "I cannot judge this plan."
  = Raise (mk_exn JSONDecodeError "Expecting value: line 1 column 1 (char 0)").
Proof. vm_compute. reflexivity. Qed.

Example json_loads_trailing_comma :
  CPython.json_loads (Scenario.quoted "{'is_safe': true,}")
  = Raise (mk_exn JSONDecodeError
             "Expecting property name enclosed in double quotes: line 1 column 18 (char 17)").
Proof. vm_compute. reflexivity. Qed.

Example extract_json_fenced :
  extract_json (Scenario.lines "Here it is:|```json|{'is_safe': true}|```|Thanks.")
  = "{'is_safe': true}".
Proof. vm_compute. reflexivity. Qed.

Example extract_json_braces :
  extract_json "Verdict: {'a': {'b': 1}} (end)" = "{'a': {'b': 1}}".
Proof. vm_compute. reflexivity. Qed.

Example float_of_string_samples :
  map CPython.float_of_string ["0.92"; " 1e+101 "; "-inf"; "3*sqrt(5)"; ""]
  = [Some 0.92%float; Some 1e101%float; Some neg_infinity; None; None].
Proof. vm_compute. reflexivity. Qed.

Example repr_float_samples :
  map CPython.repr_float
    [0.92%float; 1.0%float; 1e101%float; 351.363060095964%float; 1e-5%float; 1e16%float]
  = ["0.92"; "1.0"; "1e+101"; "351.363060095964"; "1e-05"; "1e+16"].
Proof. vm_compute. reflexivity. Qed.

Example fast_path_samples :
  map (Calculator.first_match Calculator.simple_patterns)
    ["square root of 123456"; "what is 5 squared?"; "sqrt(144)"; "calculate 2^10";
     "the sum of the first ten primes"]
  = [Some "sqrt(123456)"; Some "(5)**2"; Some "sqrt(144)"; Some "(2)**10"; None].
Proof. vm_compute. reflexivity. Qed.

Example parse_steps_sample :
  SolverAgent.parse_steps (Scenario.lines "|1. Divide both sides by 2|| 2.  Check  |")
  = ["Divide both sides by 2"; "Check"].
Proof. vm_compute. reflexivity. Qed.

Example split_samples :
  Str.split "---" "a---b------c" = ["a"; "b"; ""; "c"]
  /\ Str.split "--" "a---b" = ["a"; "-b"]
  /\ Str.split "x" "" = [""].
Proof. vm_compute. repeat split. Qed.

(** ** The guardrail gate *)

Lemma check_unfold (rt : Runtime) (sv : Services) (problem_text : pyval) (plan : string) :
  exists prompt,
    trace (GuardrailAgent.check rt sv problem_text plan)
    = [AgentRun GuardrailLLM prompt (agent_run sv GuardrailLLM prompt)]
    /\ result (GuardrailAgent.check rt sv problem_text plan)
       = match agent_run sv GuardrailLLM prompt with
         | Ok content =>
             match json_loads rt (extract_json content) with
             | Ok v => Ok v
             | Raise e => Ok (GuardrailAgent.fail_closed e)
             end
         | Raise e => Raise e
         end.
Proof.
  unfold GuardrailAgent.check.
  match goal with |- context [run_agent sv GuardrailLLM ?p] => exists p; generalize p end.
  intro prompt. unfold run_agent, try_except, lift, bind, ret.
  destruct (agent_run sv GuardrailLLM prompt) as [content | e]; simpl.
  - destruct (json_loads rt (extract_json content)); simpl; split; reflexivity.
  - split; reflexivity.
Qed.

Lemma check_answered (rt : Runtime) (sv : Services) (problem_text : pyval)
    (plan content : string) :
  answered (GuardrailAgent.check rt sv problem_text plan) GuardrailLLM content ->
  result (GuardrailAgent.check rt sv problem_text plan)
  = match json_loads rt (extract_json content) with
    | Ok v => Ok v
    | Raise e => Ok (GuardrailAgent.fail_closed e)
    end.
Proof.
  intros [prompt Hin].
  destruct (check_unfold rt sv problem_text plan) as [p [Ht Hr]].
  rewrite Ht in Hin. destruct Hin as [Heq | []].
  injection Heq as _ Hc. rewrite Hr, Hc. reflexivity.
Qed.

(** C4. When the text extracted from the evaluator's response cannot be
    decoded ([json.loads] raises), [check] does not raise: it returns a
    verdict whose [is_safe] is [False] and whose [recommended_action] is
    TRIGGER_HITL, hence not EXECUTE. *)
Theorem guardrail_fails_closed (rt : Runtime) (sv : Services) (problem_text : pyval)
    (plan content : string) (e : exn) :
  answered (GuardrailAgent.check rt sv problem_text plan) GuardrailLLM content ->
  json_loads rt (extract_json content) = Raise e ->
  exists v,
    result (GuardrailAgent.check rt sv problem_text plan) = Ok v
    /\ says_unsafe v
    /\ recommends v "TRIGGER_HITL"
    /\ ~ recommends v "EXECUTE".
Proof.
  intros Hans Hdec.
  rewrite (check_answered _ _ _ _ _ Hans), Hdec.
  eexists. split; [reflexivity|].
  split; [|split].
  - eexists. split; reflexivity.
  - eexists. split; reflexivity.
  - intros [d [Hd Hget]]. injection Hd as <-. discriminate.
Qed.

(** An instance: an evaluator that answers in prose. *)
Lemma guardrail_fails_closed_witness :
  exists v,
    result (GuardrailAgent.check CPython.runtime Examples.prose_evaluator
              (PStr "Solve x^2 = 4") "Isolate the unknown.") = Ok v
    /\ says_unsafe v
    /\ recommends v "TRIGGER_HITL"
    /\ ~ recommends v "EXECUTE".
Proof.
  apply (guardrail_fails_closed CPython.runtime Examples.prose_evaluator
           (PStr "Solve x^2 = 4") "Isolate the unknown." "I cannot judge this plan."
           (mk_exn JSONDecodeError "Expecting value: line 1 column 1 (char 0)")).
  - apply answered_intro. vm_compute. left. reflexivity.
  - vm_compute. reflexivity.
Defined.

(** C8, as stated, fails: the verdict decoded from the evaluator's answer is
    returned as it is, and an evaluator may answer not safe together with
    EXECUTE. *)
Lemma guardrail_invariant_counterexample :
  let v := PDict [("is_safe", PBool false);
                  ("violation_type", PStr "Rule 5");
                  ("reason", PStr "explicit equation");
                  ("recommended_action", PStr "EXECUTE")] in
  result (GuardrailAgent.check CPython.runtime Examples.contradictory_evaluator
            (PStr "Solve x - y = 7") "x = 7+y") = Ok v
  /\ ~ verdict_invariant v.
Proof.
  split.
  - vm_compute. reflexivity.
  - intros H. apply H; eexists; split; reflexivity.
Qed.

(** C8, amended. On the parse-failure path the verdict returned satisfies
    the invariant; on the decoded path [check] returns the decoded value
    unchanged. Hence the verdict returned satisfies the invariant whenever
    the evaluator's own decoded verdict, if there is one, does. *)
Theorem guardrail_invariant_of_evaluator (rt : Runtime) (sv : Services)
    (problem_text : pyval) (plan content : string) (v : pyval) :
  answered (GuardrailAgent.check rt sv problem_text plan) GuardrailLLM content ->
  result (GuardrailAgent.check rt sv problem_text plan) = Ok v ->
  (forall d, json_loads rt (extract_json content) = Ok d -> v = d)
  /\ (forall e, json_loads rt (extract_json content) = Raise e ->
        v = GuardrailAgent.fail_closed e /\ verdict_invariant v)
  /\ ((forall d, json_loads rt (extract_json content) = Ok d -> verdict_invariant d) ->
      verdict_invariant v).
Proof.
  intros Hans Hres.
  rewrite (check_answered _ _ _ _ _ Hans) in Hres.
  assert (Hclosed : forall e, verdict_invariant (GuardrailAgent.fail_closed e)).
  { intros e _ [d [Hd Hget]]. injection Hd as <-. discriminate. }
  destruct (json_loads rt (extract_json content)) as [d | e] eqn:E;
    injection Hres as <-.
  - split; [|split].
    + intros d' Hd'. congruence.
    + intros e He. discriminate.
    + intros H. apply H. reflexivity.
  - split; [|split].
    + intros d Hd. discriminate.
    + intros e' He'. injection He' as <-. split; [reflexivity | apply Hclosed].
    + intros _. apply Hclosed.
Qed.

(** An instance: an evaluator that approves the plan. *)
Lemma guardrail_invariant_of_evaluator_witness :
  let v := PDict [("is_safe", PBool true);
                  ("violation_type", PNone);
                  ("reason", PNone);
                  ("recommended_action", PStr "EXECUTE")] in
  (forall d, json_loads CPython.runtime (extract_json Scenario.approve) = Ok d -> v = d)
  /\ (forall e, json_loads CPython.runtime (extract_json Scenario.approve) = Raise e ->
        v = GuardrailAgent.fail_closed e /\ verdict_invariant v)
  /\ ((forall d, json_loads CPython.runtime (extract_json Scenario.approve) = Ok d ->
         verdict_invariant d) ->
      verdict_invariant v).
Proof.
  apply (guardrail_invariant_of_evaluator CPython.runtime
           (Scenario.services (fun _ => Ok Scenario.approve) Scenario.no_sympy (PList []))
           (PStr "Solve x^2 = 4") "Isolate the unknown." Scenario.approve).
  - apply answered_intro. vm_compute. left. reflexivity.
  - vm_compute. reflexivity.
Defined.

(** ** The verify stage *)

Lemma verify_evaluator_path (rt : Runtime) (sv : Services) (problem_text : pyval)
    (solution_data : SolutionData) (strict : bool) :
  is_calculator (sd_tool_used solution_data)
  && VerifierAgent._sanity_check_calculator rt solution_data = false ->
  exists prompt,
    trace (VerifierAgent.verify rt sv problem_text solution_data strict)
    = [AgentRun VerifierLLM prompt (agent_run sv VerifierLLM prompt)]
    /\ result (VerifierAgent.verify rt sv problem_text solution_data strict)
       = match agent_run sv VerifierLLM prompt with
         | Ok content =>
             match json_loads rt (extract_json content) with
             | Ok v => Ok v
             | Raise e => Ok (VerifierAgent.parse_failure e content)
             end
         | Raise e => Raise e
         end.
Proof.
  intros Hpath. unfold VerifierAgent.verify. rewrite Hpath.
  match goal with |- context [run_agent sv VerifierLLM ?p] => exists p; generalize p end.
  intro prompt. unfold run_agent, try_except, lift, bind, ret.
  destruct (agent_run sv VerifierLLM prompt) as [content | e]; simpl.
  - destruct (json_loads rt (extract_json content)); simpl; split; reflexivity.
  - split; reflexivity.
Qed.

Lemma sanity_check_out_of_range (rt : Runtime) (solution_data : SolutionData) (x : float) :
  py_float rt (sd_final_answer solution_data) = Some x ->
  VerifierAgent.in_range x = false ->
  VerifierAgent._sanity_check_calculator rt solution_data = false.
Proof.
  intros Hx Hr. unfold VerifierAgent._sanity_check_calculator.
  rewrite Hx, Hr. simpl.
  destruct (sd_final_answer solution_data) as [| | | | [|c s] | |]; reflexivity.
Qed.

(** C6, as stated, fails: the calculator's answer for ten to the power 101
    is out of range, the sanity check rejects it, and the verdict returned
    is the evaluator's, here with [is_correct] true. *)
Lemma tool_out_of_range_counterexample :
  py_float CPython.runtime (sd_final_answer VerifyExamples.huge_answer) = Some 1e101%float
  /\ VerifierAgent.in_range 1e101 = false
  /\ exists v,
       result (VerifierAgent.verify CPython.runtime VerifyExamples.lenient_evaluator
                 (PStr "10^101") VerifyExamples.huge_answer false) = Ok v
       /\ is_correct_of v = Ok (PBool true).
Proof.
  split; [vm_compute; reflexivity|].
  split; [vm_compute; reflexivity|].
  eexists. split; vm_compute; reflexivity.
Qed.

(** C6, amended. For a solution attempt with provenance tool whose final
    answer parses as a number outside the open interval (-1e100, 1e100),
    the sanity check fails and the automatic verdict of the tool is not
    returned: the evaluator is asked, and the verdict is the evaluator's
    decoded answer as it is, or, when that cannot be decoded, the
    parse-failure verdict, whose [is_correct] is false. *)
Theorem tool_out_of_range_goes_to_evaluator (rt : Runtime) (sv : Services)
    (problem_text : pyval) (solution_data : SolutionData) (strict : bool) (x : float) :
  sd_tool_used solution_data = Some "calculator" ->
  py_float rt (sd_final_answer solution_data) = Some x ->
  VerifierAgent.in_range x = false ->
  VerifierAgent._sanity_check_calculator rt solution_data = false
  /\ exists prompt,
       trace (VerifierAgent.verify rt sv problem_text solution_data strict)
       = [AgentRun VerifierLLM prompt (agent_run sv VerifierLLM prompt)]
       /\ result (VerifierAgent.verify rt sv problem_text solution_data strict)
          = match agent_run sv VerifierLLM prompt with
            | Ok content =>
                match json_loads rt (extract_json content) with
                | Ok v => Ok v
                | Raise e => Ok (VerifierAgent.parse_failure e content)
                end
            | Raise e => Raise e
            end
       /\ forall e content,
            is_correct_of (VerifierAgent.parse_failure e content) = Ok (PBool false).
Proof.
  intros Htool Hx Hr.
  pose proof (sanity_check_out_of_range rt solution_data x Hx Hr) as Hs.
  split; [exact Hs|].
  destruct (verify_evaluator_path rt sv problem_text solution_data strict) as [p [Ht Hres]].
  { rewrite Hs. apply andb_false_r. }
  exists p. split; [exact Ht|]. split; [exact Hres|].
  intros e content. reflexivity.
Qed.

(** An instance: the answer 1e+101 of the calculator. *)
Lemma tool_out_of_range_goes_to_evaluator_witness :
  VerifierAgent._sanity_check_calculator CPython.runtime VerifyExamples.huge_answer = false
  /\ exists prompt,
       trace (VerifierAgent.verify CPython.runtime VerifyExamples.lenient_evaluator
                (PStr "10^101") VerifyExamples.huge_answer false)
       = [AgentRun VerifierLLM prompt
            (agent_run VerifyExamples.lenient_evaluator VerifierLLM prompt)]
       /\ result (VerifierAgent.verify CPython.runtime VerifyExamples.lenient_evaluator
                    (PStr "10^101") VerifyExamples.huge_answer false)
          = match agent_run VerifyExamples.lenient_evaluator VerifierLLM prompt with
            | Ok content =>
                match json_loads CPython.runtime (extract_json content) with
                | Ok v => Ok v
                | Raise e => Ok (VerifierAgent.parse_failure e content)
                end
            | Raise e => Raise e
            end
       /\ forall e content,
            is_correct_of (VerifierAgent.parse_failure e content) = Ok (PBool false).
Proof.
  apply (tool_out_of_range_goes_to_evaluator CPython.runtime
           VerifyExamples.lenient_evaluator (PStr "10^101") VerifyExamples.huge_answer
           false 1e101%float).
  - reflexivity.
  - vm_compute. reflexivity.
  - vm_compute. reflexivity.
Defined.

(** ** The calculator and the tool path of the solve stage *)

Lemma compute_spec (sv : Services) (expression : string) :
  exists t res b,
    Calculator.compute sv expression = (t, Ok res)
    /\ dict_get res "success" = Some (PBool b)
    /\ Forall calculator_event t.
Proof.
  unfold Calculator.compute, run_sympy, try_except, bind, ret.
  destruct (sympy_eval sv expression) as [v | e]; simpl;
    do 3 eexists; (split; [reflexivity|]); (split; [reflexivity|]);
    repeat constructor.
Qed.

Lemma try_llm_parse_spec (rt : Runtime) (sv : Services) (query : pyval) :
  exists t r,
    Calculator._try_llm_parse rt sv query = (t, Ok r)
    /\ Forall calculator_event t
    /\ (fst r = true -> exists expr, snd r = Some expr).
Proof.
  unfold Calculator._try_llm_parse, run_agent, try_except, bind, ret.
  destruct (agent_run sv CalculatorLLM _) as [content | e]; simpl.
  - destruct (Str.contains "ERROR_NOT_MATH" (Str.strip content)); simpl;
      do 2 eexists; (split; [reflexivity|]); (split; [repeat constructor|]); simpl.
    + discriminate.
    + intros _. eexists. reflexivity.
  - do 2 eexists. split; [reflexivity|]. split; [repeat constructor|]. simpl. discriminate.
Qed.

Lemma parse_query_spec (rt : Runtime) (sv : Services) (q : string) :
  exists t ok expression error,
    Calculator.parse_query rt sv (PStr q) = (t, Ok (ok, expression, error))
    /\ Forall calculator_event t
    /\ (ok = true -> exists expr, expression = Some expr).
Proof.
  unfold Calculator.parse_query, Calculator._try_simple_parse.
  generalize (Calculator.first_match Calculator.simple_patterns (Str.strip (str_lower rt q))).
  intros fm.
  destruct (try_llm_parse_spec rt sv (PStr q)) as [t [[ok e] [Hl [Ht Hs]]]].
  assert (Hllm : exists t ok expression error,
             bind (Calculator._try_llm_parse rt sv (PStr q))
               (fun r => let (success, llm_expr) := r in
                         if success then ret (true, llm_expr, None)
                         else ret (false, None,
                                   Some "Could not parse mathematical expression"))
             = (t, Ok (ok, expression, error))
             /\ Forall calculator_event t
             /\ (ok = true -> exists expr, expression = Some expr)).
  { rewrite Hl. unfold bind, ret. destruct ok.
    - do 4 eexists. split; [reflexivity|]. rewrite app_nil_r. split; [exact Ht|].
      intros _. apply Hs. reflexivity.
    - do 4 eexists. split; [reflexivity|]. rewrite app_nil_r. split; [exact Ht|].
      discriminate. }
  destruct Hllm as [t' [ok' [ex' [er' [Hb' [Ht' Hs']]]]]].
  unfold lift.
  destruct fm as [[|c expr]|]; unfold bind at 1; fold (@bind (bool * option string)).
  - rewrite Hb'. exists t', ok', ex', er'. auto.
  - unfold ret. do 4 eexists. split; [reflexivity|]. split; [constructor|].
    intros _. eexists. reflexivity.
  - rewrite Hb'. exists t', ok', ex', er'. auto.
Qed.

Lemma solve_arithmetic_spec (rt : Runtime) (sv : Services) (q : string) :
  exists t res b,
    Calculator.solve_arithmetic rt sv (PStr q) = (t, Ok res)
    /\ dict_get res "success" = Some (PBool b)
    /\ Forall calculator_event t.
Proof.
  unfold Calculator.solve_arithmetic.
  destruct (parse_query_spec rt sv q) as [t [ok [expression [error [Hp [Ht Hs]]]]]].
  rewrite Hp. simpl. destruct ok; simpl.
  - destruct (Hs eq_refl) as [expr ->].
    destruct (compute_spec sv expr) as [t' [res [b [Hc [Hb Ht']]]]].
    rewrite Hc. simpl.
    do 3 eexists. split; [reflexivity|]. split.
    + rewrite !dict_get_set_other by discriminate. exact Hb.
    + rewrite app_nil_r. apply Forall_app; auto.
  - do 3 eexists. split; [reflexivity|]. split; [reflexivity|].
    rewrite app_nil_r. exact Ht.
Qed.

(** C3. For a problem routed to ARITHMETIC the solve stage is the call of
    the calculator and nothing else: neither the planner, nor the guardrail,
    nor the executor is called, and the events of solve are those of the
    calculator. The attempt is built from the dict the calculator returned
    and carries provenance calculator: when the calculator succeeds, its
    steps name the parsed expression and the symbolic value, its answer is
    the numerical value (the symbolic one when there is none) and its
    confidence is exactly 1.0; when it fails, the confidence is 0.0, the
    final answer is Error, there is no step, and the error annotation is
    the calculator's error behind Calculator error. *)
Theorem arithmetic_delegates_to_calculator (rt : Runtime) (sv : Services)
    (q : string) (context_str : pyval) :
  let m := SolverAgent.solve rt sv (PStr q) (Some "ARITHMETIC") context_str in
  not_called m PlannerLLM /\ not_called m GuardrailLLM /\ not_called m ExecutorLLM
  /\ exists t res b,
       Calculator.solve_arithmetic rt sv (PStr q) = (t, Ok res)
       /\ dict_get res "success" = Some (PBool b)
       /\ m = (t,
               Ok (if b
                   then {| sol_plan := "Direct computation via SymPy";
                           sol_steps :=
                             ["Parsed expression: "
                                ++ py_str rt (dict_get_or res "parsed_expression"
                                                (PStr "N/A"));
                              "Computed exact value: "
                                ++ py_str rt (dict_get_or res "symbolic" (PStr "N/A"))];
                           sol_final_answer :=
                             py_str rt (py_or (dict_get_none res "numerical")
                                              (dict_get_none res "symbolic"));
                           sol_confidence := 1.0;
                           sol_error := None;
                           sol_context := Some (PStr "Exact symbolic computation tool used");
                           sol_tool_used := Some "calculator" |}
                   else {| sol_plan := "Tool computation failed";
                           sol_steps := [];
                           sol_final_answer := "Error";
                           sol_confidence := 0.0;
                           sol_error :=
                             Some ("Calculator error: "
                                   ++ py_str rt (dict_get_none res "error"));
                           sol_context := None;
                           sol_tool_used := Some "calculator" |})).
Proof.
  intros m.
  destruct (solve_arithmetic_spec rt sv q) as [t [res [b [Hc [Hb Ht]]]]].
  assert (Hm : m = (t,
                    Ok (if b
                        then {| sol_plan := "Direct computation via SymPy";
                                sol_steps :=
                                  ["Parsed expression: "
                                     ++ py_str rt (dict_get_or res "parsed_expression"
                                                     (PStr "N/A"));
                                   "Computed exact value: "
                                     ++ py_str rt (dict_get_or res "symbolic"
                                                     (PStr "N/A"))];
                                sol_final_answer :=
                                  py_str rt (py_or (dict_get_none res "numerical")
                                                   (dict_get_none res "symbolic"));
                                sol_confidence := 1.0;
                                sol_error := None;
                                sol_context :=
                                  Some (PStr "Exact symbolic computation tool used");
                                sol_tool_used := Some "calculator" |}
                        else {| sol_plan := "Tool computation failed";
                                sol_steps := [];
                                sol_final_answer := "Error";
                                sol_confidence := 0.0;
                                sol_error :=
                                  Some ("Calculator error: "
                                        ++ py_str rt (dict_get_none res "error"));
                                sol_context := None;
                                sol_tool_used := Some "calculator" |}))).
  { subst m. unfold SolverAgent.solve. simpl SolverAgent.is_arithmetic. cbv iota.
    unfold SolverAgent._solve_with_tool. rewrite Hc.
    unfold bind, lift, py_item. rewrite Hb.
    destruct b; simpl; rewrite !app_nil_r; reflexivity. }
  assert (Hnc : forall a, a <> CalculatorLLM -> not_called m a).
  { intros a Ha prompt r Hin. rewrite Hm in Hin. simpl in Hin.
    rewrite Forall_forall in Ht. specialize (Ht _ Hin). simpl in Ht.
    destruct a; contradiction. }
  split; [apply Hnc; discriminate|].
  split; [apply Hnc; discriminate|].
  split; [apply Hnc; discriminate|].
  exists t, res, b. auto.
Qed.

(** ** The parsing of the executor's answer *)

Lemma split_go_length (sep : string) (s : string) (skip : nat) (cur : string) :
  (1 <= List.length (Str.split_go sep skip cur s))%nat.
Proof.
  revert skip cur. induction s as [| c s IH]; intros skip cur; cbn [Str.split_go].
  - simpl. lia.
  - destruct skip.
    + destruct (String.prefix sep (String c s)); [simpl; lia | apply IH].
    + apply IH.
Qed.

Lemma find_lower_bound (x s : string) : -1 <= Str.find x s.
Proof.
  induction s as [| c s IH].
  - cbn [Str.find]. destruct (String.prefix x ""); lia.
  - cbn [Str.find]. destruct (String.prefix x (String c s)); [lia|].
    destruct (Str.find x s <? 0) eqn:E; lia.
Qed.

(** [sep in s] exactly when [s.split(sep)] has at least two pieces. *)
Lemma contains_split (c0 : ascii) (sep0 s : string) :
  Str.contains (String c0 sep0) s
  = (2 <=? List.length (Str.split (String c0 sep0) s))%nat.
Proof.
  unfold Str.contains, Str.split. generalize "" as cur.
  induction s as [| c s IH]; intros cur.
  - reflexivity.
  - cbn [Str.find Str.split_go].
    destruct (String.prefix (String c0 sep0) (String c s)) eqn:P.
    + cbn [List.length].
      pose proof (split_go_length (String c0 sep0) s
                    (String.length (String c0 sep0) - 1) "") as L.
      symmetry. apply Nat.leb_le. lia.
    + rewrite <- IH.
      pose proof (find_lower_bound (String c0 sep0) s) as B.
      destruct (Str.find (String c0 sep0) s <? 0) eqn:E.
      * apply Z.ltb_lt in E. symmetry. apply Z.leb_gt. exact E.
      * apply Z.ltb_ge in E. transitivity true.
        -- apply Z.leb_le. lia.
        -- symmetry. apply Z.leb_le. exact E.
Qed.

Lemma extract_sections_fails (rt : Runtime) (content : string) :
  extraction_fails content = true ->
  exists e, SolverAgent.extract_sections rt content = Raise e.
Proof.
  unfold extraction_fails, SolverAgent.extract_sections.
  rewrite !contains_split.
  destruct (Str.split "---STEPS---" content) as [| x0 [| parts l]]; simpl.
  - intros _. eexists. reflexivity.
  - intros _. eexists. reflexivity.
  - rewrite contains_split.
    destruct (Str.split "---FINAL_ANSWER---" parts) as [| sp [| rem [| y l']]]; simpl;
      try (intros _; eexists; reflexivity).
    rewrite contains_split.
    destruct (SolverAgent.parse_steps sp) as [| st sts] eqn:Est.
    + intros _.
      destruct (Str.split "---CONFIDENCE---" rem) as [| a [| b [| c l']]]; simpl;
        eexists; reflexivity.
    + destruct (Str.split "---CONFIDENCE---" rem) as [| a [| b [| c l']]]; simpl;
        try discriminate.
      intros _. eexists. reflexivity.
Qed.

Lemma extract_sections_succeeds (rt : Runtime) (content : string) :
  extraction_fails content = false ->
  exists step steps final_answer confidence,
    SolverAgent.extract_sections rt content = Ok (step :: steps, final_answer, confidence).
Proof.
  unfold extraction_fails, SolverAgent.extract_sections.
  rewrite !contains_split.
  destruct (Str.split "---STEPS---" content) as [| x0 [| parts l]]; simpl;
    try discriminate.
  rewrite contains_split.
  destruct (Str.split "---FINAL_ANSWER---" parts) as [| sp [| rem [| y l']]]; simpl;
    try discriminate.
  rewrite contains_split.
  destruct (SolverAgent.parse_steps sp) as [| st sts] eqn:Est; [discriminate|].
  destruct (Str.split "---CONFIDENCE---" rem) as [| a [| b [| c l']]]; simpl;
    try discriminate; intros _; do 4 eexists; reflexivity.
Qed.

(** ** The solve stage *)

Lemma solve_arithmetic_trace (rt : Runtime) (sv : Services) (query : pyval) :
  Forall calculator_event (trace (Calculator.solve_arithmetic rt sv query)).
Proof.
  destruct query as [| b | z | f | q | l | d];
    try (unfold Calculator.solve_arithmetic, Calculator.parse_query,
           Calculator._try_simple_parse;
         rewrite !trace_bind, trace_lift, result_lift; constructor).
  destruct (solve_arithmetic_spec rt sv q) as [t [res [b [Hc [_ Ht]]]]].
  rewrite Hc. exact Ht.
Qed.

Lemma solve_with_tool_trace (rt : Runtime) (sv : Services) (problem_text : pyval) :
  Forall calculator_event (trace (SolverAgent._solve_with_tool rt sv problem_text)).
Proof.
  unfold SolverAgent._solve_with_tool.
  rewrite trace_bind. apply Forall_app. split; [apply solve_arithmetic_trace|].
  destruct (result (Calculator.solve_arithmetic rt sv problem_text)) as [res | e];
    [|constructor].
  rewrite trace_bind, trace_lift, result_lift.
  destruct (py_item (PDict res) "success") as [s | e]; [|constructor].
  destruct (truthy s); constructor.
Qed.

Lemma retrieve_trace (sv : Services) (problem_text context_str : pyval) :
  Forall store_query_event (trace (SolverAgent.retrieve sv problem_text context_str)).
Proof.
  unfold SolverAgent.retrieve.
  destruct (negb (truthy context_str)); [|constructor].
  rewrite trace_bind. apply Forall_app. split; [repeat constructor|].
  destruct (result (store_query sv problem_text 1)) as [results | e]; [|constructor].
  rewrite trace_bind, trace_lift, result_lift.
  destruct (py_get results "documents" (PList [PList []])) as [documents | e];
    [|constructor].
  rewrite trace_bind, trace_lift, result_lift.
  destruct (py_first documents) as [docs | e]; [|constructor].
  destruct (truthy docs); [|constructor].
  rewrite trace_bind, trace_lift, result_lift.
  destruct (py_first docs); constructor.
Qed.

(** What [solve] returns once the executor has answered. *)
Lemma solve_after_executor (rt : Runtime) (sv : Services) (problem_text : pyval)
    (problem_type : option string) (context_str : pyval) (content : string) :
  answered (SolverAgent.solve rt sv problem_text problem_type context_str)
    ExecutorLLM content ->
  exists plan context,
    result (SolverAgent.solve rt sv problem_text problem_type context_str)
    = match SolverAgent.extract_sections rt content with
      | Ok (steps, final_answer, confidence) =>
          Ok {| sol_plan := plan;
                sol_steps := steps;
                sol_final_answer := final_answer;
                sol_confidence := confidence;
                sol_error := None;
                sol_context := Some context;
                sol_tool_used := None |}
      | Raise e => Ok (parse_error_attempt plan (exn_str e) content)
      end.
Proof.
  intros [prompt Hin]. unfold SolverAgent.solve in *.
  destruct (SolverAgent.is_arithmetic problem_type).
  { pose proof (solve_with_tool_trace rt sv problem_text) as Ht.
    rewrite Forall_forall in Ht. destruct (Ht _ Hin). }
  rewrite result_bind. rewrite trace_bind in Hin.
  apply in_app_or in Hin. destruct Hin as [Hin | Hin].
  { pose proof (retrieve_trace sv problem_text context_str) as Ht.
    rewrite Forall_forall in Ht. destruct (Ht _ Hin). }
  destruct (result (SolverAgent.retrieve sv problem_text context_str)) as [context | e];
    [|destruct Hin].
  rewrite result_bind. rewrite trace_bind in Hin.
  apply in_app_or in Hin. destruct Hin as [Hin | Hin].
  { destruct Hin as [Hin | []]. discriminate Hin. }
  match type of Hin with
  | context [result (run_agent sv PlannerLLM ?p)] =>
      destruct (result (run_agent sv PlannerLLM p)) as [plan | e]; [|destruct Hin]
  end.
  rewrite result_bind. rewrite trace_bind in Hin.
  apply in_app_or in Hin. destruct Hin as [Hin | Hin].
  { destruct (check_unfold rt sv problem_text plan) as [p [Ht _]].
    rewrite Ht in Hin. destruct Hin as [Hin | []]. discriminate Hin. }
  destruct (result (GuardrailAgent.check rt sv problem_text plan)) as [guard_result | e];
    [|destruct Hin].
  rewrite result_bind. rewrite trace_bind, trace_lift, result_lift in Hin.
  rewrite result_lift. cbn [app] in Hin.
  destruct (py_get guard_result "is_safe" (PBool false)) as [is_safe | e]; [|destruct Hin].
  destruct (negb (truthy is_safe)).
  { exfalso.
    rewrite trace_bind, trace_lift, result_lift in Hin. cbn [app] in Hin.
    destruct (py_get guard_result "violation_type" PNone); [|destruct Hin].
    rewrite trace_bind, trace_lift, result_lift in Hin. cbn [app] in Hin.
    destruct (py_get guard_result "reason" PNone); [|destruct Hin].
    rewrite trace_bind, trace_lift, result_lift in Hin. cbn [app] in Hin.
    destruct (py_get guard_result "recommended_action" PNone); destruct Hin. }
  rewrite result_bind. rewrite trace_bind in Hin.
  match type of Hin with
  | context [run_agent sv ExecutorLLM ?p] =>
      generalize dependent p; intros input_prompt Hin
  end.
  unfold run_agent in *. cbn [trace result fst snd] in *.
  destruct (agent_run sv ExecutorLLM input_prompt) as [content' | e].
  - assert (content' = content) as ->.
    { apply in_app_or in Hin. destruct Hin as [[Hin | []] | Hin].
      - injection Hin as _ Hc. exact Hc.
      - rewrite trace_try_except, trace_bind, trace_lift, result_lift in Hin.
        cbn [app] in Hin.
        destruct (SolverAgent.extract_sections rt content') as [[[s f] c] | e];
          destruct Hin. }
    exists plan, context.
    rewrite result_try_except, result_bind, result_lift.
    destruct (SolverAgent.extract_sections rt content) as [[[s f] c] | e]; reflexivity.
  - exfalso. apply in_app_or in Hin. destruct Hin as [[Hin | []] | []].
    discriminate Hin.
Qed.

(** C7, as stated, fails: when the executor's answer has no delimiter, the
    degraded attempt does not have an empty step list; its only step is the
    placeholder text. *)
Lemma executor_parse_failure_counterexample :
  let m := SolverAgent.solve CPython.runtime SolveExamples.rambling_executor
             (PStr "Solve x + y = 4, x - y = 0") (Some "ALGEBRA") (PStr "") in
  answered m ExecutorLLM "The answer is probably 4."
  /\ Str.contains "---STEPS---" "The answer is probably 4." = false
  /\ exists sol,
       result m = Ok sol
       /\ sol_steps sol = ["Error parsing solver output"]
       /\ sol_steps sol <> [].
Proof.
  split; [apply answered_intro; vm_compute; left; reflexivity|].
  split; [vm_compute; reflexivity|].
  eexists. split; [vm_compute; reflexivity|].
  split; [reflexivity | discriminate].
Qed.

Lemma extract_sections_without_confidence (rt : Runtime) (content : string)
    (steps_part remaining : string) :
  sections_of content = Some (steps_part, remaining) ->
  SolverAgent.parse_steps steps_part <> [] ->
  Str.contains "---CONFIDENCE---" remaining = false ->
  extraction_fails content = false
  /\ SolverAgent.extract_sections rt content
     = Ok (SolverAgent.parse_steps steps_part, Str.strip remaining, 0.0%float).
Proof.
  unfold sections_of. intros H Hsteps Hconf.
  unfold extraction_fails, SolverAgent.extract_sections.
  rewrite contains_split.
  destruct (Str.split "---STEPS---" content) as [| x0 [| parts l]];
    try discriminate H.
  cbn [List.length Nat.leb SolverAgent.second].
  rewrite contains_split.
  destruct (Str.split "---FINAL_ANSWER---" parts) as [| sp [| rem [| y l']]];
    try discriminate H.
  injection H as -> ->.
  cbn [List.length Nat.leb SolverAgent.unpack2].
  rewrite Hconf.
  rewrite contains_split in Hconf.
  destruct (SolverAgent.parse_steps steps_part) as [| st sts]; [contradiction|].
  split; [|reflexivity].
  destruct (Str.split "---CONFIDENCE---" remaining) as [| a [| b [| c l']]];
    try reflexivity; discriminate Hconf.
Qed.

(** C7, amended. Once the executor has answered, [solve] does not raise.
    When no attempt can be extracted from the answer (it has no STEPS
    delimiter; or the text between the first STEPS delimiter and the next
    one, or the end, does not hold exactly one FINAL_ANSWER delimiter; or no
    line that is not blank stands between STEPS and FINAL_ANSWER; or the
    text after FINAL_ANSWER holds the CONFIDENCE delimiter more than once),
    it returns the degraded attempt, whose step list is the single
    placeholder Error parsing solver output, whose final answer is Error,
    whose confidence is 0.0 and whose error field holds a diagnostic and the
    raw answer. A missing CONFIDENCE delimiter alone is not such a failure:
    when the two sections are there with at least one step line and the
    text after FINAL_ANSWER holds no CONFIDENCE delimiter, the extracted
    steps and the answer (that text, stripped) are returned with confidence
    0.0 and no error field. *)
Theorem executor_parse_failure_degrades (rt : Runtime) (sv : Services)
    (problem_text : pyval) (problem_type : option string) (context_str : pyval)
    (content : string) :
  answered (SolverAgent.solve rt sv problem_text problem_type context_str)
    ExecutorLLM content ->
  (extraction_fails content = true ->
   exists plan diagnostic,
     result (SolverAgent.solve rt sv problem_text problem_type context_str)
     = Ok {| sol_plan := plan;
             sol_steps := ["Error parsing solver output"];
             sol_final_answer := "Error";
             sol_confidence := 0.0;
             sol_error := Some ("Solver Parse Error: " ++ diagnostic ++ ". Raw: " ++ content);
             sol_context := None;
             sol_tool_used := None |})
  /\ (forall steps_part remaining,
        sections_of content = Some (steps_part, remaining) ->
        SolverAgent.parse_steps steps_part <> [] ->
        Str.contains "---CONFIDENCE---" remaining = false ->
        extraction_fails content = false
        /\ exists plan context,
             result (SolverAgent.solve rt sv problem_text problem_type context_str)
             = Ok {| sol_plan := plan;
                     sol_steps := SolverAgent.parse_steps steps_part;
                     sol_final_answer := Str.strip remaining;
                     sol_confidence := 0.0;
                     sol_error := None;
                     sol_context := Some context;
                     sol_tool_used := None |}).
Proof.
  intros Hans.
  destruct (solve_after_executor _ _ _ _ _ _ Hans) as [plan [context Hres]].
  split.
  - intros Hfail.
    destruct (extract_sections_fails rt content Hfail) as [e He].
    rewrite He in Hres. exists plan, (exn_str e). exact Hres.
  - intros steps_part remaining Hsections Hsteps Hconf.
    destruct (extract_sections_without_confidence rt content steps_part remaining
                Hsections Hsteps Hconf) as [Hok He].
    split; [exact Hok|].
    rewrite He in Hres. exists plan, context. exact Hres.
Qed.

(** Two instances: an executor that answers without any delimiter, and one
    that gives steps and an answer and no confidence. *)
Lemma executor_parse_failure_degrades_witness :
  (exists plan diagnostic,
     result (SolverAgent.solve CPython.runtime SolveExamples.rambling_executor
               (PStr "Solve x + y = 4, x - y = 0") (Some "ALGEBRA") (PStr ""))
     = Ok {| sol_plan := plan;
             sol_steps := ["Error parsing solver output"];
             sol_final_answer := "Error";
             sol_confidence := 0.0;
             sol_error := Some ("Solver Parse Error: " ++ diagnostic ++ ". Raw: "
                                ++ "The answer is probably 4.");
             sol_context := None;
             sol_tool_used := None |})
  /\ (exists plan context,
        result (SolverAgent.solve CPython.runtime ExtractExamples.unsure_executor
                  (PStr "Solve 2x = 8") (Some "ALGEBRA") (PStr ""))
        = Ok {| sol_plan := plan;
                sol_steps := ["Divide both sides by 2"];
                sol_final_answer := "x = 4";
                sol_confidence := 0.0;
                sol_error := None;
                sol_context := Some context;
                sol_tool_used := None |}).
Proof.
  split.
  - apply (executor_parse_failure_degrades CPython.runtime SolveExamples.rambling_executor
             (PStr "Solve x + y = 4, x - y = 0") (Some "ALGEBRA") (PStr "")
             "The answer is probably 4.").
    + apply answered_intro. vm_compute. left. reflexivity.
    + vm_compute. reflexivity.
  - assert (Hans : answered
                     (SolverAgent.solve CPython.runtime ExtractExamples.unsure_executor
                        (PStr "Solve 2x = 8") (Some "ALGEBRA") (PStr ""))
                     ExecutorLLM
                     (Scenario.lines
                        "---STEPS---|1. Divide both sides by 2|---FINAL_ANSWER---|x = 4|")).
    { apply answered_intro. vm_compute. left. reflexivity. }
    destruct (executor_parse_failure_degrades _ _ _ _ _ _ Hans) as [_ Hextracted].
    destruct (Hextracted (Str.nl ++ "1. Divide both sides by 2" ++ Str.nl)
                (Str.nl ++ "x = 4" ++ Str.nl)) as [_ Hres].
    + vm_compute. reflexivity.
    + vm_compute. discriminate.
    + vm_compute. reflexivity.
    + replace (SolverAgent.parse_steps
                 (Str.nl ++ "1. Divide both sides by 2" ++ Str.nl))
        with ["Divide both sides by 2"] in Hres by (vm_compute; reflexivity).
      replace (Str.strip (Str.nl ++ "x = 4" ++ Str.nl)) with "x = 4" in Hres
        by (vm_compute; reflexivity).
      exact Hres.
Defined.

(** The other direction: an answer from which an attempt can be extracted is
    returned as such, with at least one step and no error field. A missing
    CONFIDENCE delimiter alone is not a failure. *)
Lemma executor_answer_extracted (rt : Runtime) (sv : Services)
    (problem_text : pyval) (problem_type : option string) (context_str : pyval)
    (content : string) :
  answered (SolverAgent.solve rt sv problem_text problem_type context_str)
    ExecutorLLM content ->
  extraction_fails content = false ->
  exists sol step steps,
    result (SolverAgent.solve rt sv problem_text problem_type context_str) = Ok sol
    /\ sol_steps sol = step :: steps
    /\ sol_error sol = None.
Proof.
  intros Hans Hok.
  destruct (solve_after_executor _ _ _ _ _ _ Hans) as [plan [context Hres]].
  destruct (extract_sections_succeeds rt content Hok) as [st [sts [fa [conf He]]]].
  rewrite He in Hres. eexists. exists st, sts. split; [exact Hres|].
  split; reflexivity.
Qed.

(** ** The orchestrator: the halt on ambiguous input *)

Lemma process_image_trace (sv : Services) (path : string) :
  Forall parse_stage_event (trace (ParserAgent.process_image sv path))
  /\ exists text, result (ParserAgent.process_image sv path) = Ok text.
Proof.
  unfold ParserAgent.process_image.
  destruct (ocr_reader sv) as [readtext |].
  - destruct (readtext path); simpl; split; try (eexists; reflexivity);
      repeat constructor.
  - split; [constructor | eexists; reflexivity].
Qed.

Lemma process_audio_trace (sv : Services) (path : string) :
  Forall parse_stage_event (trace (ParserAgent.process_audio sv path))
  /\ exists text, result (ParserAgent.process_audio sv path) = Ok text.
Proof.
  unfold ParserAgent.process_audio.
  destruct (whisper_model sv) as [transcribe |].
  - destruct (transcribe path); simpl; split; try (eexists; reflexivity);
      repeat constructor.
  - split; [constructor | eexists; reflexivity].
Qed.

Lemma parser_run_trace (rt : Runtime) (sv : Services)
    (text image_path audio_path : option string) :
  Forall parse_stage_event (trace (ParserAgent.run rt sv text image_path audio_path)).
Proof.
  unfold ParserAgent.run.
  rewrite trace_bind. apply Forall_app. split.
  { destruct (ParserAgent.given image_path) as [path |]; [|constructor].
    rewrite trace_bind. apply Forall_app. split; [apply process_image_trace|].
    destruct (process_image_trace sv path) as [_ [ocr_text ->]].
    destruct (ParserAgent.looks_corrupted ocr_text); constructor. }
  match goal with
  | |- Forall _ match result ?m with _ => _ end => destruct (result m) as [[halted | [ri si]] | e]
  end; try constructor.
  rewrite trace_bind. apply Forall_app. split.
  { destruct (ParserAgent.given audio_path) as [path |]; [|constructor].
    rewrite trace_bind. apply Forall_app. split; [apply process_audio_trace|].
    destruct (process_audio_trace sv path) as [_ [asr_text ->]].
    destruct (ParserAgent.looks_corrupted asr_text); constructor. }
  match goal with
  | |- Forall _ match result ?m with _ => _ end => destruct (result m) as [[halted | [ra sa]] | e]
  end; try constructor.
  destruct (ParserAgent.given text) as [t |].
  - destruct (ParserAgent.append ra ("User Text: " ++ t)) as [| r0 rs]; [constructor|].
    rewrite trace_bind. apply Forall_app. split; [repeat constructor|].
    match goal with
    | |- Forall _ match result ?m with _ => _ end => destruct (result m) as [content | e]
    end; [|constructor].
    rewrite trace_try_except, trace_lift, result_lift. cbn [app].
    match goal with
    | |- Forall _ match ?r with _ => _ end => destruct r
    end; constructor.
  - destruct ra as [| r0 rs]; [constructor|].
    rewrite trace_bind. apply Forall_app. split; [repeat constructor|].
    match goal with
    | |- Forall _ match result ?m with _ => _ end => destruct (result m) as [content | e]
    end; [|constructor].
    rewrite trace_try_except, trace_lift, result_lift. cbn [app].
    match goal with
    | |- Forall _ match ?r with _ => _ end => destruct r
    end; constructor.
Qed.

(** C5. When the parse stage reports ambiguous input, [start_pipeline] halts
    before routing: it returns a state with step parsed, [needs_hitl] set
    and a reason that is not empty, and every event of the run belongs to
    the parse stage, so that no router, solver, calculator, verifier or
    explainer has run. *)
Theorem ambiguous_input_halts (rt : Runtime) (sv : Services)
    (text image_path audio_path session_id : option string) (parsed : pydict) :
  result (ParserAgent.run rt sv text image_path audio_path) = Ok parsed ->
  truthy (dict_get_none parsed "is_ambiguous") = true ->
  exists state,
    result (Orchestrator.start_pipeline rt sv text image_path audio_path session_id)
    = Ok state
    /\ step state = "parsed"
    /\ needs_hitl state = true
    /\ (exists reason, hitl_reason state = Some reason /\ reason <> "")
    /\ parsed_data state = parsed
    /\ Forall parse_stage_event
         (trace (Orchestrator.start_pipeline rt sv text image_path audio_path session_id)).
Proof.
  intros Hparsed Hamb.
  pose proof (parser_run_trace rt sv text image_path audio_path) as Htr.
  unfold Orchestrator.start_pipeline.
  rewrite result_bind, trace_bind.
  set (sess := match ParserAgent.given session_id with
               | Some sid => ret sid
               | None => _
               end).
  assert (Hsess : exists sid, result sess = Ok sid /\ Forall parse_stage_event (trace sess)).
  { subst sess. destruct (ParserAgent.given session_id) as [sid |].
    - exists sid. split; [reflexivity | constructor].
    - eexists. split; [reflexivity | repeat constructor]. }
  destruct Hsess as [sid [Hsid Hst]]. rewrite Hsid.
  rewrite result_bind, trace_bind, Hparsed.
  rewrite result_bind, trace_bind.
  unfold Memory.log_interaction at 1 3. cbn [emit result trace fst snd].
  rewrite Hamb. cbn [result ret snd trace fst].
  eexists. split; [reflexivity|].
  split; [reflexivity|]. split; [reflexivity|].
  split; [eexists; split; [reflexivity | discriminate]|].
  split; [reflexivity|].
  apply Forall_app. split; [exact Hst|].
  apply Forall_app. split; [exact Htr|].
  repeat constructor.
Qed.

(** An instance: a pipeline started without any input. *)
Lemma ambiguous_input_halts_witness :
  exists state,
    result (Orchestrator.start_pipeline CPython.runtime Examples.prose_evaluator
              None None None None)
    = Ok state
    /\ step state = "parsed"
    /\ needs_hitl state = true
    /\ (exists reason, hitl_reason state = Some reason /\ reason <> "")
    /\ parsed_data state
       = [("problem_text", PStr "");
          ("input_type", PStr "none");
          ("is_ambiguous", PBool true);
          ("ambiguity_reason", PStr "No valid input provided");
          ("raw_input_combined", PStr "");
          ("sources", PList [])]
    /\ Forall parse_stage_event
         (trace (Orchestrator.start_pipeline CPython.runtime Examples.prose_evaluator
                   None None None None)).
Proof.
  apply (ambiguous_input_halts CPython.runtime Examples.prose_evaluator
           None None None None).
  - vm_compute. reflexivity.
  - vm_compute. reflexivity.
Defined.

(** ** The orchestrator: the HITL decision *)

Lemma smart_hitl_logic_spec (rt : Runtime) (verification : pyval)
    (state decided : PipelineState) :
  Orchestrator.smart_hitl_logic rt verification state = Ok decided ->
  exists verifier_conf,
    verifier_conf_of verification = Ok verifier_conf
    /\ confidence decided = confidence state
    /\ tool_used decided = tool_used state
    /\ verification_passed decided = verification_passed state
    /\ critique decided = critique state
    /\ session_id decided = session_id state
    /\ (is_calculator (tool_used state) = true ->
        (needs_hitl decided = false <-> py_gt verifier_conf 0.5 = Ok true)
        /\ (needs_hitl decided = true ->
            hitl_reason decided
            = Some ("Calculator Sanity Check Failed: " ++ py_str rt (critique state))))
    /\ (is_calculator (tool_used state) = false ->
        (needs_hitl decided = false <->
         (truthy (verification_passed state) = true
          /\ PrimFloat.ltb 0.9 (confidence state) = true
          /\ py_gt verifier_conf 0.7 = Ok true)
         \/ (truthy (verification_passed state) = true
             /\ PrimFloat.ltb 0.95 (confidence state) = true))).
Proof.
  unfold Orchestrator.smart_hitl_logic, verifier_conf_of.
  destruct (py_get verification "adjusted_confidence" (PFloat 1)) as [cv | e];
    [|discriminate].
  cbn [tool_used set_needs_hitl verification_passed confidence critique].
  intros H. exists cv. split; [reflexivity|].
  destruct (is_calculator (tool_used state)) eqn:Etool.
  - destruct (py_gt cv 0.5) as [[|] | e] eqn:Egt; try discriminate;
      injection H as <-; cbn;
      repeat (split; [reflexivity|]); split; try discriminate; intros _; split.
    + split; reflexivity.
    + discriminate.
    + split; discriminate.
    + reflexivity.
  - destruct (truthy (verification_passed state)) eqn:Evp.
    + destruct (PrimFloat.ltb 0.9 (confidence state)) eqn:E9.
      * destruct (py_gt cv 0.7) as [[|] | e] eqn:Egt; try discriminate.
        -- injection H as <-; cbn. repeat (split; [reflexivity|]).
           split; [discriminate|]. intros _. split; [|reflexivity].
           intros _. left. auto.
        -- cbn [andb] in H.
           destruct (PrimFloat.ltb 0.95 (confidence state)) eqn:E95;
             injection H as <-; cbn; repeat (split; [reflexivity|]);
             (split; [discriminate|]); intros _; split.
           ++ intros _. right. auto.
           ++ reflexivity.
           ++ discriminate.
           ++ intros [[_ [_ Hc]] | [_ Hc]]; discriminate.
      * cbn [andb] in H.
        destruct (PrimFloat.ltb 0.95 (confidence state)) eqn:E95;
          injection H as <-; cbn; repeat (split; [reflexivity|]);
          (split; [discriminate|]); intros _; split.
        -- intros _. right. auto.
        -- reflexivity.
        -- discriminate.
        -- intros [[_ [Hc _]] | [_ Hc]]; discriminate.
    + cbn [andb] in H. injection H as <-; cbn. repeat (split; [reflexivity|]).
      split; [discriminate|]. intros _. split.
      * discriminate.
      * intros [[Hc _] | [Hc _]]; discriminate.
Qed.

(** What a returning [run_solver_phase] went through: the solution, the
    verdict, the state the decision was taken on and the decided state. *)
Lemma run_solver_phase_ok (rt : Runtime) (sv : Services) (state final : PipelineState) :
  result (Orchestrator.run_solver_phase rt sv state) = Ok final ->
  exists solution verification before decided,
    result (SolverAgent.solve rt sv (Orchestrator.problem_text_of state)
              (problem_category state) (PStr "")) = Ok solution
    /\ result (VerifierAgent.verify rt sv (Orchestrator.problem_text_of state)
                 (solution_data_of solution) false) = Ok verification
    /\ confidence before = sol_confidence solution
    /\ tool_used before = sol_tool_used solution
    /\ is_correct_of verification = Ok (verification_passed before)
    /\ py_get verification "critique" (PStr "") = Ok (critique before)
    /\ Orchestrator.smart_hitl_logic rt verification before = Ok decided
    /\ needs_hitl final = needs_hitl decided
    /\ hitl_reason final = hitl_reason decided
    /\ confidence final = confidence decided
    /\ tool_used final = tool_used decided
    /\ verification_passed final = verification_passed decided
    /\ final_answer final = PStr (sol_final_answer solution)
    /\ step final = (if needs_hitl decided then "verified" else "complete").
Proof.
  unfold Orchestrator.run_solver_phase.
  rewrite result_bind.
  destruct (result (SolverAgent.solve rt sv (Orchestrator.problem_text_of state)
                      (problem_category state) (PStr ""))) as [solution | e] eqn:Esol;
    [|discriminate].
  rewrite result_bind. cbn [Memory.log_interaction emit result snd].
  rewrite result_bind.
  match goal with
  | |- context [VerifierAgent.verify rt sv ?p ?d false] =>
      change d with (solution_data_of solution);
      change p with (Orchestrator.problem_text_of state)
  end.
  destruct (result (VerifierAgent.verify rt sv (Orchestrator.problem_text_of state)
                      (solution_data_of solution) false)) as [verification | e] eqn:Ever;
    [|discriminate].
  rewrite result_bind, result_lift.
  destruct (py_item verification "is_correct") as [is_correct | e] eqn:Eic; [|discriminate].
  rewrite result_bind, result_lift.
  destruct (py_get verification "critique" (PStr "")) as [crit | e] eqn:Ecr; [|discriminate].
  rewrite result_bind. cbn [Memory.log_interaction emit result snd].
  rewrite result_bind, result_lift.
  match goal with
  | |- context [Orchestrator.smart_hitl_logic rt verification ?s] =>
      set (before := s)
  end.
  destruct (Orchestrator.smart_hitl_logic rt verification before) as [decided | e] eqn:Edec;
    [|discriminate].
  intros Hfinal.
  exists solution, verification, before, decided.
  split; [reflexivity|]. split; [exact Ever|].
  split; [reflexivity|]. split; [reflexivity|].
  split; [exact Eic|]. split; [exact Ecr|]. split; [exact Edec|].
  destruct (smart_hitl_logic_spec rt verification before decided Edec)
    as [cv [_ [Hconf [Htool [Hvp [Hcrit _]]]]]].
  assert (Hfa : final_answer decided = PStr (sol_final_answer solution)).
  { clear - Edec. unfold Orchestrator.smart_hitl_logic in Edec.
    destruct (py_get verification "adjusted_confidence" (PFloat 1)); [|discriminate].
    destruct (is_calculator _).
    - destruct (py_gt _ _) as [[|]|]; try discriminate; injection Edec as <-; reflexivity.
    - destruct (if truthy _ then _ else _) as [[|]|]; try discriminate.
      + injection Edec as <-; reflexivity.
      + destruct (_ && _); injection Edec as <-; reflexivity. }
  destruct (needs_hitl decided) eqn:Eneeds.
  - cbn [result ret snd] in Hfinal. injection Hfinal as <-.
    cbn. rewrite Eneeds. auto 10.
  - rewrite result_bind in Hfinal.
    destruct (result (ExplainerAgent.explain rt sv _ _ _ _)) as [explanation | e];
      [|discriminate].
    rewrite result_bind in Hfinal. cbn [Memory.log_interaction emit result ret snd] in Hfinal.
    injection Hfinal as <-. cbn. rewrite Eneeds. auto 10.
Qed.





(** The explainer returns an explanation whenever its agent answers. *)
Lemma explain_total (rt : Runtime) (sv : Services) (problem_text : pyval)
    (solution_steps : list string) (final_answer category : pyval) :
  answers sv ExplainerLLM ->
  exists explanation,
    result (ExplainerAgent.explain rt sv problem_text solution_steps final_answer category)
    = Ok explanation.
Proof.
  intros Hans. unfold ExplainerAgent.explain.
  match goal with |- context [run_agent sv ExplainerLLM ?p] => generalize p end.
  intros prompt. rewrite result_bind. unfold run_agent at 1. cbn [result snd].
  destruct (Hans prompt) as [content ->].
  rewrite result_try_except.
  destruct (Re.search ExplainerAgent.braces content) as [m |].
  - rewrite result_lift. destruct (json_loads rt (Re.matched m)); eexists; reflexivity.
  - eexists. reflexivity.
Qed.

(** The decision on a verdict that has no [adjusted_confidence]. *)
Lemma decision_without_confidence (rt : Runtime) (d : pydict) (before : PipelineState) :
  dict_get d "adjusted_confidence" = None ->
  is_calculator (tool_used before) = true
  \/ (truthy (verification_passed before) = true
      /\ PrimFloat.ltb 0.9 (confidence before) = true) ->
  Orchestrator.smart_hitl_logic rt (PDict d) before
  = Ok (set_needs_hitl false (set_needs_hitl true before)).
Proof.
  intros Hmissing Hcase.
  unfold Orchestrator.smart_hitl_logic, py_get, dict_get_or. rewrite Hmissing.
  change (tool_used (set_needs_hitl true before)) with (tool_used before).
  change (verification_passed (set_needs_hitl true before))
    with (verification_passed before).
  destruct (is_calculator (tool_used before)) eqn:Etool.
  - reflexivity.
  - destruct Hcase as [Hc | [Htruthy Hgt]]; [discriminate|].
    rewrite Htruthy, Hgt. reflexivity.
Qed.

(** Binary64 comparison with a smaller bound of the same exponent. *)
Lemma SFltb_lower (p p0 : positive) (e : Z) (x : spec_float) :
  (p0 < p)%positive ->
  SFltb (S754_finite false p e) x = true ->
  SFltb (S754_finite false p0 e) x = true.
Proof.
  intros Hlt. unfold SFltb, SFcompare.
  destruct x as [s | s | | s m e']; try (intros H; exact H).
  destruct s; [intros H; exact H|].
  destruct (Z.compare e e'); try (intros H; exact H).
  change (Pos.compare_cont Eq p m) with (Pos.compare p m).
  change (Pos.compare_cont Eq p0 m) with (Pos.compare p0 m).
  destruct (Pos.compare_spec p m); try discriminate.
  intros _. destruct (Pos.compare_spec p0 m); try reflexivity; lia.
Qed.

(** A confidence above 0.95 is above 0.9. *)
Lemma above_095_above_09 (c : float) :
  PrimFloat.ltb 0.95 c = true -> PrimFloat.ltb 0.9 c = true.
Proof.
  rewrite !FloatAxioms.ltb_spec.
  change (Prim2SF 0.95) with (S754_finite false 8556839292003942 (-53)).
  change (Prim2SF 0.9) with (S754_finite false 8106479329266893 (-53)).
  apply SFltb_lower. reflexivity.
Qed.

(** The decision on a verdict without [adjusted_confidence] that keeps the
    attempt: an attempt of the model whose verification did not pass or whose
    solver confidence does not exceed 0.9. *)
Lemma decision_without_confidence_kept (rt : Runtime) (d : pydict)
    (before : PipelineState) :
  dict_get d "adjusted_confidence" = None ->
  is_calculator (tool_used before) = false ->
  truthy (verification_passed before) = false
  \/ PrimFloat.ltb 0.9 (confidence before) = false ->
  Orchestrator.smart_hitl_logic rt (PDict d) before
  = Ok (set_hitl_reason
          (Some ("Verification Failed. Solver: " ++ py_str rt (PFloat (confidence before))
                 ++ ", Verifier: " ++ py_str rt (PFloat 1.0)
                 ++ ", Critique: " ++ py_str rt (critique before)))
          (set_needs_hitl true before)).
Proof.
  intros Hmissing Htool Hcase.
  unfold Orchestrator.smart_hitl_logic, py_get, dict_get_or. rewrite Hmissing.
  change (tool_used (set_needs_hitl true before)) with (tool_used before).
  change (verification_passed (set_needs_hitl true before))
    with (verification_passed before).
  change (critique (set_needs_hitl true before)) with (critique before).
  rewrite Htool.
  destruct (truthy (verification_passed before)) eqn:Hvp; [|reflexivity].
  destruct Hcase as [Hc | Hc]; [discriminate|]. rewrite Hc.
  destruct (PrimFloat.ltb 0.95 (confidence before)) eqn:H95; [|reflexivity].
  apply above_095_above_09 in H95. rewrite H95 in Hc. discriminate Hc.
Qed.

(** The decision on a verdict without [adjusted_confidence], in full. *)
Lemma decision_at_full_confidence (rt : Runtime) (d : pydict) (before : PipelineState) :
  dict_get d "adjusted_confidence" = None ->
  exists decided,
    Orchestrator.smart_hitl_logic rt (PDict d) before = Ok decided
    /\ (needs_hitl decided = false <->
        is_calculator (tool_used before) = true
        \/ (truthy (verification_passed before) = true
            /\ PrimFloat.ltb 0.9 (confidence before) = true))
    /\ (needs_hitl decided = true ->
        hitl_reason decided
        = Some ("Verification Failed. Solver: " ++ py_str rt (PFloat (confidence before))
                ++ ", Verifier: " ++ py_str rt (PFloat 1.0)
                ++ ", Critique: " ++ py_str rt (critique before)))
    /\ (decided = set_needs_hitl false (set_needs_hitl true before)
        \/ exists reason,
             decided = set_hitl_reason (Some reason) (set_needs_hitl true before)).
Proof.
  intros Hmissing.
  destruct (is_calculator (tool_used before)) eqn:Htool.
  { eexists. split; [apply (decision_without_confidence rt d before Hmissing); auto|].
    split; [split; [auto | reflexivity]|].
    split; [discriminate | left; reflexivity]. }
  destruct (truthy (verification_passed before)) eqn:Hvp.
  - destruct (PrimFloat.ltb 0.9 (confidence before)) eqn:H9.
    + eexists. split; [apply (decision_without_confidence rt d before Hmissing); auto|].
      split; [split; [auto | reflexivity]|].
      split; [discriminate | left; reflexivity].
    + eexists.
      split; [apply (decision_without_confidence_kept rt d before Hmissing Htool); auto|].
      split; [split; [discriminate | intros [H | [_ H]]; discriminate H]|].
      split; [reflexivity | right; eexists; reflexivity].
  - eexists.
    split; [apply (decision_without_confidence_kept rt d before Hmissing Htool); auto|].
    split; [split; [discriminate | intros [H | [H _]]; discriminate H]|].
    split; [reflexivity | right; eexists; reflexivity].
Qed.

(** C10. When the verdict of the verify stage has no [adjusted_confidence],
    the HITL decision of the code is the decision it takes on the same
    verdict with adjusted_confidence 1.0, on every state. So it clears
    [needs_hitl] exactly for the attempts of the calculator and for the
    attempts of the model whose verification passed and whose solver
    confidence exceeds 0.9, although no verifier confidence was reported;
    every other attempt is kept, and the reason then names 1.0 as the
    verifier's confidence. With such a verdict the solver phase returns the
    state so decided: complete when cleared, verified when kept. *)
Theorem missing_adjusted_confidence_clears (rt : Runtime) (sv : Services) (d : pydict) :
  dict_get d "adjusted_confidence" = None ->
  (forall before,
      Orchestrator.smart_hitl_logic rt (PDict d) before
      = Orchestrator.smart_hitl_logic rt
          (PDict (dict_set d "adjusted_confidence" (PFloat 1.0))) before)
  /\ (forall before,
        exists decided,
          Orchestrator.smart_hitl_logic rt (PDict d) before = Ok decided
          /\ (needs_hitl decided = false <->
              is_calculator (tool_used before) = true
              \/ (truthy (verification_passed before) = true
                  /\ PrimFloat.ltb 0.9 (confidence before) = true))
          /\ (needs_hitl decided = true ->
              hitl_reason decided
              = Some ("Verification Failed. Solver: "
                      ++ py_str rt (PFloat (confidence before))
                      ++ ", Verifier: " ++ py_str rt (PFloat 1.0)
                      ++ ", Critique: " ++ py_str rt (critique before))))
  /\ (forall state solution is_correct,
        result (SolverAgent.solve rt sv (Orchestrator.problem_text_of state)
                  (problem_category state) (PStr "")) = Ok solution ->
        result (VerifierAgent.verify rt sv (Orchestrator.problem_text_of state)
                  (solution_data_of solution) false) = Ok (PDict d) ->
        dict_get d "is_correct" = Some is_correct ->
        answers sv ExplainerLLM ->
        exists final,
          result (Orchestrator.run_solver_phase rt sv state) = Ok final
          /\ (needs_hitl final = false <->
              is_calculator (sol_tool_used solution) = true
              \/ (truthy is_correct = true
                  /\ PrimFloat.ltb 0.9 (sol_confidence solution) = true))
          /\ step final = (if needs_hitl final then "verified" else "complete")
          /\ verification_passed final = is_correct).
Proof.
  intros Hmissing.
  split; [|split].
  { intros before. unfold Orchestrator.smart_hitl_logic, py_get, dict_get_or.
    rewrite Hmissing, dict_get_set_same. reflexivity. }
  { intros before.
    destruct (decision_at_full_confidence rt d before Hmissing)
      as [decided [Hdec [Hiff [Hreason _]]]].
    exists decided. auto. }
  intros state solution is_correct Hsol Hver Hic Hexplainer.
  unfold Orchestrator.run_solver_phase.
  rewrite result_bind, Hsol.
  rewrite result_bind. cbn [Memory.log_interaction emit result snd].
  rewrite result_bind.
  match goal with
  | |- context [VerifierAgent.verify rt sv ?p ?sd false] =>
      change sd with (solution_data_of solution);
      change p with (Orchestrator.problem_text_of state)
  end.
  rewrite Hver.
  rewrite result_bind, result_lift. unfold py_item. rewrite Hic.
  rewrite result_bind, result_lift. cbn [py_get].
  rewrite result_bind. cbn [Memory.log_interaction emit result snd].
  rewrite result_bind, result_lift.
  match goal with
  | |- context [Orchestrator.smart_hitl_logic rt (PDict d) ?s] => set (before := s)
  end.
  destruct (decision_at_full_confidence rt d before Hmissing)
    as [decided [Hdec [Hiff [_ Hshape]]]].
  rewrite Hdec.
  change (tool_used before) with (sol_tool_used solution) in Hiff.
  change (verification_passed before) with is_correct in Hiff.
  change (confidence before) with (sol_confidence solution) in Hiff.
  assert (Hvp : verification_passed decided = is_correct)
    by (destruct Hshape as [-> | [reason ->]]; reflexivity).
  destruct (needs_hitl decided) eqn:Hneeds.
  - cbn [result ret snd]. eexists. split; [reflexivity|].
    cbn [needs_hitl set_step step verification_passed]. rewrite Hneeds.
    split; [exact Hiff|]. split; [reflexivity | exact Hvp].
  - rewrite result_bind.
    match goal with
    | |- context [ExplainerAgent.explain rt sv ?p ?s ?f ?c] =>
        destruct (explain_total rt sv p s f c Hexplainer) as [expl ->]
    end.
    rewrite result_bind. cbn [Memory.log_interaction emit result snd ret].
    eexists. split; [reflexivity|].
    cbn [needs_hitl set_step set_explanation step verification_passed]. rewrite Hneeds.
    split; [exact Hiff|]. split; [reflexivity | exact Hvp].
Qed.

(** An instance: an out-of-range answer of the calculator and a verifier that
    reports no confidence and finds the answer wrong; the run completes
    without review. *)
Lemma missing_adjusted_confidence_clears_witness :
  let rt := CPython.runtime in
  let sv := PolicyExamples.terse_verifier in
  let state := PolicyExamples.routed "10^101" "ARITHMETIC" in
  let d := [("is_correct", PBool false); ("critique", PStr "Too large")] in
  result (VerifierAgent.verify rt sv (Orchestrator.problem_text_of state)
            (solution_data_of PolicyExamples.power_attempt) false) = Ok (PDict d)
  /\ exists final,
       result (Orchestrator.run_solver_phase rt sv state) = Ok final
       /\ needs_hitl final = false
       /\ step final = (if needs_hitl final then "verified" else "complete")
       /\ verification_passed final = PBool false.
Proof.
  intros rt sv state d.
  assert (Hver : result (VerifierAgent.verify rt sv (Orchestrator.problem_text_of state)
            (solution_data_of PolicyExamples.power_attempt) false) = Ok (PDict d))
    by (vm_compute; reflexivity).
  split; [exact Hver|].
  destruct (missing_adjusted_confidence_clears rt sv d) as [_ [_ Hphase]].
  - reflexivity.
  - destruct (Hphase state PolicyExamples.power_attempt (PBool false))
      as [final [Hres [Hiff [Hstep Hvp]]]].
    + vm_compute. reflexivity.
    + exact Hver.
    + reflexivity.
    + intros prompt. eexists. reflexivity.
    + exists final. split; [exact Hres|].
      split; [apply Hiff; left; reflexivity|].
      split; [exact Hstep | exact Hvp].
Defined.

(** ** The orchestrator: resumption with an overriding answer *)

(** C9, as stated, fails: feedback that contains an [override_answer]
    together with a [corrected_text] is handled as a correction of the text;
    the pipeline is run again from routing, and here it halts once more,
    with the solver's answer and not the supplied one. *)
Lemma override_answer_counterexample :
  dict_get ResumeExamples.both "override_answer" = Some (PStr "x = 5")
  /\ exists final,
       result (Orchestrator.resume_with_feedback CPython.runtime ResumeExamples.services
                 ResumeExamples.halted ResumeExamples.both) = Ok final
       /\ step final = "verified"
       /\ needs_hitl final = true
       /\ final_answer final = PStr "x = 4".
Proof.
  split; [reflexivity|].
  eexists. split; [vm_compute; reflexivity|].
  repeat split.
Qed.

Lemma learn_from_success_trace (rt : Runtime) (sv : Services) (state : PipelineState) :
  (exists u, result (Orchestrator.learn_from_success rt sv state) = Ok u)
  /\ (Orchestrator.learnable state = true ->
      exists doc metadata r,
        In (StoreAdd [doc] [metadata]
              ["learn_" ++ String.substring 0 8 (session_id state)] r)
           (trace (Orchestrator.learn_from_success rt sv state))).
Proof.
  unfold Orchestrator.learn_from_success.
  destruct (Orchestrator.learnable state).
  - cbn [negb]. unfold VectorStore.add_documents, store_add, try_except, ret.
    match goal with
    | |- context [collection_add sv ?docs ?metas ?ids] =>
        destruct (collection_add sv docs metas ids) as [u | e] eqn:E
    end.
    + split; [eexists; reflexivity|]. intros _. do 3 eexists. left. reflexivity.
    + split; [eexists; reflexivity|]. intros _. do 3 eexists. left. reflexivity.
  - split; [eexists; reflexivity | discriminate].
Qed.

(** C9, amended. When a session is resumed with feedback that contains an
    [override_answer] and no [corrected_text], and the explainer answers,
    the resulting state has step complete, verification passed, [needs_hitl]
    false and the supplied answer as final answer; and when the state has a
    problem text and the answer is not empty, a learning record, identified
    by the first eight characters of the session id, is written to the
    knowledge store. *)
Theorem override_answer_completes (rt : Runtime) (sv : Services)
    (state : PipelineState) (feedback : pydict) (answer : pyval) :
  dict_mem feedback "corrected_text" = false ->
  dict_get feedback "override_answer" = Some answer ->
  answers sv ExplainerLLM ->
  exists final,
    result (Orchestrator.resume_with_feedback rt sv state feedback) = Ok final
    /\ step final = "complete"
    /\ verification_passed final = PBool true
    /\ needs_hitl final = false
    /\ final_answer final = answer
    /\ (truthy (dict_get_none (parsed_data state) "problem_text") = true ->
        truthy answer = true ->
        exists doc metadata r,
          In (StoreAdd [doc] [metadata]
                ["learn_" ++ String.substring 0 8 (session_id state)] r)
             (trace (Orchestrator.resume_with_feedback rt sv state feedback))).
Proof.
  intros Hno Hanswer Hexplainer.
  remember (Orchestrator.resume_with_feedback rt sv state feedback) as m eqn:Em.
  unfold Orchestrator.resume_with_feedback in Em.
  rewrite Hno in Em. unfold dict_mem in Em. rewrite Hanswer in Em.
  unfold dict_get_none, dict_get_or in Em. rewrite Hanswer in Em.
  subst m.
  rewrite result_bind, trace_bind.
  match goal with
  | |- context [ExplainerAgent.explain rt sv ?p ?s ?f ?c] =>
      destruct (explain_total rt sv p s f c Hexplainer) as [explanation Hexp];
      rewrite Hexp
  end.
  rewrite result_bind, trace_bind.
  match goal with
  | |- context [Orchestrator.learn_from_success rt sv ?s] => set (completed := s)
  end.
  destruct (learn_from_success_trace rt sv completed) as [[u Hu] Hlearn].
  rewrite Hu. cbn [result ret snd trace fst].
  eexists. split; [reflexivity|].
  split; [reflexivity|]. split; [reflexivity|]. split; [reflexivity|].
  split; [reflexivity|].
  intros Hproblem Htruthy.
  destruct Hlearn as [doc [metadata [r Hin]]].
  { unfold Orchestrator.learnable. subst completed. cbn.
    rewrite Hproblem, Htruthy. reflexivity. }
  exists doc, metadata, r.
  apply in_or_app. right. apply in_or_app. left. exact Hin.
Qed.

(** An instance: a halted session resumed with an answer only. *)
Lemma override_answer_completes_witness :
  exists final,
    result (Orchestrator.resume_with_feedback CPython.runtime ResumeExamples.services
              ResumeExamples.halted ResumeExamples.override_only) = Ok final
    /\ step final = "complete"
    /\ verification_passed final = PBool true
    /\ needs_hitl final = false
    /\ final_answer final = PStr "x = 5"
    /\ (truthy (dict_get_none (parsed_data ResumeExamples.halted) "problem_text") = true ->
        truthy (PStr "x = 5") = true ->
        exists doc metadata r,
          In (StoreAdd [doc] [metadata]
                ["learn_" ++ String.substring 0 8 (session_id ResumeExamples.halted)] r)
             (trace (Orchestrator.resume_with_feedback CPython.runtime
                       ResumeExamples.services ResumeExamples.halted
                       ResumeExamples.override_only))).
Proof.
  apply (override_answer_completes CPython.runtime ResumeExamples.services
           ResumeExamples.halted ResumeExamples.override_only (PStr "x = 5")).
  - reflexivity.
  - reflexivity.
  - intros prompt. eexists. reflexivity.
Defined.

(* ===================================================================== *)
(** * Further properties of the code *)
(* ===================================================================== *)

(** ** Traces *)

Lemma agents_of_app (t1 t2 : list event) :
  agents_of (t1 ++ t2) = (agents_of t1 ++ agents_of t2)%list.
Proof.
  induction t1 as [| ev t1 IH]; [reflexivity|].
  destruct ev; simpl; rewrite IH; reflexivity.
Qed.

Lemma roles_of_app (t1 t2 : list event) :
  roles_of (t1 ++ t2) = (roles_of t1 ++ roles_of t2)%list.
Proof.
  induction t1 as [| ev t1 IH]; [reflexivity|].
  destruct ev; simpl; rewrite IH; reflexivity.
Qed.

Lemma not_called_of_agents {A} (m : M A) (a : Agent) :
  ~ In a (agents_of (trace m)) -> not_called m a.
Proof.
  intros H prompt r Hin. apply H. clear H.
  induction (trace m) as [| ev t IH]; [contradiction|].
  destruct Hin as [-> | Hin]; [left; reflexivity|].
  destruct ev; simpl; auto.
Qed.

Lemma store_query_events (t : list event) :
  Forall store_query_event t -> agents_of t = [] /\ roles_of t = [].
Proof.
  induction 1 as [| ev t Hev _ [IHa IHr]]; [split; reflexivity|].
  destruct ev; try contradiction. simpl. auto.
Qed.

Lemma calculator_events (t : list event) :
  Forall calculator_event t ->
  roles_of t = [] /\ forall a, In a (agents_of t) -> a = CalculatorLLM.
Proof.
  induction 1 as [| ev t Hev _ [IHr IHa]]; [split; [reflexivity | contradiction]|].
  destruct ev as [a p r | | | | | | |]; try contradiction; simpl.
  - destruct a; try contradiction. split; [exact IHr|].
    intros a [<- | H]; auto.
  - auto.
Qed.

Lemma trace_run_agent (sv : Services) (a : Agent) (prompt : string) :
  trace (run_agent sv a prompt) = [AgentRun a prompt (agent_run sv a prompt)].
Proof. reflexivity. Qed.

Lemma result_run_agent (sv : Services) (a : Agent) (prompt : string) :
  result (run_agent sv a prompt) = agent_run sv a prompt.
Proof. reflexivity. Qed.

(** ** The paths through the solve stage *)

Lemma solve_paths (rt : Runtime) (sv : Services) (problem_text : pyval)
    (problem_type : option string) (context_str : pyval) :
  SolverAgent.is_arithmetic problem_type = false ->
  solve_path rt sv problem_text context_str
    (trace (SolverAgent.solve rt sv problem_text problem_type context_str))
    (result (SolverAgent.solve rt sv problem_text problem_type context_str)).
Proof.
  intros Hmodel. unfold SolverAgent.solve. rewrite Hmodel.
  rewrite trace_bind, result_bind.
  destruct (SolverAgent.retrieve sv problem_text context_str) as [t [context | e]] eqn:Eret;
    cbn [trace result fst snd].
  2: { rewrite app_nil_r. apply retrieval_raised. exact Eret. }
  rewrite trace_bind, result_bind.
  fold (planner_prompt rt problem_text).
  rewrite trace_run_agent, !result_run_agent.
  destruct (agent_run sv PlannerLLM (planner_prompt rt problem_text)) as [plan | e] eqn:Eplan.
  2: { rewrite app_nil_r. eapply planner_raised; eassumption. }
  rewrite trace_bind, result_bind.
  destruct (result (GuardrailAgent.check rt sv problem_text plan)) as [verdict | e] eqn:Echeck.
  2: { rewrite app_nil_r. eapply guardrail_raised; eassumption. }
  rewrite trace_bind, result_bind, trace_lift, result_lift. cbn [app].
  destruct (py_get verdict "is_safe" (PBool false)) as [is_safe | e] eqn:Esafe.
  2: { rewrite app_nil_r. eapply verdict_not_a_dict; eassumption. }
  destruct verdict as [| | | | | | d]; try discriminate.
  cbn [py_get] in Esafe. injection Esafe as <-.
  destruct (truthy (dict_get_or d "is_safe" (PBool false))) eqn:Etruthy; cbn [negb].
  - fold (executor_prompt rt problem_text context plan).
    rewrite trace_bind, result_bind.
    rewrite trace_run_agent, !result_run_agent.
    destruct (agent_run sv ExecutorLLM (executor_prompt rt problem_text context plan))
      as [content | e] eqn:Eexec.
    + rewrite trace_try_except, result_try_except, trace_bind, result_bind,
        trace_lift, result_lift. cbn [app].
      replace (match SolverAgent.extract_sections rt content with
               | Ok a => trace _
               | Raise _ => []
               end ++ match match SolverAgent.extract_sections rt content with
                            | Ok a => result _
                            | Raise e => Raise e
                            end with
                      | Ok _ => []
                      | Raise e => trace _
                      end)%list with (@nil event)
        by (destruct (SolverAgent.extract_sections rt content) as [[[s f] c] | e];
            reflexivity).
      replace (match match SolverAgent.extract_sections rt content with
                     | Ok a => result _
                     | Raise e => Raise e
                     end with
               | Ok a => Ok a
               | Raise e => result _
               end) with (Ok (executed rt plan context content))
        by (unfold executed;
            destruct (SolverAgent.extract_sections rt content) as [[[s f] c] | e];
            reflexivity).
      eapply executor_answered; eassumption.
    + rewrite app_nil_r. eapply executor_raised; eassumption.
  - cbn [py_get]. rewrite !trace_bind, !result_bind, !trace_lift, !result_lift.
    cbn [app trace result ret fst snd]. rewrite app_nil_r.
    eapply blocked; eassumption.
Qed.

Lemma retrieve_events (sv : Services) (problem_text context_str : pyval)
    (t : list event) (r : Res pyval) :
  SolverAgent.retrieve sv problem_text context_str = (t, r) ->
  agents_of t = [] /\ Forall store_query_event t.
Proof.
  intros E. pose proof (retrieve_trace sv problem_text context_str) as H.
  rewrite E in H. cbn [trace fst] in H.
  split; [apply store_query_events|]; exact H.
Qed.

Lemma check_prompt (rt : Runtime) (sv : Services) (problem_text : pyval) (plan : string) :
  trace (GuardrailAgent.check rt sv problem_text plan)
  = [AgentRun GuardrailLLM (guardrail_prompt rt problem_text plan)
       (agent_run sv GuardrailLLM (guardrail_prompt rt problem_text plan))]
  /\ result (GuardrailAgent.check rt sv problem_text plan)
     = match agent_run sv GuardrailLLM (guardrail_prompt rt problem_text plan) with
       | Ok content =>
           match json_loads rt (extract_json content) with
           | Ok v => Ok v
           | Raise e => Ok (GuardrailAgent.fail_closed e)
           end
       | Raise e => Raise e
       end.
Proof.
  unfold GuardrailAgent.check. fold (guardrail_prompt rt problem_text plan).
  generalize (guardrail_prompt rt problem_text plan). intro prompt.
  unfold run_agent, try_except, lift, bind, ret.
  destruct (agent_run sv GuardrailLLM prompt) as [content | e]; simpl.
  - destruct (json_loads rt (extract_json content)); simpl; split; reflexivity.
  - split; reflexivity.
Qed.

Lemma check_agents (rt : Runtime) (sv : Services) (problem_text : pyval) (plan : string) :
  agents_of (trace (GuardrailAgent.check rt sv problem_text plan)) = [GuardrailLLM].
Proof.
  destruct (check_prompt rt sv problem_text plan) as [-> _]. reflexivity.
Qed.

(** The agents of each path, computed. *)
Ltac path_agents :=
  repeat match goal with
         | H : SolverAgent.retrieve _ _ _ = (_, _) |- _ =>
             apply retrieve_events in H; destruct H as [? _]
         end;
  rewrite ?agents_of_app; cbn [agents_of]; rewrite ?agents_of_app, ?check_agents;
  cbn [agents_of];
  repeat match goal with H : agents_of _ = [] |- _ => rewrite H; clear H end;
  cbn [app].

Lemma solve_path_agents (rt : Runtime) (sv : Services) (problem_text context_str : pyval)
    (t : list event) (r : Res Solution) :
  solve_path rt sv problem_text context_str t r ->
  (agents_of t = [PlannerLLM; GuardrailLLM; ExecutorLLM]
   /\ exists plan verdict,
        agent_run sv PlannerLLM (planner_prompt rt problem_text) = Ok plan
        /\ result (GuardrailAgent.check rt sv problem_text plan) = Ok (PDict verdict)
        /\ truthy (dict_get_or verdict "is_safe" (PBool false)) = true)
  \/ (~ In ExecutorLLM (agents_of t)
      /\ exists n, agents_of t = firstn n [PlannerLLM; GuardrailLLM]).
Proof.
  intros Hp.
  destruct Hp;
    try (left; split; [path_agents; reflexivity | eauto]);
    right; path_agents.
  - split; [intros [] | exists 0%nat; reflexivity].
  - split; [intros [H | []]; discriminate | exists 1%nat; reflexivity].
  - split; [intros [H | [H | []]]; discriminate | exists 2%nat; reflexivity].
  - split; [intros [H | [H | []]]; discriminate | exists 2%nat; reflexivity].
  - split; [intros [H | [H | []]]; discriminate | exists 2%nat; reflexivity].
Qed.

Lemma executor_gate (rt : Runtime) (sv : Services) (problem_text context_str : pyval)
    (t : list event) (r : Res Solution) :
  solve_path rt sv problem_text context_str t r ->
  In ExecutorLLM (agents_of t) ->
  exists plan verdict,
    agent_run sv PlannerLLM (planner_prompt rt problem_text) = Ok plan
    /\ result (GuardrailAgent.check rt sv problem_text plan) = Ok (PDict verdict)
    /\ truthy (dict_get_or verdict "is_safe" (PBool false)) = true.
Proof.
  intros Hp Hin.
  destruct (solve_path_agents _ _ _ _ _ _ Hp) as [[_ H] | [Hno _]];
    [exact H | contradiction].
Qed.

Lemma solve_with_tool_agents (rt : Runtime) (sv : Services) (problem_text : pyval)
    (a : Agent) :
  In a (agents_of (trace (SolverAgent._solve_with_tool rt sv problem_text))) ->
  a = CalculatorLLM.
Proof.
  apply calculator_events, solve_with_tool_trace.
Qed.

(** ** The solve stage: the guardrail gates the executor *)

(** X1. Whatever the category, the context and the collaborators: when the
    executor is called in a run of solve, the planner has answered, the
    guardrail has returned a dict whose is_safe is truthy, and the agents
    called are the planner, the guardrail and the executor, in this order,
    once each. *)
Theorem executor_runs_only_on_safe_verdict (rt : Runtime) (sv : Services)
    (problem_text : pyval) (problem_type : option string) (context_str : pyval) :
  In ExecutorLLM
    (agents_of (trace (SolverAgent.solve rt sv problem_text problem_type context_str))) ->
  exists plan verdict,
    agent_run sv PlannerLLM (planner_prompt rt problem_text) = Ok plan
    /\ result (GuardrailAgent.check rt sv problem_text plan) = Ok (PDict verdict)
    /\ truthy (dict_get_or verdict "is_safe" (PBool false)) = true
    /\ agents_of (trace (SolverAgent.solve rt sv problem_text problem_type context_str))
       = [PlannerLLM; GuardrailLLM; ExecutorLLM].
Proof.
  intros Hin.
  destruct (SolverAgent.is_arithmetic problem_type) eqn:Ha.
  - exfalso. unfold SolverAgent.solve in Hin. rewrite Ha in Hin.
    apply solve_with_tool_agents in Hin. discriminate Hin.
  - destruct (solve_path_agents _ _ _ _ _ _
                (solve_paths rt sv problem_text problem_type context_str Ha))
      as [[Hag [plan [verdict [Hplan [Hcheck Hsafe]]]]] | [Hno _]].
    + exists plan, verdict. auto.
    + contradiction.
Qed.

(** An instance: the guardrail approves, the executor is called. *)
Lemma executor_runs_only_on_safe_verdict_witness :
  exists plan verdict,
    agent_run GuardExamples.approving PlannerLLM
      (planner_prompt CPython.runtime (PStr "Solve 2x = 8")) = Ok plan
    /\ result (GuardrailAgent.check CPython.runtime GuardExamples.approving
                 (PStr "Solve 2x = 8") plan) = Ok (PDict verdict)
    /\ truthy (dict_get_or verdict "is_safe" (PBool false)) = true
    /\ agents_of (trace (SolverAgent.solve CPython.runtime GuardExamples.approving
                           (PStr "Solve 2x = 8") (Some "ALGEBRA") (PStr "")))
       = [PlannerLLM; GuardrailLLM; ExecutorLLM].
Proof.
  apply (executor_runs_only_on_safe_verdict CPython.runtime GuardExamples.approving
           (PStr "Solve 2x = 8") (Some "ALGEBRA") (PStr "")).
  vm_compute. right. right. left. reflexivity.
Defined.

Lemma in_store_query_events (t : list event) (a : Agent) (p : string) (r : Res string) :
  Forall store_query_event t -> ~ In (AgentRun a p r) t.
Proof.
  intros H Hin. rewrite Forall_forall in H. exact (H _ Hin).
Qed.

Lemma check_raises (rt : Runtime) (sv : Services) (problem_text : pyval)
    (plan : string) (a : Agent) (prompt : string) (e : exn) :
  In (AgentRun a prompt (Raise e))
     (trace (GuardrailAgent.check rt sv problem_text plan)) ->
  trace (GuardrailAgent.check rt sv problem_text plan) = [AgentRun a prompt (Raise e)]
  /\ result (GuardrailAgent.check rt sv problem_text plan) = Raise e.
Proof.
  destruct (check_prompt rt sv problem_text plan) as [-> ->].
  intros [Hin | []]. injection Hin as <- <- ->. split; reflexivity.
Qed.

(** A call that raises ends the path, and the path ends with its exception. *)
Lemma solve_path_raise (rt : Runtime) (sv : Services) (problem_text context_str : pyval)
    (t : list event) (r : Res Solution) (a : Agent) (prompt : string) (e : exn) :
  solve_path rt sv problem_text context_str t r ->
  In (AgentRun a prompt (Raise e)) t ->
  r = Raise e /\ exists t', t = (t' ++ [AgentRun a prompt (Raise e)])%list.
Proof.
  intros Hp Hin.
  destruct Hp as [t e0 E | t c e0 E Hplan | t c plan e0 E Hplan Hcheck
                  | t c plan v e0 E Hplan Hcheck Hget | t c plan v E Hplan Hcheck Hsafe
                  | t c plan v e0 E Hplan Hcheck Hsafe Hexec
                  | t c plan v content E Hplan Hcheck Hsafe Hexec];
    pose proof (retrieve_events _ _ _ _ _ E) as [_ Hstore].
  - exfalso. exact (in_store_query_events _ _ _ _ Hstore Hin).
  - apply in_app_or in Hin. destruct Hin as [Hin | [Hin | []]].
    + exfalso. exact (in_store_query_events _ _ _ _ Hstore Hin).
    + injection Hin as <- <- <-. split; [reflexivity | exists t; reflexivity].
  - apply in_app_or in Hin. destruct Hin as [Hin | [Hin | Hin]].
    + exfalso. exact (in_store_query_events _ _ _ _ Hstore Hin).
    + discriminate Hin.
    + destruct (check_raises _ _ _ _ _ _ _ Hin) as [Ht Hr].
      rewrite Hr in Hcheck. injection Hcheck as <-. rewrite Ht.
      split; [reflexivity|].
      exists (t ++ [AgentRun PlannerLLM (planner_prompt rt problem_text) (Ok plan)])%list.
      rewrite <- app_assoc. reflexivity.
  - exfalso. apply in_app_or in Hin. destruct Hin as [Hin | [Hin | Hin]].
    + exact (in_store_query_events _ _ _ _ Hstore Hin).
    + discriminate Hin.
    + destruct (check_raises _ _ _ _ _ _ _ Hin) as [_ Hr].
      rewrite Hr in Hcheck. discriminate Hcheck.
  - exfalso. apply in_app_or in Hin. destruct Hin as [Hin | [Hin | Hin]].
    + exact (in_store_query_events _ _ _ _ Hstore Hin).
    + discriminate Hin.
    + destruct (check_raises _ _ _ _ _ _ _ Hin) as [_ Hr].
      rewrite Hr in Hcheck. discriminate Hcheck.
  - apply in_app_or in Hin. destruct Hin as [Hin | [Hin | Hin]].
    + exfalso. exact (in_store_query_events _ _ _ _ Hstore Hin).
    + discriminate Hin.
    + apply in_app_or in Hin. destruct Hin as [Hin | [Hin | []]].
      * exfalso. destruct (check_raises _ _ _ _ _ _ _ Hin) as [_ Hr].
        rewrite Hr in Hcheck. discriminate Hcheck.
      * injection Hin as <- <- <-. split; [reflexivity|].
        exists (t ++ AgentRun PlannerLLM (planner_prompt rt problem_text) (Ok plan)
                  :: trace (GuardrailAgent.check rt sv problem_text plan))%list.
        rewrite <- app_assoc. reflexivity.
  - exfalso. apply in_app_or in Hin. destruct Hin as [Hin | [Hin | Hin]].
    + exact (in_store_query_events _ _ _ _ Hstore Hin).
    + discriminate Hin.
    + apply in_app_or in Hin. destruct Hin as [Hin | [Hin | []]].
      * destruct (check_raises _ _ _ _ _ _ _ Hin) as [_ Hr].
        rewrite Hr in Hcheck. discriminate Hcheck.
      * discriminate Hin.
Qed.

(** X2. For a problem that is not arithmetic, the agents solve calls are a
    prefix of planner, guardrail, executor: each is called at most once, in
    this order, and none after one that was skipped. None is called after
    one that raised either: a call of an agent that raises is the last event
    of the run, and solve raises that exception. *)
Theorem solve_calls_in_order (rt : Runtime) (sv : Services)
    (problem_text : pyval) (problem_type : option string) (context_str : pyval) :
  SolverAgent.is_arithmetic problem_type = false ->
  (exists n,
      agents_of (trace (SolverAgent.solve rt sv problem_text problem_type context_str))
      = firstn n [PlannerLLM; GuardrailLLM; ExecutorLLM])
  /\ (forall a prompt e,
         In (AgentRun a prompt (Raise e))
            (trace (SolverAgent.solve rt sv problem_text problem_type context_str)) ->
         result (SolverAgent.solve rt sv problem_text problem_type context_str) = Raise e
         /\ exists t,
              trace (SolverAgent.solve rt sv problem_text problem_type context_str)
              = (t ++ [AgentRun a prompt (Raise e)])%list).
Proof.
  intros Ha.
  pose proof (solve_paths rt sv problem_text problem_type context_str Ha) as Hp.
  split.
  - destruct (solve_path_agents _ _ _ _ _ _ Hp) as [[Hag _] | [_ [n Hn]]].
    + exists 3%nat. exact Hag.
    + destruct n as [| [| [| n]]];
        [exists 0%nat | exists 1%nat | exists 2%nat | exists 2%nat]; exact Hn.
  - intros a prompt e Hin. exact (solve_path_raise _ _ _ _ _ _ _ _ _ Hp Hin).
Qed.

(** An instance: the executor cannot be reached; its call is the third and
    the last, and solve raises what it raised. *)
Lemma solve_calls_in_order_witness :
  let m := SolverAgent.solve CPython.runtime RaiseExamples.services
             (PStr "Solve 2x = 8") (Some "ALGEBRA") (PStr "Divide by the coefficient.") in
  (exists n, agents_of (trace m) = firstn n [PlannerLLM; GuardrailLLM; ExecutorLLM])
  /\ result m = Raise (mk_exn ExternalError "service unavailable")
  /\ exists t prompt,
       trace m = (t ++ [AgentRun ExecutorLLM prompt
                          (Raise (mk_exn ExternalError "service unavailable"))])%list.
Proof.
  intros m.
  destruct (solve_calls_in_order CPython.runtime RaiseExamples.services
              (PStr "Solve 2x = 8") (Some "ALGEBRA") (PStr "Divide by the coefficient.")
              eq_refl) as [Hn Hraise].
  split; [exact Hn|].
  destruct (Hraise ExecutorLLM
              (executor_prompt CPython.runtime (PStr "Solve 2x = 8")
                 (PStr "Divide by the coefficient.")
                 "Isolate the unknown by the inverse operation.")
              (mk_exn ExternalError "service unavailable")) as [Hres [t Ht]].
  - vm_compute. right. right. left. reflexivity.
  - split; [exact Hres|]. exists t. eexists. exact Ht.
Defined.

(** Brings the facts of a path and the facts given about the run together. *)
Ltac path_facts :=
  repeat match goal with
         | E : SolverAgent.retrieve ?sv ?p ?c = (_, _),
           H : result (SolverAgent.retrieve ?sv ?p ?c) = _ |- _ =>
             rewrite E in H; cbn [result snd] in H
         | E : agent_run ?sv PlannerLLM ?p = Ok ?plan0,
           H : agent_run ?sv PlannerLLM ?p = Ok ?plan |- _ =>
             assert (plan0 = plan) by congruence; subst plan0; clear E
         | E : result (GuardrailAgent.check ?rt ?sv ?p ?plan) = Ok ?v0,
           H : result (GuardrailAgent.check ?rt ?sv ?p ?plan) = Ok ?v |- _ =>
             assert (v0 = v) by congruence; subst v0; clear E
         | E : result (GuardrailAgent.check ?rt ?sv ?p ?plan) = Ok (PDict ?v0),
           H : result (GuardrailAgent.check ?rt ?sv ?p ?plan) = Ok (PDict ?v) |- _ =>
             assert (v0 = v) by congruence; subst v0; clear E
         end.

Lemma solve_blocked (rt : Runtime) (sv : Services)
    (problem_text : pyval) (problem_type : option string) (context_str : pyval)
    (context : pyval) (plan : string) (verdict : pydict) :
  SolverAgent.is_arithmetic problem_type = false ->
  result (SolverAgent.retrieve sv problem_text context_str) = Ok context ->
  agent_run sv PlannerLLM (planner_prompt rt problem_text) = Ok plan ->
  result (GuardrailAgent.check rt sv problem_text plan) = Ok (PDict verdict) ->
  truthy (dict_get_or verdict "is_safe" (PBool false)) = false ->
  result (SolverAgent.solve rt sv problem_text problem_type context_str)
  = Ok (intercepted rt plan context verdict)
  /\ not_called (SolverAgent.solve rt sv problem_text problem_type context_str)
       ExecutorLLM.
Proof.
  intros Ha Hret Hplan Hcheck Hsafe.
  pose proof (solve_paths rt sv problem_text problem_type context_str Ha) as Hp.
  split.
  - inversion Hp; path_facts; try congruence;
      try (cbn [py_get] in *; discriminate).
  - apply not_called_of_agents. intros Hin.
    destruct (executor_gate _ _ _ _ _ _ Hp Hin) as [plan' [verdict' [H1 [H2 H3]]]].
    path_facts. congruence.
Qed.

(** X3. For a problem that is not arithmetic: when the guardrail returns a
    dict whose is_safe is missing or falsy, solve returns the intercepted
    attempt (answer Guardrail Intercepted, confidence 0.0, no step, the
    violation in the error field, the context kept) and the executor is not
    called. *)
Theorem blocked_plan_is_intercepted (rt : Runtime) (sv : Services)
    (problem_text : pyval) (problem_type : option string) (context_str : pyval)
    (context : pyval) (plan : string) (verdict : pydict) :
  SolverAgent.is_arithmetic problem_type = false ->
  result (SolverAgent.retrieve sv problem_text context_str) = Ok context ->
  agent_run sv PlannerLLM (planner_prompt rt problem_text) = Ok plan ->
  result (GuardrailAgent.check rt sv problem_text plan) = Ok (PDict verdict) ->
  truthy (dict_get_or verdict "is_safe" (PBool false)) = false ->
  result (SolverAgent.solve rt sv problem_text problem_type context_str)
  = Ok {| sol_plan := plan;
          sol_steps := [];
          sol_final_answer := "Guardrail Intercepted";
          sol_confidence := 0.0;
          sol_error :=
            Some ("Guardrail Violation: " ++ py_str rt (dict_get_none verdict "violation_type")
                  ++ " - " ++ py_str rt (dict_get_none verdict "reason")
                  ++ ". Rec: " ++ py_str rt (dict_get_none verdict "recommended_action"));
          sol_context := Some context;
          sol_tool_used := None |}
  /\ not_called (SolverAgent.solve rt sv problem_text problem_type context_str)
       ExecutorLLM.
Proof.
  intros Ha Hret Hplan Hcheck Hsafe.
  exact (solve_blocked rt sv problem_text problem_type context_str context plan verdict
           Ha Hret Hplan Hcheck Hsafe).
Qed.

(** An instance: the guardrail answers is_safe false for the plan. *)
Lemma blocked_plan_is_intercepted_witness :
  result (SolverAgent.solve CPython.runtime GuardExamples.blocking
            (PStr "Solve 2x = 8") (Some "ALGEBRA") (PStr ""))
  = Ok {| sol_plan := "Isolate the unknown by the inverse operation.";
          sol_steps := [];
          sol_final_answer := "Guardrail Intercepted";
          sol_confidence := 0.0;
          sol_error :=
            Some "Guardrail Violation: Rule 2 - wrong domain. Rec: TRIGGER_HITL";
          sol_context := Some (PStr "Worked example: 3x = 9 gives x = 3.");
          sol_tool_used := None |}
  /\ not_called (SolverAgent.solve CPython.runtime GuardExamples.blocking
                   (PStr "Solve 2x = 8") (Some "ALGEBRA") (PStr ""))
       ExecutorLLM.
Proof.
  apply (blocked_plan_is_intercepted CPython.runtime GuardExamples.blocking
           (PStr "Solve 2x = 8") (Some "ALGEBRA") (PStr "")
           (PStr "Worked example: 3x = 9 gives x = 3.")
           "Isolate the unknown by the inverse operation."
           [("is_safe", PBool false); ("violation_type", PStr "Rule 2");
            ("reason", PStr "wrong domain"); ("recommended_action", PStr "TRIGGER_HITL")]).
  - reflexivity.
  - vm_compute. reflexivity.
  - reflexivity.
  - vm_compute. reflexivity.
  - reflexivity.
Defined.

(** X4. The fail-closed verdict of the guardrail stops the solve stage: for
    a problem that is not arithmetic, when the guardrail's evaluator answers
    a text that json.loads rejects, solve returns, without raising, the
    intercepted attempt whose error field names Guardrail_Error and
    TRIGGER_HITL, and the executor is not called. *)
Theorem undecodable_guardrail_answer_blocks (rt : Runtime) (sv : Services)
    (problem_text : pyval) (problem_type : option string) (context_str : pyval)
    (context : pyval) (plan content : string) (e : exn) :
  SolverAgent.is_arithmetic problem_type = false ->
  result (SolverAgent.retrieve sv problem_text context_str) = Ok context ->
  agent_run sv PlannerLLM (planner_prompt rt problem_text) = Ok plan ->
  agent_run sv GuardrailLLM (guardrail_prompt rt problem_text plan) = Ok content ->
  json_loads rt (extract_json content) = Raise e ->
  result (SolverAgent.solve rt sv problem_text problem_type context_str)
  = Ok {| sol_plan := plan;
          sol_steps := [];
          sol_final_answer := "Guardrail Intercepted";
          sol_confidence := 0.0;
          sol_error :=
            Some ("Guardrail Violation: " ++ py_str rt (PStr "Guardrail_Error")
                  ++ " - "
                  ++ py_str rt (PStr ("Guardrail failed to parse confirmation: "
                                      ++ exn_str e))
                  ++ ". Rec: " ++ py_str rt (PStr "TRIGGER_HITL"));
          sol_context := Some context;
          sol_tool_used := None |}
  /\ not_called (SolverAgent.solve rt sv problem_text problem_type context_str)
       ExecutorLLM.
Proof.
  intros Ha Hret Hplan Hguard Hjson.
  destruct (check_prompt rt sv problem_text plan) as [_ Hcheck].
  rewrite Hguard, Hjson in Hcheck.
  exact (solve_blocked rt sv problem_text problem_type context_str context plan _
           Ha Hret Hplan Hcheck eq_refl).
Qed.

(** An instance: the guardrail answers in prose. *)
Lemma undecodable_guardrail_answer_blocks_witness :
  result (SolverAgent.solve CPython.runtime GuardExamples.garbled
            (PStr "Solve 2x = 8") (Some "ALGEBRA") (PStr "no context"))
  = Ok {| sol_plan := "Isolate the unknown by the inverse operation.";
          sol_steps := [];
          sol_final_answer := "Guardrail Intercepted";
          sol_confidence := 0.0;
          sol_error :=
            Some ("Guardrail Violation: Guardrail_Error - "
                  ++ "Guardrail failed to parse confirmation: "
                  ++ "Expecting value: line 1 column 1 (char 0)"
                  ++ ". Rec: TRIGGER_HITL");
          sol_context := Some (PStr "no context");
          sol_tool_used := None |}
  /\ not_called (SolverAgent.solve CPython.runtime GuardExamples.garbled
                   (PStr "Solve 2x = 8") (Some "ALGEBRA") (PStr "no context"))
       ExecutorLLM.
Proof.
  apply (undecodable_guardrail_answer_blocks CPython.runtime GuardExamples.garbled
           (PStr "Solve 2x = 8") (Some "ALGEBRA") (PStr "no context")
           (PStr "no context") "Isolate the unknown by the inverse operation."
           "The plan looks fine to me."
           (mk_exn JSONDecodeError "Expecting value: line 1 column 1 (char 0)")).
  - reflexivity.
  - reflexivity.
  - reflexivity.
  - reflexivity.
  - vm_compute. reflexivity.
Defined.

(** X5. A verdict that is valid JSON but not an object is not handled: for
    a problem that is not arithmetic, when the guardrail returns a value that
    is not a dict, solve raises AttributeError (the value has no get) and the
    executor is not called. *)
Theorem non_object_verdict_raises (rt : Runtime) (sv : Services)
    (problem_text : pyval) (problem_type : option string) (context_str : pyval)
    (context : pyval) (plan : string) (verdict : pyval) :
  SolverAgent.is_arithmetic problem_type = false ->
  result (SolverAgent.retrieve sv problem_text context_str) = Ok context ->
  agent_run sv PlannerLLM (planner_prompt rt problem_text) = Ok plan ->
  result (GuardrailAgent.check rt sv problem_text plan) = Ok verdict ->
  (forall d, verdict <> PDict d) ->
  result (SolverAgent.solve rt sv problem_text problem_type context_str)
  = Raise (mk_exn AttributeError
             ("'" ++ type_name verdict ++ "' object has no attribute 'get'"))
  /\ not_called (SolverAgent.solve rt sv problem_text problem_type context_str)
       ExecutorLLM.
Proof.
  intros Ha Hret Hplan Hcheck Hshape.
  pose proof (solve_paths rt sv problem_text problem_type context_str Ha) as Hp.
  split.
  - inversion Hp; path_facts; try congruence;
      try (exfalso; eapply Hshape; reflexivity).
    match goal with
    | H : py_get ?v _ _ = Raise _ |- _ =>
        destruct v; cbn [py_get type_name] in *; congruence
    end.
  - apply not_called_of_agents. intros Hin.
    destruct (executor_gate _ _ _ _ _ _ Hp Hin) as [plan' [verdict' [H1 [H2 H3]]]].
    path_facts. eapply Hshape. reflexivity.
Qed.

(** An instance: the guardrail answers with a JSON list. *)
Lemma non_object_verdict_raises_witness :
  result (SolverAgent.solve CPython.runtime GuardExamples.listing
            (PStr "Solve 2x = 8") (Some "ALGEBRA") (PStr ""))
  = Raise (mk_exn AttributeError "'list' object has no attribute 'get'")
  /\ not_called (SolverAgent.solve CPython.runtime GuardExamples.listing
                   (PStr "Solve 2x = 8") (Some "ALGEBRA") (PStr ""))
       ExecutorLLM.
Proof.
  apply (non_object_verdict_raises CPython.runtime GuardExamples.listing
           (PStr "Solve 2x = 8") (Some "ALGEBRA") (PStr "")
           (PStr "Worked example: 3x = 9 gives x = 3.")
           "Isolate the unknown by the inverse operation."
           (PList [PStr "is_safe"; PBool true])).
  - reflexivity.
  - vm_compute. reflexivity.
  - reflexivity.
  - vm_compute. reflexivity.
  - intros d H. discriminate H.
Defined.

(** ** The solve stage: retrieval *)

Lemma substring_length_le (n : nat) (s : string) :
  (String.length (String.substring 0 n s) <= n)%nat.
Proof.
  revert s. induction n as [| n IH]; intros [| c s]; simpl; try lia.
  specialize (IH s). lia.
Qed.

Lemma py_prefix_bounded (v : pyval) (n : nat) (c : pyval) :
  py_prefix v n = Ok c ->
  match c with
  | PStr s => (String.length s <= n)%nat
  | PList l => (List.length l <= n)%nat
  | _ => False
  end.
Proof.
  destruct v; cbn [py_prefix]; intros H; try discriminate H; injection H as <-.
  - apply substring_length_le.
  - apply firstn_le_length.
Qed.

Lemma in_check_trace (rt : Runtime) (sv : Services) (problem_text : pyval)
    (plan : string) (ev : event) :
  In ev (trace (GuardrailAgent.check rt sv problem_text plan)) ->
  exists p r, ev = AgentRun GuardrailLLM p r.
Proof.
  destruct (check_prompt rt sv problem_text plan) as [-> _].
  intros [<- | []]. eauto.
Qed.

Lemma solve_path_executor_prompt (rt : Runtime) (sv : Services)
    (problem_text context_str : pyval) (t : list event) (r : Res Solution)
    (p : string) (x : Res string) :
  solve_path rt sv problem_text context_str t r ->
  In (AgentRun ExecutorLLM p x) t ->
  exists context plan,
    result (SolverAgent.retrieve sv problem_text context_str) = Ok context
    /\ p = executor_prompt rt problem_text context plan.
Proof.
  intros Hp Hin.
  destruct Hp as [t e E | t c e E | t c plan e E | t c plan v e E | t c plan v E
                  | t c plan v e E | t c plan v content E];
    pose proof (retrieve_events _ _ _ _ _ E) as [_ Hstore];
    repeat (apply in_app_or in Hin; destruct Hin as [Hin | Hin]);
    try (exfalso; exact (in_store_query_events _ _ _ _ Hstore Hin));
    repeat match type of Hin with
           | In _ (_ :: _) => destruct Hin as [Hin | Hin]; [try discriminate Hin|]
           | In _ (_ ++ _) => apply in_app_or in Hin; destruct Hin as [Hin | Hin]
           | In _ [] => destruct Hin
           | In _ (trace (GuardrailAgent.check _ _ _ _)) =>
               apply in_check_trace in Hin; destruct Hin as [? [? Hin]]; discriminate Hin
           end;
    injection Hin as <- _; exists c, plan; rewrite E; split; reflexivity.
Qed.

Lemma solve_path_store_queries (rt : Runtime) (sv : Services)
    (problem_text context_str : pyval) (t : list event) (r : Res Solution)
    (q : pyval) (n : Z) (x : Res pyval) :
  solve_path rt sv problem_text context_str t r ->
  In (StoreQuery q n x) t ->
  In (StoreQuery q n x) (trace (SolverAgent.retrieve sv problem_text context_str)).
Proof.
  intros Hp Hin.
  destruct Hp as [t e E | t c e E | t c plan e E | t c plan v e E | t c plan v E
                  | t c plan v e E | t c plan v content E];
    rewrite E; cbn [trace fst]; try exact Hin;
    apply in_app_or in Hin; destruct Hin as [Hin | Hin]; try exact Hin;
    repeat match type of Hin with
           | In _ (_ :: _) => destruct Hin as [Hin | Hin]; [try discriminate Hin|]
           | In _ (_ ++ _) => apply in_app_or in Hin; destruct Hin as [Hin | Hin]
           | In _ [] => destruct Hin
           | In _ (trace (GuardrailAgent.check _ _ _ _)) =>
               apply in_check_trace in Hin; destruct Hin as [? [? Hin]]; discriminate Hin
           end.
Qed.

(** X6. When no context is supplied (None or the empty string), the
    retrieval step asks the store once, for the single nearest document of
    the problem text, and the context it returns is cut to at most 1500
    characters (or items). *)
Theorem retrieved_context_is_bounded (sv : Services)
    (problem_text context_str context : pyval) :
  truthy context_str = false ->
  result (SolverAgent.retrieve sv problem_text context_str) = Ok context ->
  trace (SolverAgent.retrieve sv problem_text context_str)
  = [StoreQuery problem_text 1 (collection_query sv problem_text 1)]
  /\ match context with
     | PStr s => (String.length s <= 1500)%nat
     | PList l => (List.length l <= 1500)%nat
     | _ => False
     end.
Proof.
  intros Hempty. unfold SolverAgent.retrieve. rewrite Hempty. cbn [negb].
  unfold store_query.
  rewrite trace_bind, result_bind. cbn [trace result fst snd].
  destruct (collection_query sv problem_text 1) as [results | e]; [|discriminate].
  rewrite trace_bind, result_bind, trace_lift, result_lift.
  destruct (py_get results "documents" (PList [PList []])) as [documents | e];
    [|discriminate].
  rewrite trace_bind, result_bind, trace_lift, result_lift.
  destruct (py_first documents) as [docs | e]; [|discriminate].
  destruct (truthy docs).
  - rewrite trace_bind, result_bind, trace_lift, result_lift.
    destruct (py_first docs) as [doc | e]; [|discriminate].
    rewrite trace_lift, result_lift. cbn [app].
    intros H. split; [reflexivity|].
    exact (py_prefix_bounded _ _ _ H).
  - cbn [trace result ret fst snd app]. intros H. injection H as <-.
    split; [reflexivity | simpl; lia].
Qed.

Lemma retrieved_context_is_bounded_witness :
  trace (SolverAgent.retrieve GuardExamples.approving (PStr "Solve 2x = 8") PNone)
  = [StoreQuery (PStr "Solve 2x = 8") 1
       (collection_query GuardExamples.approving (PStr "Solve 2x = 8") 1)]
  /\ (String.length "Worked example: 3x = 9 gives x = 3." <= 1500)%nat.
Proof.
  apply (retrieved_context_is_bounded GuardExamples.approving
           (PStr "Solve 2x = 8") PNone (PStr "Worked example: 3x = 9 gives x = 3.")).
  - reflexivity.
  - reflexivity.
Defined.

(** X7. A supplied context (any truthy value) suppresses retrieval: solve
    never queries the store, whatever the category, and when the executor is
    called its prompt carries the supplied context as it is, uncut. *)
Theorem supplied_context_is_used_as_is (rt : Runtime) (sv : Services)
    (problem_text : pyval) (problem_type : option string) (context_str : pyval) :
  truthy context_str = true ->
  (forall q n x,
      ~ In (StoreQuery q n x)
          (trace (SolverAgent.solve rt sv problem_text problem_type context_str)))
  /\ (forall p x,
         In (AgentRun ExecutorLLM p x)
           (trace (SolverAgent.solve rt sv problem_text problem_type context_str)) ->
         exists plan, p = executor_prompt rt problem_text context_str plan).
Proof.
  intros Hgiven.
  assert (Hret : SolverAgent.retrieve sv problem_text context_str = ([], Ok context_str)).
  { unfold SolverAgent.retrieve. rewrite Hgiven. reflexivity. }
  destruct (SolverAgent.is_arithmetic problem_type) eqn:Ha.
  - unfold SolverAgent.solve. rewrite Ha.
    pose proof (solve_with_tool_trace rt sv problem_text) as Ht.
    rewrite Forall_forall in Ht.
    split; [intros q n x Hin | intros p x Hin]; destruct (Ht _ Hin).
  - pose proof (solve_paths rt sv problem_text problem_type context_str Ha) as Hp.
    split.
    + intros q n x Hin.
      apply (solve_path_store_queries _ _ _ _ _ _ _ _ _ Hp) in Hin.
      rewrite Hret in Hin. exact Hin.
    + intros p x Hin.
      destruct (solve_path_executor_prompt _ _ _ _ _ _ _ _ Hp Hin)
        as [context [plan [Hc ->]]].
      rewrite Hret in Hc. injection Hc as <-. exists plan. reflexivity.
Qed.

Lemma supplied_context_is_used_as_is_witness :
  (forall q n x,
      ~ In (StoreQuery q n x)
          (trace (SolverAgent.solve CPython.runtime GuardExamples.approving
                    (PStr "Solve 2x = 8") (Some "ALGEBRA") (PStr "Divide by the coefficient."))))
  /\ (forall p x,
         In (AgentRun ExecutorLLM p x)
           (trace (SolverAgent.solve CPython.runtime GuardExamples.approving
                     (PStr "Solve 2x = 8") (Some "ALGEBRA")
                     (PStr "Divide by the coefficient."))) ->
         exists plan,
           p = executor_prompt CPython.runtime (PStr "Solve 2x = 8")
                 (PStr "Divide by the coefficient.") plan).
Proof.
  apply (supplied_context_is_used_as_is CPython.runtime GuardExamples.approving
           (PStr "Solve 2x = 8") (Some "ALGEBRA") (PStr "Divide by the coefficient.")).
  reflexivity.
Defined.

(** ** The verifier *)

Lemma verify_unfold (rt : Runtime) (sv : Services) (problem_text : pyval)
    (solution_data : SolutionData) (strict : bool) :
  VerifierAgent.verify rt sv problem_text solution_data strict
  = if is_calculator (sd_tool_used solution_data)
       && VerifierAgent._sanity_check_calculator rt solution_data
    then ([], Ok VerifierAgent.tool_verdict)
    else
      let prompt := verifier_prompt rt problem_text solution_data strict in
      ([AgentRun VerifierLLM prompt (agent_run sv VerifierLLM prompt)],
       match agent_run sv VerifierLLM prompt with
       | Ok content =>
           match json_loads rt (extract_json content) with
           | Ok v => Ok v
           | Raise e => Ok (VerifierAgent.parse_failure e content)
           end
       | Raise e => Raise e
       end).
Proof.
  unfold VerifierAgent.verify.
  destruct (is_calculator (sd_tool_used solution_data)
            && VerifierAgent._sanity_check_calculator rt solution_data); [reflexivity|].
  fold (verifier_prompt rt problem_text solution_data strict).
  cbv zeta. generalize (verifier_prompt rt problem_text solution_data strict).
  intro prompt. unfold run_agent, try_except, lift, bind, ret.
  destruct (agent_run sv VerifierLLM prompt) as [content | e]; simpl; [|reflexivity].
  destruct (json_loads rt (extract_json content)); reflexivity.
Qed.

Lemma sanity_check_passes (rt : Runtime) (solution_data : SolutionData) (s : string) :
  sd_final_answer solution_data = PStr s ->
  s <> "" ->
  (forall x, py_float rt (PStr s) = Some x -> VerifierAgent.in_range x = true) ->
  sd_steps solution_data <> [] ->
  VerifierAgent._sanity_check_calculator rt solution_data = true.
Proof.
  intros Hfa Hs Hnum Hsteps. unfold VerifierAgent._sanity_check_calculator.
  rewrite Hfa. destruct s as [| c s]; [contradiction|].
  destruct (py_float rt (PStr (String c s))) as [x |] eqn:Ex.
  - rewrite (Hnum x eq_refl). cbn [negb].
    destruct (sd_steps solution_data); [contradiction | reflexivity].
  - destruct (sd_steps solution_data); [contradiction | reflexivity].
Qed.

(** X8. A calculator attempt that passes the sanity check (a non-empty
    answer that is not a number, or a number strictly between -1e100 and
    1e100, and at least one step) is declared correct with adjusted
    confidence 1.0 without any call of the evaluator, in strict mode as
    well. *)
Theorem sane_calculator_attempt_is_auto_verified (rt : Runtime) (sv : Services)
    (problem_text : pyval) (solution_data : SolutionData) (strict : bool) (s : string) :
  sd_tool_used solution_data = Some "calculator" ->
  sd_final_answer solution_data = PStr s ->
  s <> "" ->
  (forall x, py_float rt (PStr s) = Some x -> VerifierAgent.in_range x = true) ->
  sd_steps solution_data <> [] ->
  VerifierAgent.verify rt sv problem_text solution_data strict
  = ([], Ok (PDict [("is_correct", PBool true);
                    ("critique", PStr "Correct (verified by SymPy calculator)");
                    ("adjusted_confidence", PFloat 1.0);
                    ("verification_method", PStr "symbolic")])).
Proof.
  intros Htool Hfa Hs Hnum Hsteps.
  rewrite verify_unfold, Htool, (sanity_check_passes rt solution_data s Hfa Hs Hnum Hsteps).
  reflexivity.
Qed.

(** An instance: a symbolic answer, in strict mode. *)
Lemma sane_calculator_attempt_is_auto_verified_witness :
  VerifierAgent.verify CPython.runtime VerifyExamples.lenient_evaluator
    (PStr "square root of 45") (solution_data_of_state AuditExamples.completed) true
  = ([], Ok (PDict [("is_correct", PBool true);
                    ("critique", PStr "Correct (verified by SymPy calculator)");
                    ("adjusted_confidence", PFloat 1.0);
                    ("verification_method", PStr "symbolic")])).
Proof.
  apply (sane_calculator_attempt_is_auto_verified CPython.runtime
           VerifyExamples.lenient_evaluator (PStr "square root of 45")
           (solution_data_of_state AuditExamples.completed) true "3*sqrt(5)").
  - reflexivity.
  - reflexivity.
  - discriminate.
  - intros x H. vm_compute in H. discriminate H.
  - discriminate.
Defined.

Lemma verify_answered (rt : Runtime) (sv : Services) (problem_text : pyval)
    (solution_data : SolutionData) (strict : bool) (content : string) :
  answered (VerifierAgent.verify rt sv problem_text solution_data strict)
    VerifierLLM content ->
  VerifierAgent.verify rt sv problem_text solution_data strict
  = ([AgentRun VerifierLLM (verifier_prompt rt problem_text solution_data strict)
        (Ok content)],
     match json_loads rt (extract_json content) with
     | Ok v => Ok v
     | Raise e => Ok (VerifierAgent.parse_failure e content)
     end).
Proof.
  intros [p Hin]. rewrite verify_unfold in *.
  destruct (is_calculator (sd_tool_used solution_data)
            && VerifierAgent._sanity_check_calculator rt solution_data); [destruct Hin|].
  cbv zeta in *. cbn [trace fst] in Hin. destruct Hin as [Hin | []].
  injection Hin as _ Hr. rewrite Hr. reflexivity.
Qed.

(** X9. The verifier fails closed: when its evaluator answers a text that
    json.loads rejects, verify returns, without raising, a verdict with
    is_correct False and adjusted confidence 0.0, whose critique holds the
    decoder's message and the raw answer. *)
Theorem verifier_fails_closed (rt : Runtime) (sv : Services) (problem_text : pyval)
    (solution_data : SolutionData) (strict : bool) (content : string) (e : exn) :
  answered (VerifierAgent.verify rt sv problem_text solution_data strict)
    VerifierLLM content ->
  json_loads rt (extract_json content) = Raise e ->
  result (VerifierAgent.verify rt sv problem_text solution_data strict)
  = Ok (PDict [("is_correct", PBool false);
               ("critique", PStr ("JSON parsing failed. Error: " ++ exn_str e
                                  ++ ". Raw response: " ++ content));
               ("adjusted_confidence", PFloat 0.0)]).
Proof.
  intros Hans Hjson. rewrite (verify_answered _ _ _ _ _ _ Hans).
  cbn [result snd]. rewrite Hjson. reflexivity.
Qed.

Lemma verifier_fails_closed_witness :
  result (VerifierAgent.verify CPython.runtime AuditExamples.prose_verifier
            (PStr "Solve 2x = 8") (solution_data_of_state AuditExamples.completed_model)
            false)
  = Ok (PDict [("is_correct", PBool false);
               ("critique", PStr ("JSON parsing failed. Error: "
                                  ++ "Expecting value: line 1 column 1 (char 0)"
                                  ++ ". Raw response: " ++ "Looks right to me."));
               ("adjusted_confidence", PFloat 0.0)]).
Proof.
  apply (verifier_fails_closed CPython.runtime AuditExamples.prose_verifier
           (PStr "Solve 2x = 8") (solution_data_of_state AuditExamples.completed_model)
           false "Looks right to me."
           (mk_exn JSONDecodeError "Expecting value: line 1 column 1 (char 0)")).
  - apply answered_intro. vm_compute. left. reflexivity.
  - vm_compute. reflexivity.
Defined.

(** ** The orchestrator: a user's report of a wrong answer *)

Lemma verify_events (rt : Runtime) (sv : Services) (problem_text : pyval)
    (solution_data : SolutionData) (strict : bool) :
  roles_of (trace (VerifierAgent.verify rt sv problem_text solution_data strict)) = []
  /\ (agents_of (trace (VerifierAgent.verify rt sv problem_text solution_data strict)) = []
      \/ agents_of (trace (VerifierAgent.verify rt sv problem_text solution_data strict))
         = [VerifierLLM]).
Proof.
  rewrite verify_unfold.
  destruct (is_calculator (sd_tool_used solution_data)
            && VerifierAgent._sanity_check_calculator rt solution_data);
    cbv zeta; cbn [trace fst roles_of agents_of]; auto.
Qed.

Lemma handle_failure_feedback_unfold (rt : Runtime) (sv : Services) (state : PipelineState) :
  trace (Orchestrator.handle_failure_feedback rt sv state)
  = trace (VerifierAgent.verify rt sv (Orchestrator.problem_text_of state)
             (solution_data_of_state state) true)
  /\ result (Orchestrator.handle_failure_feedback rt sv state)
     = match result (VerifierAgent.verify rt sv (Orchestrator.problem_text_of state)
                       (solution_data_of_state state) true) with
       | Raise e => Raise e
       | Ok strict_result =>
           match py_get strict_result "critique" (PStr "No issues found"),
                 py_get strict_result "is_correct" (PBool false) with
           | Ok critique, Ok is_correct =>
               let reviewed :=
                 set_verification_passed is_correct
                   (set_critique (PStr ("Strict Review: " ++ py_str rt critique)) state) in
               Ok (if truthy is_correct then reviewed
                   else set_hitl_reason (Some "User Rejected + Strict Verify Failed")
                          reviewed)
           | Raise e, _ => Raise e
           | _, Raise e => Raise e
           end
       end.
Proof.
  unfold Orchestrator.handle_failure_feedback.
  fold (solution_data_of_state state).
  rewrite trace_bind, result_bind.
  destruct (result (VerifierAgent.verify rt sv (Orchestrator.problem_text_of state)
                      (solution_data_of_state state) true)) as [strict_result | e];
    [|split; [apply app_nil_r | reflexivity]].
  rewrite trace_bind, result_bind, trace_lift, result_lift.
  destruct strict_result as [| | | | | | d]; cbn [py_get];
    try (split; [apply app_nil_r | reflexivity]).
  rewrite trace_bind, result_bind, trace_lift, result_lift.
  cbn [verification_passed set_verification_passed].
  destruct (truthy (dict_get_or d "is_correct" (PBool false)));
    cbn [negb trace result ret fst snd app]; (split; [apply app_nil_r | reflexivity]).
Qed.

(** X10. A report that a calculator answer is wrong triggers no re-check:
    for a state whose attempt comes from the calculator and passes the
    sanity check, handle_failure_feedback calls nothing, sets
    verification_passed to True, writes the critique of the automatic
    verdict behind Strict Review, and leaves the reason (and every other
    field) as it was. *)
Theorem failure_report_on_calculator_answer (rt : Runtime) (sv : Services)
    (state : PipelineState) (s : string) :
  tool_used state = Some "calculator" ->
  final_answer state = PStr s ->
  s <> "" ->
  (forall x, py_float rt (PStr s) = Some x -> VerifierAgent.in_range x = true) ->
  solution_steps state <> [] ->
  Orchestrator.handle_failure_feedback rt sv state
  = ([], Ok (set_verification_passed (PBool true)
               (set_critique
                  (PStr ("Strict Review: "
                         ++ py_str rt (PStr "Correct (verified by SymPy calculator)")))
                  state))).
Proof.
  intros Htool Hfa Hs Hnum Hsteps.
  destruct (handle_failure_feedback_unfold rt sv state) as [Ht Hr].
  pose proof (sanity_check_passes rt (solution_data_of_state state) s Hfa Hs Hnum Hsteps)
    as Hsane.
  rewrite verify_unfold in Ht, Hr.
  change (sd_tool_used (solution_data_of_state state)) with (tool_used state) in Ht, Hr.
  rewrite Htool, Hsane in Ht, Hr.
  destruct (Orchestrator.handle_failure_feedback rt sv state) as [t r].
  cbn in Ht, Hr. rewrite Ht, Hr. reflexivity.
Qed.

Lemma failure_report_on_calculator_answer_witness :
  Orchestrator.handle_failure_feedback CPython.runtime VerifyExamples.lenient_evaluator
    AuditExamples.completed
  = ([], Ok (set_verification_passed (PBool true)
               (set_critique
                  (PStr ("Strict Review: "
                         ++ py_str CPython.runtime
                              (PStr "Correct (verified by SymPy calculator)")))
                  AuditExamples.completed))).
Proof.
  apply (failure_report_on_calculator_answer CPython.runtime
           VerifyExamples.lenient_evaluator AuditExamples.completed "3*sqrt(5)").
  - reflexivity.
  - reflexivity.
  - discriminate.
  - intros x H. vm_compute in H. discriminate H.
  - discriminate.
Defined.

(** X11. What handle_failure_feedback touches: it writes no log entry and
    calls no agent but the verifier's (at most once); when it returns, the
    strict verification has returned a dict, and the state keeps its answer,
    steps, confidence, step and needs_hitl, so a strict review that fails
    does not reopen the session. Its verification_passed is the is_correct
    of the strict verdict (False when the key is missing), its critique is
    the verdict's critique (No issues found when missing) behind Strict
    Review, and its reason is User Rejected + Strict Verify Failed when that
    is_correct is falsy or missing, and is left as it was otherwise. *)
Theorem failure_feedback_frame (rt : Runtime) (sv : Services)
    (state final : PipelineState) :
  result (Orchestrator.handle_failure_feedback rt sv state) = Ok final ->
  roles_of (trace (Orchestrator.handle_failure_feedback rt sv state)) = []
  /\ (forall a, In a (agents_of (trace (Orchestrator.handle_failure_feedback rt sv state)))
                -> a = VerifierLLM)
  /\ final_answer final = final_answer state
  /\ solution_steps final = solution_steps state
  /\ confidence final = confidence state
  /\ step final = step state
  /\ needs_hitl final = needs_hitl state
  /\ exists strict_result,
       result (VerifierAgent.verify rt sv (Orchestrator.problem_text_of state)
                 (solution_data_of_state state) true) = Ok (PDict strict_result)
       /\ verification_passed final = dict_get_or strict_result "is_correct" (PBool false)
       /\ critique final
          = PStr ("Strict Review: "
                  ++ py_str rt (dict_get_or strict_result "critique"
                                  (PStr "No issues found")))
       /\ hitl_reason final
          = (if truthy (dict_get_or strict_result "is_correct" (PBool false))
             then hitl_reason state
             else Some "User Rejected + Strict Verify Failed").
Proof.
  destruct (handle_failure_feedback_unfold rt sv state) as [-> ->].
  destruct (verify_events rt sv (Orchestrator.problem_text_of state)
              (solution_data_of_state state) true) as [Hroles Hagents].
  intros Hres. split; [exact Hroles|]. split.
  { intros a Hin. destruct Hagents as [H | H]; rewrite H in Hin.
    - destruct Hin.
    - destruct Hin as [<- | []]. reflexivity. }
  destruct (result (VerifierAgent.verify rt sv (Orchestrator.problem_text_of state)
                      (solution_data_of_state state) true)) as [strict_result | e];
    [|discriminate].
  destruct strict_result as [| | | | | | d]; try discriminate Hres.
  cbn [py_get] in Hres. cbv zeta in Hres. injection Hres as <-.
  destruct (truthy (dict_get_or d "is_correct" (PBool false))) eqn:Etruthy; cbn;
    repeat (split; [reflexivity|]); exists d; rewrite ?Etruthy;
    repeat (split; [reflexivity|]); reflexivity.
Qed.

(** An instance: the strict review of a completed attempt of the model
    cannot be decoded; the state stays complete. *)
Lemma failure_feedback_frame_witness :
  exists final,
    result (Orchestrator.handle_failure_feedback CPython.runtime
              AuditExamples.prose_verifier AuditExamples.completed_model) = Ok final
    /\ step final = "complete"
    /\ needs_hitl final = false
    /\ exists strict_result,
         result (VerifierAgent.verify CPython.runtime AuditExamples.prose_verifier
                   (Orchestrator.problem_text_of AuditExamples.completed_model)
                   (solution_data_of_state AuditExamples.completed_model) true)
         = Ok (PDict strict_result)
         /\ verification_passed final
            = dict_get_or strict_result "is_correct" (PBool false)
         /\ hitl_reason final
            = (if truthy (dict_get_or strict_result "is_correct" (PBool false))
               then hitl_reason AuditExamples.completed_model
               else Some "User Rejected + Strict Verify Failed").
Proof.
  eexists. split; [vm_compute; reflexivity|].
  match goal with
  | |- step ?f = _ /\ _ =>
      destruct (failure_feedback_frame CPython.runtime AuditExamples.prose_verifier
                  AuditExamples.completed_model f)
        as [_ [_ [_ [_ [_ [Hstep [Hneeds [d [Hver [Hvp [_ Hreason]]]]]]]]]]]
  end.
  - vm_compute. reflexivity.
  - split; [exact Hstep|]. split; [exact Hneeds|].
    exists d. split; [exact Hver|]. split; [exact Hvp | exact Hreason].
Defined.

(** ** The orchestrator: the events of the solver phase *)

Lemma solve_roles (rt : Runtime) (sv : Services) (problem_text : pyval)
    (problem_type : option string) (context_str : pyval) :
  roles_of (trace (SolverAgent.solve rt sv problem_text problem_type context_str)) = [].
Proof.
  destruct (SolverAgent.is_arithmetic problem_type) eqn:Ha.
  - unfold SolverAgent.solve. rewrite Ha.
    apply calculator_events, solve_with_tool_trace.
  - pose proof (solve_paths rt sv problem_text problem_type context_str Ha) as Hp.
    destruct Hp as [t e E | t c e E | t c plan e E | t c plan v e E | t c plan v E
                    | t c plan v e E | t c plan v content E];
      apply retrieve_events in E; destruct E as [_ E];
      apply store_query_events in E; destruct E as [_ E];
      rewrite ?roles_of_app; cbn [roles_of]; rewrite ?roles_of_app;
      try (destruct (check_prompt rt sv problem_text plan) as [-> _]);
      rewrite E; reflexivity.
Qed.

Lemma explain_trace (rt : Runtime) (sv : Services) (problem_text : pyval)
    (solution_steps : list string) (final_answer category : pyval) :
  exists prompt,
    trace (ExplainerAgent.explain rt sv problem_text solution_steps final_answer category)
    = [AgentRun ExplainerLLM prompt (agent_run sv ExplainerLLM prompt)]
    /\ match agent_run sv ExplainerLLM prompt with
       | Ok content =>
           exists explanation,
             result (ExplainerAgent.explain rt sv problem_text solution_steps
                       final_answer category) = Ok explanation
       | Raise e =>
           result (ExplainerAgent.explain rt sv problem_text solution_steps
                     final_answer category) = Raise e
       end.
Proof.
  unfold ExplainerAgent.explain.
  match goal with |- context [run_agent sv ExplainerLLM ?p] => exists p; generalize p end.
  intros prompt. rewrite trace_bind, result_bind, trace_run_agent, !result_run_agent.
  destruct (agent_run sv ExplainerLLM prompt) as [content | e];
    [|split; reflexivity].
  rewrite trace_try_except, result_try_except.
  destruct (Re.search ExplainerAgent.braces content) as [m |].
  - rewrite trace_lift, result_lift.
    destruct (json_loads rt (Re.matched m)); (split; [reflexivity | eexists; reflexivity]).
  - split; [reflexivity | eexists; reflexivity].
Qed.

(** The events of a returning [run_solver_phase]: those of solve, the log
    entry of the solver, those of verify, the log entry of the verifier and,
    when the decision cleared the attempt, the explainer's call and its log
    entry. *)
Lemma run_solver_phase_trace (rt : Runtime) (sv : Services) (state final : PipelineState) :
  result (Orchestrator.run_solver_phase rt sv state) = Ok final ->
  exists solution verification tail,
    result (SolverAgent.solve rt sv (Orchestrator.problem_text_of state)
              (problem_category state) (PStr "")) = Ok solution
    /\ result (VerifierAgent.verify rt sv (Orchestrator.problem_text_of state)
                 (solution_data_of solution) false) = Ok verification
    /\ trace (Orchestrator.run_solver_phase rt sv state)
       = (trace (SolverAgent.solve rt sv (Orchestrator.problem_text_of state)
                   (problem_category state) (PStr ""))
          ++ LogInteraction (session_id state) "solver" (solution_to_py solution)
          :: trace (VerifierAgent.verify rt sv (Orchestrator.problem_text_of state)
                      (solution_data_of solution) false)
          ++ LogInteraction (session_id state) "verifier" verification
          :: tail)%list
    /\ (if needs_hitl final
        then tail = [] /\ explanation final = explanation state
        else exists prompt content,
               tail = [AgentRun ExplainerLLM prompt (Ok content);
                       LogInteraction (session_id state) "explainer" (explanation final)]).
Proof.
  unfold Orchestrator.run_solver_phase.
  rewrite result_bind, trace_bind.
  destruct (result (SolverAgent.solve rt sv (Orchestrator.problem_text_of state)
                      (problem_category state) (PStr ""))) as [solution | e] eqn:Esol;
    [|discriminate].
  rewrite result_bind, trace_bind. cbn [Memory.log_interaction emit trace result fst snd].
  rewrite result_bind, trace_bind.
  match goal with
  | |- context [VerifierAgent.verify rt sv ?p ?d false] =>
      change d with (solution_data_of solution);
      change p with (Orchestrator.problem_text_of state)
  end.
  destruct (result (VerifierAgent.verify rt sv (Orchestrator.problem_text_of state)
                      (solution_data_of solution) false)) as [verification | e] eqn:Ever;
    [|discriminate].
  rewrite result_bind, trace_bind, trace_lift, result_lift.
  destruct (py_item verification "is_correct") as [is_correct | e] eqn:Eic; [|discriminate].
  rewrite result_bind, trace_bind, trace_lift, result_lift.
  destruct (py_get verification "critique" (PStr "")) as [crit | e] eqn:Ecr; [|discriminate].
  rewrite result_bind, trace_bind. cbn [Memory.log_interaction emit trace result fst snd].
  rewrite result_bind, trace_bind, trace_lift, result_lift.
  match goal with
  | |- context [Orchestrator.smart_hitl_logic rt verification ?s] =>
      set (before := s)
  end.
  destruct (Orchestrator.smart_hitl_logic rt verification before) as [decided | e] eqn:Edec;
    [|discriminate].
  assert (Hframe : session_id decided = session_id state
                   /\ explanation decided = explanation state).
  { clear - Edec. unfold Orchestrator.smart_hitl_logic in Edec.
    destruct (py_get verification "adjusted_confidence" (PFloat 1)); [|discriminate].
    destruct (is_calculator _).
    - destruct (py_gt _ _) as [[|]|]; try discriminate; injection Edec as <-;
        split; reflexivity.
    - destruct (if truthy _ then _ else _) as [[|]|]; try discriminate.
      + injection Edec as <-; split; reflexivity.
      + destruct (_ && _); injection Edec as <-; split; reflexivity. }
  destruct Hframe as [Hsid Hexp].
  destruct (needs_hitl decided) eqn:Eneeds.
  - cbn [trace result ret fst snd app]. intros Hfinal. injection Hfinal as <-.
    exists solution, verification, []. cbn [needs_hitl set_step]. rewrite Eneeds.
    split; [reflexivity|]. split; [exact Ever|]. split; [reflexivity|].
    split; [reflexivity | exact Hexp].
  - rewrite result_bind, trace_bind.
    match goal with
    | |- context [ExplainerAgent.explain rt sv ?a ?b ?c ?d] =>
        destruct (explain_trace rt sv a b c d) as [prompt [Hexplain Hagent]];
        rewrite Hexplain;
        destruct (result (ExplainerAgent.explain rt sv a b c d)) as [expl | e]
          eqn:Eexp; [|discriminate]
    end.
    rewrite result_bind, trace_bind.
    cbn [Memory.log_interaction emit trace result ret fst snd app].
    intros Hfinal. injection Hfinal as <-.
    cbn [needs_hitl set_step set_explanation explanation session_id]. rewrite Eneeds, Hsid.
    destruct (agent_run sv ExplainerLLM prompt) as [content | e] eqn:Eagent;
      [|discriminate Hagent].
    exists solution, verification,
      [AgentRun ExplainerLLM prompt (Ok content);
       LogInteraction (session_id state) "explainer" expl].
    split; [reflexivity|]. split; [exact Ever|]. split; [reflexivity|].
    exists prompt, content. reflexivity.
Qed.

Lemma solve_agents (rt : Runtime) (sv : Services) (problem_text : pyval)
    (problem_type : option string) (context_str : pyval) (a : Agent) :
  In a (agents_of (trace (SolverAgent.solve rt sv problem_text problem_type context_str))) ->
  a = CalculatorLLM \/ a = PlannerLLM \/ a = GuardrailLLM \/ a = ExecutorLLM.
Proof.
  destruct (SolverAgent.is_arithmetic problem_type) eqn:Ha.
  - unfold SolverAgent.solve. rewrite Ha. intros H.
    left. exact (solve_with_tool_agents _ _ _ _ H).
  - destruct (solve_path_agents _ _ _ _ _ _
                (solve_paths rt sv problem_text problem_type context_str Ha))
      as [[-> _] | [_ [n ->]]].
    + cbn. intuition.
    + destruct n as [| [| [| n]]]; cbn; intuition.
Qed.

Lemma run_solver_phase_events (rt : Runtime) (sv : Services) (state final : PipelineState) :
  result (Orchestrator.run_solver_phase rt sv state) = Ok final ->
  roles_of (trace (Orchestrator.run_solver_phase rt sv state))
  = (if needs_hitl final then ["solver"; "verifier"]
     else ["solver"; "verifier"; "explainer"])
  /\ (In ExplainerLLM (agents_of (trace (Orchestrator.run_solver_phase rt sv state)))
      <-> needs_hitl final = false)
  /\ (needs_hitl final = true -> explanation final = explanation state).
Proof.
  intros Hres.
  destruct (run_solver_phase_trace rt sv state final Hres)
    as [solution [verification [tail [_ [_ [-> Htail]]]]]].
  destruct (verify_events rt sv (Orchestrator.problem_text_of state)
              (solution_data_of solution) false) as [Hvr Hva].
  rewrite roles_of_app, solve_roles. cbn [app roles_of].
  rewrite roles_of_app, Hvr. cbn [app roles_of].
  rewrite agents_of_app. cbn [agents_of]. rewrite agents_of_app. cbn [agents_of].
  assert (Hver : ~ In ExplainerLLM
                     (agents_of (trace (VerifierAgent.verify rt sv
                                          (Orchestrator.problem_text_of state)
                                          (solution_data_of solution) false)))).
  { destruct Hva as [-> | ->]; [intros [] | intros [H | []]; discriminate H]. }
  assert (Hsol : ~ In ExplainerLLM
                     (agents_of (trace (SolverAgent.solve rt sv
                                          (Orchestrator.problem_text_of state)
                                          (problem_category state) (PStr ""))))).
  { intros H. apply solve_agents in H. destruct H as [H | [H | [H | H]]]; discriminate H. }
  destruct (needs_hitl final).
  - destruct Htail as [-> Hexp]. split; [reflexivity|]. split; [|intros _; exact Hexp].
    split; [|discriminate]. intros H.
    apply in_app_or in H. destruct H as [H | H]; [contradiction|].
    apply in_app_or in H. destruct H as [H | []]. contradiction.
  - destruct Htail as [prompt [content ->]]. split; [reflexivity|].
    split; [|discriminate]. split; [reflexivity|]. intros _.
    apply in_or_app. right. apply in_or_app. right. left. reflexivity.
Qed.

(** X12. A returning solver phase ends in one of two ways. Either the
    attempt is kept for a human: the step is verified, the log has the
    entries of the solver and the verifier, the explainer is not called and
    the explanation is untouched. Or it is cleared: the step is complete,
    the explainer was called and its entry is the last of the three in the
    log. The session id is kept. *)
Theorem solver_phase_outcomes (rt : Runtime) (sv : Services)
    (state final : PipelineState) :
  result (Orchestrator.run_solver_phase rt sv state) = Ok final ->
  step final = (if needs_hitl final then "verified" else "complete")
  /\ roles_of (trace (Orchestrator.run_solver_phase rt sv state))
     = (if needs_hitl final then ["solver"; "verifier"]
        else ["solver"; "verifier"; "explainer"])
  /\ (In ExplainerLLM (agents_of (trace (Orchestrator.run_solver_phase rt sv state)))
      <-> needs_hitl final = false)
  /\ (needs_hitl final = true -> explanation final = explanation state).
Proof.
  intros Hres.
  destruct (run_solver_phase_ok rt sv state final Hres)
    as [solution [verification [before [decided H]]]].
  destruct H as [_ [_ [_ [_ [_ [_ [_ [Hneeds [_ [_ [_ [_ [_ Hstep]]]]]]]]]]]]].
  rewrite <- Hneeds in Hstep. split; [exact Hstep|].
  exact (run_solver_phase_events rt sv state final Hres).
Qed.

(** An instance: scenario 3 halts after the verifier. *)
Lemma solver_phase_outcomes_witness :
  let rt := CPython.runtime in
  let sv := PolicyExamples.scenario3 in
  let state := PolicyExamples.routed "Solve 2x = 8" "ALGEBRA" in
  let final := set_step "verified"
                 (set_hitl_reason
                    (Some "Verification Failed. Solver: 0.92, Verifier: 0.6, Critique: Correct")
                    (set_needs_hitl true
                       (before_decision state
                          {| sol_plan := "Isolate the unknown by the inverse operation.";
                             sol_steps := ["Divide both sides by 2"];
                             sol_final_answer := "x = 4";
                             sol_confidence := 0.92;
                             sol_error := None;
                             sol_context := Some (PStr "");
                             sol_tool_used := None |}
                          (PBool true) (PStr "Correct")))) in
  step final = (if needs_hitl final then "verified" else "complete")
  /\ roles_of (trace (Orchestrator.run_solver_phase rt sv state))
     = (if needs_hitl final then ["solver"; "verifier"]
        else ["solver"; "verifier"; "explainer"])
  /\ (In ExplainerLLM (agents_of (trace (Orchestrator.run_solver_phase rt sv state)))
      <-> needs_hitl final = false)
  /\ (needs_hitl final = true -> explanation final = explanation state).
Proof.
  intros rt sv state final.
  apply (solver_phase_outcomes rt sv state final).
  vm_compute. reflexivity.
Defined.

(** The result of the solver phase, from what solve and verify return. *)
Lemma run_solver_phase_result (rt : Runtime) (sv : Services) (state : PipelineState)
    (solution : Solution) (verification is_correct crit : pyval) :
  result (SolverAgent.solve rt sv (Orchestrator.problem_text_of state)
            (problem_category state) (PStr "")) = Ok solution ->
  result (VerifierAgent.verify rt sv (Orchestrator.problem_text_of state)
            (solution_data_of solution) false) = Ok verification ->
  py_item verification "is_correct" = Ok is_correct ->
  py_get verification "critique" (PStr "") = Ok crit ->
  forall decided,
    Orchestrator.smart_hitl_logic rt verification
      (before_decision state solution is_correct crit) = Ok decided ->
    needs_hitl decided = true ->
    result (Orchestrator.run_solver_phase rt sv state) = Ok (set_step "verified" decided).
Proof.
  intros Hsol Hver Hic Hcr decided Hdec Hneeds.
  unfold Orchestrator.run_solver_phase.
  rewrite result_bind, Hsol.
  rewrite result_bind. cbn [Memory.log_interaction emit result snd].
  rewrite result_bind.
  match goal with
  | |- context [VerifierAgent.verify rt sv ?p ?d false] =>
      change d with (solution_data_of solution);
      change p with (Orchestrator.problem_text_of state)
  end.
  rewrite Hver, result_bind, result_lift, Hic, result_bind, result_lift, Hcr.
  rewrite result_bind. cbn [Memory.log_interaction emit result snd].
  rewrite result_bind, result_lift.
  fold (before_decision state solution is_correct crit).
  rewrite Hdec, Hneeds. reflexivity.
Qed.

Lemma decision_on_parse_failure (rt : Runtime) (before : PipelineState)
    (e : exn) (content : string) :
  verification_passed before = PBool false ->
  exists reason,
    Orchestrator.smart_hitl_logic rt (VerifierAgent.parse_failure e content) before
    = Ok (set_hitl_reason (Some reason) (set_needs_hitl true before)).
Proof.
  intros Hvp. unfold Orchestrator.smart_hitl_logic, VerifierAgent.parse_failure.
  cbn [py_get dict_get_or dict_get String.eqb Ascii.eqb Bool.eqb].
  change (tool_used (set_needs_hitl true before)) with (tool_used before).
  change (verification_passed (set_needs_hitl true before))
    with (verification_passed before).
  rewrite Hvp. cbn [truthy andb].
  destruct (is_calculator (tool_used before)).
  - replace (py_gt (PFloat 0) 0.5) with (@Ok bool false) by reflexivity.
    eexists. reflexivity.
  - eexists. reflexivity.
Qed.

(** X13. A verifier that cannot be decoded keeps the attempt for a human:
    when solve returned an attempt and the verifier's evaluator answers a
    text that json.loads rejects, the solver phase returns (it does not
    raise) a state with needs_hitl true, step verified, verification_passed
    False and the decoder's message in the critique; the explainer is not
    called. *)
Theorem undecodable_verifier_answer_halts (rt : Runtime) (sv : Services)
    (state : PipelineState) (solution : Solution) (content : string) (e : exn) :
  result (SolverAgent.solve rt sv (Orchestrator.problem_text_of state)
            (problem_category state) (PStr "")) = Ok solution ->
  answered (VerifierAgent.verify rt sv (Orchestrator.problem_text_of state)
              (solution_data_of solution) false) VerifierLLM content ->
  json_loads rt (extract_json content) = Raise e ->
  exists final,
    result (Orchestrator.run_solver_phase rt sv state) = Ok final
    /\ needs_hitl final = true
    /\ step final = "verified"
    /\ verification_passed final = PBool false
    /\ critique final = PStr ("JSON parsing failed. Error: " ++ exn_str e
                              ++ ". Raw response: " ++ content)
    /\ final_answer final = PStr (sol_final_answer solution)
    /\ not_called (Orchestrator.run_solver_phase rt sv state) ExplainerLLM.
Proof.
  intros Hsol Hans Hjson.
  pose proof (verify_answered _ _ _ _ _ _ Hans) as Hver.
  apply (f_equal result) in Hver. cbn [result snd] in Hver. rewrite Hjson in Hver.
  set (crit := PStr ("JSON parsing failed. Error: " ++ exn_str e
                     ++ ". Raw response: " ++ content)).
  destruct (decision_on_parse_failure rt
              (before_decision state solution (PBool false) crit) e content eq_refl)
    as [reason Hdec].
  pose proof (run_solver_phase_result rt sv state solution _ (PBool false) crit
                Hsol Hver eq_refl eq_refl _ Hdec eq_refl) as Hres.
  eexists. split; [exact Hres|].
  repeat (split; [reflexivity|]).
  apply not_called_of_agents.
  destruct (run_solver_phase_events rt sv state _ Hres) as [_ [Hexp _]].
  intros Hin. apply Hexp in Hin. discriminate Hin.
Qed.

(** An instance: the verifier answers in prose to an attempt with solver
    confidence 0.99. *)
Lemma undecodable_verifier_answer_halts_witness :
  exists final,
    result (Orchestrator.run_solver_phase CPython.runtime AuditExamples.prose_verifier
              (PolicyExamples.routed "Solve 2x = 8" "ALGEBRA")) = Ok final
    /\ needs_hitl final = true
    /\ step final = "verified"
    /\ verification_passed final = PBool false
    /\ critique final = PStr ("JSON parsing failed. Error: "
                              ++ "Expecting value: line 1 column 1 (char 0)"
                              ++ ". Raw response: " ++ "Looks right to me.")
    /\ final_answer final = PStr "x = 4"
    /\ not_called (Orchestrator.run_solver_phase CPython.runtime
                     AuditExamples.prose_verifier
                     (PolicyExamples.routed "Solve 2x = 8" "ALGEBRA")) ExplainerLLM.
Proof.
  apply (undecodable_verifier_answer_halts CPython.runtime AuditExamples.prose_verifier
           (PolicyExamples.routed "Solve 2x = 8" "ALGEBRA")
           {| sol_plan := "Isolate the unknown by the inverse operation.";
              sol_steps := ["Divide both sides by 2"];
              sol_final_answer := "x = 4";
              sol_confidence := 0.99;
              sol_error := None;
              sol_context := Some (PStr "");
              sol_tool_used := None |}
           "Looks right to me."
           (mk_exn JSONDecodeError "Expecting value: line 1 column 1 (char 0)")).
  - vm_compute. reflexivity.
  - apply answered_intro. vm_compute. left. reflexivity.
  - vm_compute. reflexivity.
Defined.

Lemma solve_returned_blocked (rt : Runtime) (sv : Services)
    (problem_text : pyval) (problem_type : option string) (context_str : pyval)
    (plan : string) (verdict : pydict) (solution : Solution) :
  SolverAgent.is_arithmetic problem_type = false ->
  agent_run sv PlannerLLM (planner_prompt rt problem_text) = Ok plan ->
  result (GuardrailAgent.check rt sv problem_text plan) = Ok (PDict verdict) ->
  truthy (dict_get_or verdict "is_safe" (PBool false)) = false ->
  result (SolverAgent.solve rt sv problem_text problem_type context_str) = Ok solution ->
  (exists context, solution = intercepted rt plan context verdict)
  /\ agents_of (trace (SolverAgent.solve rt sv problem_text problem_type context_str))
     = [PlannerLLM; GuardrailLLM].
Proof.
  intros Ha Hplan Hcheck Hsafe Hsol.
  pose proof (solve_paths rt sv problem_text problem_type context_str Ha) as Hp.
  rewrite Hsol in Hp.
  inversion Hp as [| | | | t c plan' v E1 E2 E3 E4 Ht Hr
                   | | t c plan' v content E1 E2 E3 E4 E5 Ht Hr];
    path_facts; [|congruence].
  split; [exists c; reflexivity|].
  path_agents. reflexivity.
Qed.

(** X14. A plan blocked by the guardrail ends in a halt, whatever the
    verifier says: the solver phase, when it returns, has asked the
    planner, the guardrail and then the verifier about the intercepted
    attempt (never the executor or the explainer), and the state has
    needs_hitl true, step verified, the answer Guardrail Intercepted and
    confidence 0.0. *)
Theorem blocked_plan_halts_pipeline (rt : Runtime) (sv : Services)
    (state final : PipelineState) (plan : string) (verdict : pydict) :
  SolverAgent.is_arithmetic (problem_category state) = false ->
  agent_run sv PlannerLLM (planner_prompt rt (Orchestrator.problem_text_of state)) = Ok plan ->
  result (GuardrailAgent.check rt sv (Orchestrator.problem_text_of state) plan)
  = Ok (PDict verdict) ->
  truthy (dict_get_or verdict "is_safe" (PBool false)) = false ->
  result (Orchestrator.run_solver_phase rt sv state) = Ok final ->
  needs_hitl final = true
  /\ step final = "verified"
  /\ final_answer final = PStr "Guardrail Intercepted"
  /\ confidence final = 0.0%float
  /\ agents_of (trace (Orchestrator.run_solver_phase rt sv state))
     = [PlannerLLM; GuardrailLLM; VerifierLLM].
Proof.
  intros Ha Hplan Hcheck Hsafe Hres.
  destruct (run_solver_phase_ok rt sv state final Hres)
    as [solution [verification [before [decided H]]]].
  destruct H as [Hsol [_ [Hconf [Htool [_ [_ [Hdec [Hneeds [_ [Hc [_ [_ [Hfa Hstep]]]]]]]]]]]]].
  destruct (solve_returned_blocked _ _ _ _ _ _ _ _ Ha Hplan Hcheck Hsafe Hsol)
    as [[context ->] Hagents].
  cbn [intercepted sol_confidence sol_tool_used sol_final_answer] in *.
  destruct (smart_hitl_logic_spec rt verification before decided Hdec)
    as [cv [_ [Hconf' [_ [_ [_ [_ [_ Hmodel]]]]]]]].
  assert (Hkept : needs_hitl decided = true).
  { destruct (needs_hitl decided) eqn:En; [reflexivity|]. exfalso.
    rewrite Htool in Hmodel. specialize (Hmodel eq_refl).
    destruct Hmodel as [Hm _]. rewrite Hconf in Hm.
    destruct (Hm eq_refl) as [[_ [H9 _]] | [_ H95]]; discriminate. }
  rewrite Hkept in Hstep. rewrite Hneeds, Hc, Hconf', Hconf.
  repeat (split; [assumption || reflexivity|]).
  destruct (run_solver_phase_trace rt sv state final Hres)
    as [solution' [verification' [tail [Hsol' [_ [-> Htail]]]]]].
  rewrite Hsol in Hsol'. injection Hsol' as <-.
  rewrite Hneeds, Hkept in Htail. destruct Htail as [-> _].
  rewrite agents_of_app, Hagents. cbn [agents_of app].
  rewrite agents_of_app, verify_unfold. reflexivity.
Qed.

(** An instance: the guardrail blocks, the verifier finds nothing wrong. *)
Lemma blocked_plan_halts_pipeline_witness :
  let rt := CPython.runtime in
  let sv := Scenario.services
              (fun a => match a with
                        | VerifierLLM => Ok VerifyExamples.lenient_verdict
                        | _ => GuardExamples.agents_with_guardrail
                                 GuardExamples.blocking_verdict a
                        end)
              Scenario.no_sympy GuardExamples.store in
  let state := PolicyExamples.routed "Solve 2x = 8" "ALGEBRA" in
  let final :=
    set_step "verified"
      (set_hitl_reason
         (Some "Verification Failed. Solver: 0.0, Verifier: 0.9, Critique: Correct")
         (set_needs_hitl true
            (before_decision state
               (intercepted rt "Isolate the unknown by the inverse operation."
                  (PStr "Worked example: 3x = 9 gives x = 3.")
                  [("is_safe", PBool false); ("violation_type", PStr "Rule 2");
                   ("reason", PStr "wrong domain");
                   ("recommended_action", PStr "TRIGGER_HITL")])
               (PBool true) (PStr "Correct")))) in
  needs_hitl final = true
  /\ step final = "verified"
  /\ final_answer final = PStr "Guardrail Intercepted"
  /\ confidence final = 0.0%float
  /\ agents_of (trace (Orchestrator.run_solver_phase rt sv state))
     = [PlannerLLM; GuardrailLLM; VerifierLLM].
Proof.
  intros rt sv state final.
  apply (blocked_plan_halts_pipeline rt sv state final
           "Isolate the unknown by the inverse operation."
           [("is_safe", PBool false); ("violation_type", PStr "Rule 2");
            ("reason", PStr "wrong domain"); ("recommended_action", PStr "TRIGGER_HITL")]).
  - reflexivity.
  - reflexivity.
  - vm_compute. reflexivity.
  - reflexivity.
  - vm_compute. reflexivity.
Defined.

(** ** The orchestrator: resuming after a halt *)

Lemma smart_hitl_logic_cases (rt : Runtime) (verification : pyval)
    (before decided : PipelineState) :
  Orchestrator.smart_hitl_logic rt verification before = Ok decided ->
  decided = set_needs_hitl false (set_needs_hitl true before)
  \/ exists reason, decided = set_hitl_reason (Some reason) (set_needs_hitl true before).
Proof.
  unfold Orchestrator.smart_hitl_logic.
  destruct (py_get verification "adjusted_confidence" (PFloat 1)); [|discriminate].
  destruct (is_calculator _).
  - destruct (py_gt _ _) as [[|]|]; try discriminate; intros H; injection H as <-;
      [left; reflexivity | right; eexists; reflexivity].
  - destruct (if truthy _ then _ else _) as [[|]|]; try discriminate.
    + intros H; injection H as <-. left; reflexivity.
    + destruct (_ && _); intros H; injection H as <-;
        [left; reflexivity | right; eexists; reflexivity].
Qed.

(** The state a returning [run_solver_phase] returns. *)
Lemma run_solver_phase_final (rt : Runtime) (sv : Services) (state final : PipelineState) :
  result (Orchestrator.run_solver_phase rt sv state) = Ok final ->
  exists solution is_correct crit decided,
    (decided = set_needs_hitl false
                 (set_needs_hitl true (before_decision state solution is_correct crit))
     \/ exists reason,
          decided = set_hitl_reason (Some reason)
                      (set_needs_hitl true
                         (before_decision state solution is_correct crit)))
    /\ (final = set_step "verified" decided
        \/ exists expl, final = set_step "complete" (set_explanation expl decided)).
Proof.
  unfold Orchestrator.run_solver_phase.
  rewrite result_bind.
  destruct (result (SolverAgent.solve rt sv (Orchestrator.problem_text_of state)
                      (problem_category state) (PStr ""))) as [solution | e];
    [|discriminate].
  rewrite result_bind. cbn [Memory.log_interaction emit result snd].
  rewrite result_bind.
  match goal with
  | |- context [result (VerifierAgent.verify rt sv ?p ?d false)] =>
      destruct (result (VerifierAgent.verify rt sv p d false)) as [verification | e];
      [|discriminate]
  end.
  rewrite result_bind, result_lift.
  destruct (py_item verification "is_correct") as [is_correct | e]; [|discriminate].
  rewrite result_bind, result_lift.
  destruct (py_get verification "critique" (PStr "")) as [crit | e]; [|discriminate].
  rewrite result_bind. cbn [Memory.log_interaction emit result snd].
  rewrite result_bind, result_lift.
  fold (before_decision state solution is_correct crit).
  destruct (Orchestrator.smart_hitl_logic rt verification
              (before_decision state solution is_correct crit)) as [decided | e] eqn:Edec;
    [|discriminate].
  intros Hfinal. exists solution, is_correct, crit, decided.
  split; [exact (smart_hitl_logic_cases _ _ _ _ Edec)|].
  destruct (needs_hitl decided).
  - cbn [result ret snd] in Hfinal. injection Hfinal as <-. left. reflexivity.
  - rewrite result_bind in Hfinal.
    destruct (result (ExplainerAgent.explain rt sv _ _ _ _)) as [expl | e];
      [|discriminate].
    rewrite result_bind in Hfinal. cbn [Memory.log_interaction emit result ret snd] in Hfinal.
    injection Hfinal as <-. right. exists expl. reflexivity.
Qed.

Lemma run_solver_phase_frame (rt : Runtime) (sv : Services) (state final : PipelineState) :
  result (Orchestrator.run_solver_phase rt sv state) = Ok final ->
  parsed_data final = parsed_data state
  /\ problem_category final = problem_category state
  /\ session_id final = session_id state
  /\ (needs_hitl final = false -> hitl_reason final = hitl_reason state).
Proof.
  intros Hres.
  destruct (run_solver_phase_final rt sv state final Hres)
    as [solution [is_correct [crit [decided [[-> | [reason ->]] [-> | [expl ->]]]]]]];
    repeat (split; [reflexivity|]); cbn; intros H; try reflexivity; discriminate H.
Qed.

Lemma learn_from_success_events (rt : Runtime) (sv : Services) (state : PipelineState) :
  result (Orchestrator.learn_from_success rt sv state) = Ok tt
  /\ agents_of (trace (Orchestrator.learn_from_success rt sv state)) = []
  /\ roles_of (trace (Orchestrator.learn_from_success rt sv state)) = [].
Proof.
  unfold Orchestrator.learn_from_success.
  destruct (Orchestrator.learnable state); cbn [negb]; [|repeat split].
  unfold VectorStore.add_documents, store_add, try_except, ret.
  match goal with
  | |- context [collection_add sv ?docs ?metas ?ids] =>
      destruct (collection_add sv docs metas ids) as [[] | e]
  end; repeat split.
Qed.

(** X15. Feedback that holds none of the keys corrected_text and
    override_answer, and no approve that is truthy (an empty dict, a
    rejected approval, an unknown key), is ignored: resume_with_feedback
    returns the state as it is and does nothing else. *)
Theorem unrecognised_feedback_is_ignored (rt : Runtime) (sv : Services)
    (state : PipelineState) (feedback : pydict) :
  dict_get feedback "corrected_text" = None ->
  dict_get feedback "override_answer" = None ->
  truthy (dict_get_none feedback "approve") = false ->
  Orchestrator.resume_with_feedback rt sv state feedback = ([], Ok state).
Proof.
  intros Hc Ho Ha. unfold Orchestrator.resume_with_feedback, dict_mem.
  rewrite Hc, Ho, Ha, Bool.andb_false_r. reflexivity.
Qed.

Lemma unrecognised_feedback_is_ignored_witness :
  Orchestrator.resume_with_feedback CPython.runtime ResumeExamples.services
    ResumeExamples.halted [("approve", PBool false); ("approved_plan", PStr "yes")]
  = ([], Ok ResumeExamples.halted).
Proof.
  apply (unrecognised_feedback_is_ignored CPython.runtime ResumeExamples.services
           ResumeExamples.halted [("approve", PBool false); ("approved_plan", PStr "yes")]).
  - reflexivity.
  - reflexivity.
  - reflexivity.
Defined.

(** X16. An approval completes the session without solving or verifying
    again: with a truthy approve, no corrected_text and no override_answer,
    and an explainer that answers, resume_with_feedback returns a state with
    step complete, needs_hitl false and verification_passed True that keeps
    the attempt's answer, steps and confidence; the only agent called is the
    explainer's, no log entry is written, and a state with a problem text
    and a non-empty answer is written to the knowledge store. *)
Theorem approval_completes (rt : Runtime) (sv : Services)
    (state : PipelineState) (feedback : pydict) :
  dict_get feedback "corrected_text" = None ->
  dict_get feedback "override_answer" = None ->
  truthy (dict_get_none feedback "approve") = true ->
  answers sv ExplainerLLM ->
  exists final,
    result (Orchestrator.resume_with_feedback rt sv state feedback) = Ok final
    /\ step final = "complete"
    /\ needs_hitl final = false
    /\ verification_passed final = PBool true
    /\ final_answer final = final_answer state
    /\ solution_steps final = solution_steps state
    /\ confidence final = confidence state
    /\ agents_of (trace (Orchestrator.resume_with_feedback rt sv state feedback))
       = [ExplainerLLM]
    /\ roles_of (trace (Orchestrator.resume_with_feedback rt sv state feedback)) = []
    /\ (Orchestrator.learnable state = true ->
        exists doc metadata r,
          In (StoreAdd [doc] [metadata]
                ["learn_" ++ String.substring 0 8 (session_id state)] r)
             (trace (Orchestrator.resume_with_feedback rt sv state feedback))).
Proof.
  intros Hc Ho Ha Hexplainer.
  assert (Hmem : dict_mem feedback "approve" = true).
  { unfold dict_mem. unfold dict_get_none, dict_get_or in Ha.
    destruct (dict_get feedback "approve"); [reflexivity | discriminate Ha]. }
  remember (Orchestrator.resume_with_feedback rt sv state feedback) as m eqn:Em.
  unfold Orchestrator.resume_with_feedback in Em.
  unfold dict_mem at 1 2 in Em. rewrite Hc, Ho, Hmem, Ha in Em. cbn [andb] in Em.
  subst m.
  rewrite result_bind, trace_bind.
  match goal with
  | |- context [ExplainerAgent.explain rt sv ?p ?s ?f ?c] =>
      destruct (explain_total rt sv p s f c Hexplainer) as [expl Hexp];
      destruct (explain_trace rt sv p s f c) as [prompt [Htrace _]];
      rewrite Hexp, Htrace
  end.
  rewrite result_bind, trace_bind.
  match goal with
  | |- context [Orchestrator.learn_from_success rt sv ?s] => set (completed := s)
  end.
  destruct (learn_from_success_events rt sv completed) as [Hu [Hla Hlr]].
  destruct (learn_from_success_trace rt sv completed) as [_ Hlearn].
  rewrite Hu. cbn [result ret snd trace fst].
  eexists. split; [reflexivity|].
  do 6 (split; [reflexivity|]).
  rewrite app_nil_r.
  split; [cbn [app agents_of]; rewrite Hla; reflexivity|].
  split; [cbn [app roles_of]; rewrite Hlr; reflexivity|].
  intros Hlearnable.
  destruct Hlearn as [doc [metadata [r Hin]]]; [exact Hlearnable|].
  exists doc, metadata, r. right. exact Hin.
Qed.

(** An instance: scenario 3, kept for a human, is approved. *)
Lemma approval_completes_witness :
  exists final,
    result (Orchestrator.resume_with_feedback CPython.runtime ResumeExamples.services
              ApprovalExamples.kept ApprovalExamples.approve) = Ok final
    /\ step final = "complete"
    /\ needs_hitl final = false
    /\ verification_passed final = PBool true
    /\ final_answer final = final_answer ApprovalExamples.kept
    /\ solution_steps final = solution_steps ApprovalExamples.kept
    /\ confidence final = confidence ApprovalExamples.kept
    /\ agents_of (trace (Orchestrator.resume_with_feedback CPython.runtime
                           ResumeExamples.services ApprovalExamples.kept
                           ApprovalExamples.approve))
       = [ExplainerLLM]
    /\ roles_of (trace (Orchestrator.resume_with_feedback CPython.runtime
                          ResumeExamples.services ApprovalExamples.kept
                          ApprovalExamples.approve)) = []
    /\ (Orchestrator.learnable ApprovalExamples.kept = true ->
        exists doc metadata r,
          In (StoreAdd [doc] [metadata]
                ["learn_" ++ String.substring 0 8 (session_id ApprovalExamples.kept)] r)
             (trace (Orchestrator.resume_with_feedback CPython.runtime
                       ResumeExamples.services ApprovalExamples.kept
                       ApprovalExamples.approve))).
Proof.
  apply (approval_completes CPython.runtime ResumeExamples.services
           ApprovalExamples.kept ApprovalExamples.approve).
  - reflexivity.
  - reflexivity.
  - reflexivity.
  - intros prompt. eexists. reflexivity.
Defined.


Lemma route_unfold (rt : Runtime) (sv : Services) (problem_text : pyval) :
  exists prompt,
    trace (IntentRouterAgent.route rt sv problem_text)
    = [AgentRun RouterLLM prompt (agent_run sv RouterLLM prompt)]
    /\ result (IntentRouterAgent.route rt sv problem_text)
       = match agent_run sv RouterLLM prompt with
         | Ok content => Ok (str_upper rt (Str.strip content))
         | Raise e => Raise e
         end.
Proof.
  unfold IntentRouterAgent.route.
  match goal with |- context [run_agent sv RouterLLM ?p] => exists p; generalize p end.
  intros prompt. rewrite trace_bind, result_bind, trace_run_agent, !result_run_agent.
  destruct (agent_run sv RouterLLM prompt); split; reflexivity.
Qed.




(** X18. Resuming never clears the reason of the halt: whatever the
    feedback, when resume_with_feedback returns a state with needs_hitl
    false, its hitl_reason is the one the state had before. *)
Theorem resume_keeps_the_reason (rt : Runtime) (sv : Services)
    (state final : PipelineState) (feedback : pydict) :
  result (Orchestrator.resume_with_feedback rt sv state feedback) = Ok final ->
  needs_hitl final = false ->
  hitl_reason final = hitl_reason state.
Proof.
  unfold Orchestrator.resume_with_feedback.
  destruct (dict_mem feedback "corrected_text").
  { rewrite result_bind.
    destruct (result (IntentRouterAgent.route rt sv _)) as [category | e]; [|discriminate].
    intros Hres Hneeds.
    destruct (run_solver_phase_frame rt sv _ final Hres) as [_ [_ [_ Hreason]]].
    rewrite (Hreason Hneeds). reflexivity. }
  destruct (dict_mem feedback "override_answer").
  { rewrite result_bind.
    destruct (result (ExplainerAgent.explain rt sv _ _ _ _)) as [expl | e]; [|discriminate].
    rewrite result_bind.
    match goal with
    | |- context [Orchestrator.learn_from_success rt sv ?s] =>
        destruct (learn_from_success_events rt sv s) as [-> _]
    end.
    cbn [result ret snd]. intros H _. injection H as <-. reflexivity. }
  destruct (dict_mem feedback "approve" && truthy (dict_get_none feedback "approve")).
  { rewrite result_bind.
    destruct (result (ExplainerAgent.explain rt sv _ _ _ _)) as [expl | e]; [|discriminate].
    rewrite result_bind.
    match goal with
    | |- context [Orchestrator.learn_from_success rt sv ?s] =>
        destruct (learn_from_success_events rt sv s) as [-> _]
    end.
    cbn [result ret snd]. intros H _. injection H as <-. reflexivity. }
  cbn [result ret snd]. intros H _. injection H as <-. reflexivity.
Qed.

(** An instance: the approved session is complete and still carries the
    reason for which it was kept. *)
Lemma resume_keeps_the_reason_witness :
  exists final,
    result (Orchestrator.resume_with_feedback CPython.runtime ResumeExamples.services
              ApprovalExamples.kept ApprovalExamples.approve) = Ok final
    /\ step final = "complete"
    /\ needs_hitl final = false
    /\ hitl_reason final
       = Some "Verification Failed. Solver: 0.92, Verifier: 0.6, Critique: Correct".
Proof.
  eexists. split; [vm_compute; reflexivity|].
  split; [reflexivity|]. split; [reflexivity|].
  apply (resume_keeps_the_reason CPython.runtime ResumeExamples.services
           ApprovalExamples.kept _ ApprovalExamples.approve).
  - vm_compute. reflexivity.
  - reflexivity.
Defined.

(** ** The orchestrator: learning *)

(** X19. Learning is best effort and guarded: learn_from_success never
    raises, also when the store does; for a state without a problem text or
    without an answer it does nothing; otherwise it asks the store once, for
    one document whose id is learn_ followed by the first eight characters
    of the session id and whose metadata mark it as a solved example of
    confidence 1.0 from user feedback. *)
Theorem learning_is_best_effort (rt : Runtime) (sv : Services) (state : PipelineState) :
  result (Orchestrator.learn_from_success rt sv state) = Ok tt
  /\ (truthy (dict_get_none (parsed_data state) "problem_text") = false
      \/ truthy (final_answer state) = false ->
      trace (Orchestrator.learn_from_success rt sv state) = [])
  /\ (truthy (dict_get_none (parsed_data state) "problem_text") = true ->
      truthy (final_answer state) = true ->
      exists doc r,
        trace (Orchestrator.learn_from_success rt sv state)
        = [StoreAdd [doc]
             [[("type", PStr "solved_example");
               ("category", Calculator.opt_str (problem_category state));
               ("confidence", PFloat 1.0);
               ("source", PStr "user_feedback")]]
             ["learn_" ++ String.substring 0 8 (session_id state)] r]).
Proof.
  split; [apply learn_from_success_events|].
  unfold Orchestrator.learn_from_success, Orchestrator.learnable.
  split.
  - intros [H | H]; rewrite H, ?Bool.andb_false_r; reflexivity.
  - intros H1 H2. rewrite H1, H2. cbn [andb negb].
    unfold VectorStore.add_documents, store_add, try_except, ret.
    match goal with
    | |- context [collection_add sv ?docs ?metas ?ids] =>
        destruct (collection_add sv docs metas ids) as [[] | e]
    end; do 2 eexists; reflexivity.
Qed.

(** ** The parser *)








(** X21. An image that cannot be read discards the typed text as well: when
    an image path is given and the OCR reader is missing or raises, run
    returns the ambiguous result for a corrupted image (the error marker of
    process_image contains ERROR, which looks_corrupted rejects), whatever
    text or audio came with it; the parser's agent and the speech
    recogniser are not called. *)
Theorem unreadable_image_discards_the_text (rt : Runtime) (sv : Services)
    (text audio_path : option string) (c : ascii) (path : string) :
  ocr_reader sv = None
  \/ (exists readtext e, ocr_reader sv = Some readtext
                         /\ readtext (String c path) = Raise e) ->
  exists marker,
    (marker = "ERROR_OCR_MISSING" \/ marker = "ERROR_OCR_FAILED")
    /\ result (ParserAgent.run rt sv text (Some (String c path)) audio_path)
       = Ok [("problem_text", PStr "");
             ("input_type", PStr "image");
             ("is_ambiguous", PBool true);
             ("ambiguity_reason", PStr "OCR output is corrupted or unreadable");
             ("raw_input_combined", PStr ("OCR Output: " ++ marker));
             ("sources", PList [PStr "image"])]
    /\ trace (ParserAgent.run rt sv text (Some (String c path)) audio_path)
       = match ocr_reader sv with
         | Some readtext => [OcrRead (String c path) (readtext (String c path))]
         | None => []
         end.
Proof.
  intros Hreader. unfold ParserAgent.run. cbn [ParserAgent.given].
  assert (Himg : exists marker,
             (marker = "ERROR_OCR_MISSING" \/ marker = "ERROR_OCR_FAILED")
             /\ ParserAgent.process_image sv (String c path)
                = (match ocr_reader sv with
                   | Some readtext => [OcrRead (String c path) (readtext (String c path))]
                   | None => []
                   end, Ok marker)).
  { unfold ParserAgent.process_image.
    destruct Hreader as [-> | [readtext [e [-> He]]]].
    - exists "ERROR_OCR_MISSING". split; [left; reflexivity | reflexivity].
    - exists "ERROR_OCR_FAILED". split; [right; reflexivity|].
      rewrite He. reflexivity. }
  destruct Himg as [marker [Hmarker Himg]]. rewrite Himg.
  exists marker. split; [exact Hmarker|].
  assert (Hbad : ParserAgent.looks_corrupted marker = true)
    by (destruct Hmarker as [-> | ->]; vm_compute; reflexivity).
  repeat (rewrite result_bind || rewrite trace_bind). cbn [result trace fst snd].
  rewrite Hbad. cbn [result trace ret fst snd app].
  split; [reflexivity|]. rewrite !app_nil_r. reflexivity.
Qed.

(** An instance: the reader fails, the typed text is not read. *)
Lemma unreadable_image_discards_the_text_witness :
  exists marker,
    (marker = "ERROR_OCR_MISSING" \/ marker = "ERROR_OCR_FAILED")
    /\ result (ParserAgent.run CPython.runtime ParserExamples.failing_reader
                 (Some "Solve 2x = 8") (Some "photo.png") None)
       = Ok [("problem_text", PStr "");
             ("input_type", PStr "image");
             ("is_ambiguous", PBool true);
             ("ambiguity_reason", PStr "OCR output is corrupted or unreadable");
             ("raw_input_combined", PStr ("OCR Output: " ++ marker));
             ("sources", PList [PStr "image"])]
    /\ trace (ParserAgent.run CPython.runtime ParserExamples.failing_reader
                (Some "Solve 2x = 8") (Some "photo.png") None)
       = match ocr_reader ParserExamples.failing_reader with
         | Some readtext => [OcrRead "photo.png" (readtext "photo.png")]
         | None => []
         end.
Proof.
  apply (unreadable_image_discards_the_text CPython.runtime ParserExamples.failing_reader
           (Some "Solve 2x = 8") None "p" "hoto.png").
  right. do 2 eexists. split; reflexivity.
Defined.

(** ** The orchestrator: a whole run *)

Lemma parser_run_events (rt : Runtime) (sv : Services)
    (text image_path audio_path : option string) :
  Forall parser_event (trace (ParserAgent.run rt sv text image_path audio_path)).
Proof.
  assert (Himage : forall path,
             Forall parser_event (trace (ParserAgent.process_image sv path))).
  { intros path. unfold ParserAgent.process_image.
    destruct (ocr_reader sv) as [readtext |]; [|constructor].
    destruct (readtext path); repeat constructor. }
  assert (Haudio : forall path,
             Forall parser_event (trace (ParserAgent.process_audio sv path))).
  { intros path. unfold ParserAgent.process_audio.
    destruct (whisper_model sv) as [transcribe |]; [|constructor].
    destruct (transcribe path); repeat constructor. }
  unfold ParserAgent.run.
  rewrite trace_bind. apply Forall_app. split.
  { destruct (ParserAgent.given image_path) as [path |]; [|constructor].
    rewrite trace_bind. apply Forall_app. split; [apply Himage|].
    destruct (process_image_trace sv path) as [_ [ocr_text ->]].
    destruct (ParserAgent.looks_corrupted ocr_text); constructor. }
  match goal with
  | |- Forall _ match result ?m with _ => _ end => destruct (result m) as [[halted | [ri si]] | e]
  end; try constructor.
  rewrite trace_bind. apply Forall_app. split.
  { destruct (ParserAgent.given audio_path) as [path |]; [|constructor].
    rewrite trace_bind. apply Forall_app. split; [apply Haudio|].
    destruct (process_audio_trace sv path) as [_ [asr_text ->]].
    destruct (ParserAgent.looks_corrupted asr_text); constructor. }
  match goal with
  | |- Forall _ match result ?m with _ => _ end => destruct (result m) as [[halted | [ra sa]] | e]
  end; try constructor.
  match goal with
  | |- context [match ?p with (_, _) => _ end] => destruct p as [raw_all sources_all]
  end.
  destruct raw_all as [| r0 rs]; [constructor|].
  rewrite trace_bind. apply Forall_app. split; [repeat constructor|].
  match goal with
  | |- Forall _ match result ?m with _ => _ end => destruct (result m) as [content | e]
  end; [|constructor].
  rewrite trace_try_except, trace_lift, result_lift. cbn [app].
  match goal with
  | |- Forall _ match ?r with _ => _ end => destruct r
  end; constructor.
Qed.

Lemma parser_events (t : list event) :
  Forall parser_event t ->
  roles_of t = [] /\ sessions_of t = [] /\ log_sessions_of t = []
  /\ forall a, In a (agents_of t) -> a = ParserLLM.
Proof.
  induction 1 as [| ev t Hev _ [IHr [IHs [IHl IHa]]]].
  - repeat split. contradiction.
  - destruct ev as [a p r | | | | | | |]; try contradiction; simpl; auto.
    destruct a; try contradiction. repeat split; auto.
    intros a [<- | H]; auto.
Qed.

Lemma sessions_of_app (t1 t2 : list event) :
  sessions_of (t1 ++ t2) = (sessions_of t1 ++ sessions_of t2)%list.
Proof.
  induction t1 as [| ev t1 IH]; [reflexivity|].
  destruct ev; simpl; rewrite IH; reflexivity.
Qed.

Lemma log_sessions_of_app (t1 t2 : list event) :
  log_sessions_of (t1 ++ t2) = (log_sessions_of t1 ++ log_sessions_of t2)%list.
Proof.
  induction t1 as [| ev t1 IH]; [reflexivity|].
  destruct ev; simpl; rewrite IH; reflexivity.
Qed.

Lemma call_events (t : list event) :
  Forall call_event t -> sessions_of t = [] /\ log_sessions_of t = [].
Proof.
  induction 1 as [| ev t Hev _ [IHs IHl]]; [split; reflexivity|].
  destruct ev; try contradiction; simpl; auto.
Qed.

Lemma solve_call_events (rt : Runtime) (sv : Services) (problem_text : pyval)
    (problem_type : option string) (context_str : pyval) :
  Forall call_event
    (trace (SolverAgent.solve rt sv problem_text problem_type context_str)).
Proof.
  destruct (SolverAgent.is_arithmetic problem_type) eqn:Ha.
  - unfold SolverAgent.solve. rewrite Ha.
    eapply Forall_impl; [|apply solve_with_tool_trace].
    intros [] H; try contradiction; exact I.
  - assert (Hstore : forall t, Forall store_query_event t -> Forall call_event t).
    { intros t. apply Forall_impl. intros [] H; try contradiction; exact I. }
    pose proof (solve_paths rt sv problem_text problem_type context_str Ha) as Hp.
    destruct Hp as [t e E | t c e E | t c plan e E | t c plan v e E | t c plan v E
                    | t c plan v e E | t c plan v content E];
      apply retrieve_events in E; destruct E as [_ E]; apply Hstore in E;
      try (destruct (check_prompt rt sv problem_text plan) as [-> _]);
      repeat (apply Forall_app; split); try exact E; repeat constructor.
Qed.

Lemma verify_call_events (rt : Runtime) (sv : Services) (problem_text : pyval)
    (solution_data : SolutionData) (strict : bool) :
  Forall call_event (trace (VerifierAgent.verify rt sv problem_text solution_data strict)).
Proof.
  rewrite verify_unfold.
  destruct (is_calculator (sd_tool_used solution_data)
            && VerifierAgent._sanity_check_calculator rt solution_data);
    repeat constructor.
Qed.

Lemma run_solver_phase_log (rt : Runtime) (sv : Services) (state final : PipelineState) :
  result (Orchestrator.run_solver_phase rt sv state) = Ok final ->
  sessions_of (trace (Orchestrator.run_solver_phase rt sv state)) = []
  /\ Forall (eq (session_id state))
       (log_sessions_of (trace (Orchestrator.run_solver_phase rt sv state))).
Proof.
  intros Hres.
  destruct (run_solver_phase_trace rt sv state final Hres)
    as [solution [verification [tail [_ [_ [-> Htail]]]]]].
  destruct (call_events _ (solve_call_events rt sv (Orchestrator.problem_text_of state)
                             (problem_category state) (PStr ""))) as [Hs1 Hl1].
  destruct (call_events _ (verify_call_events rt sv (Orchestrator.problem_text_of state)
                             (solution_data_of solution) false)) as [Hs2 Hl2].
  rewrite sessions_of_app, log_sessions_of_app, Hs1, Hl1. cbn [app sessions_of log_sessions_of].
  rewrite sessions_of_app, log_sessions_of_app, Hs2, Hl2. cbn [app sessions_of log_sessions_of].
  destruct (needs_hitl final).
  - destruct Htail as [-> _]. split; [reflexivity | repeat constructor].
  - destruct Htail as [prompt [content ->]]. split; [reflexivity | repeat constructor].
Qed.

(** What a returning [start_pipeline] went through. *)
Lemma start_pipeline_shape (rt : Runtime) (sv : Services)
    (text image_path audio_path session : option string) (final : PipelineState) :
  result (Orchestrator.start_pipeline rt sv text image_path audio_path session)
  = Ok final ->
  let sid := match ParserAgent.given session with
             | Some sid => sid
             | None => uuid4 sv
             end in
  let created := match ParserAgent.given session with
                 | Some _ => []
                 | None => [CreateSession (uuid4 sv)]
                 end in
  exists parsed rest,
    result (ParserAgent.run rt sv text image_path audio_path) = Ok parsed
    /\ trace (Orchestrator.start_pipeline rt sv text image_path audio_path session)
       = (created ++ trace (ParserAgent.run rt sv text image_path audio_path)
          ++ LogInteraction sid "parser" (PDict parsed) :: rest)%list
    /\ session_id final = sid
    /\ ((truthy (dict_get_none parsed "is_ambiguous") = true
         /\ rest = [] /\ step final = "parsed" /\ needs_hitl final = true)
        \/ (truthy (dict_get_none parsed "is_ambiguous") = false
            /\ exists prompt content routed,
                 rest = (AgentRun RouterLLM prompt (Ok content)
                         :: LogInteraction sid "router"
                              (PStr (str_upper rt (Str.strip content)))
                         :: trace (Orchestrator.run_solver_phase rt sv routed))%list
                 /\ session_id routed = sid
                 /\ result (Orchestrator.run_solver_phase rt sv routed) = Ok final)).
Proof.
  intros Hres sid created. unfold Orchestrator.start_pipeline in *.
  rewrite result_bind in Hres. rewrite trace_bind.
  match type of Hres with
  | context [result ?m] =>
      assert (Hsess : m = (created, Ok sid))
        by (subst sid created; destruct (ParserAgent.given session); reflexivity);
      rewrite Hsess in Hres; rewrite Hsess
  end.
  clear Hsess. cbn [result trace fst snd] in *.
  rewrite result_bind in Hres. rewrite trace_bind.
  destruct (result (ParserAgent.run rt sv text image_path audio_path)) as [parsed | e];
    [|discriminate].
  rewrite result_bind in Hres. rewrite trace_bind.
  cbn [Memory.log_interaction emit result trace fst snd] in *.
  exists parsed.
  destruct (truthy (dict_get_none parsed "is_ambiguous")) eqn:Hamb.
  - cbn [result trace ret fst snd] in *. injection Hres as <-.
    exists []. split; [reflexivity|]. split; [reflexivity|]. split; [reflexivity|].
    left. auto.
  - rewrite result_bind in Hres. rewrite trace_bind.
    match type of Hres with
    | context [IntentRouterAgent.route rt sv ?p] =>
        destruct (route_unfold rt sv p) as [prompt [Htrace Hroute]];
        rewrite Hroute in Hres; rewrite Htrace, Hroute
    end.
    destruct (agent_run sv RouterLLM prompt) as [content | e]; [|discriminate].
    rewrite result_bind in Hres. rewrite trace_bind.
    cbn [Memory.log_interaction emit result trace fst snd app] in *.
    match type of Hres with
    | result (Orchestrator.run_solver_phase rt sv ?s) = _ => set (routed := s) in *
    end.
    exists (AgentRun RouterLLM prompt (Ok content)
            :: LogInteraction sid "router" (PStr (str_upper rt (Str.strip content)))
            :: trace (Orchestrator.run_solver_phase rt sv routed)).
    split; [reflexivity|]. split; [reflexivity|].
    destruct (run_solver_phase_frame rt sv routed final Hres) as [_ [_ [Hsid _]]].
    split; [exact Hsid|].
    right. split; [reflexivity|]. exists prompt, content, routed. auto.
Qed.

(** X22. A run is logged under one session: start_pipeline creates a
    session, named by a fresh uuid, exactly when no session id (or an empty
    one) is passed, and never otherwise; the returned state carries the id
    passed or created, and every log entry of the run is written under it. *)
Theorem run_is_logged_under_one_session (rt : Runtime) (sv : Services)
    (text image_path audio_path session : option string) (final : PipelineState) :
  result (Orchestrator.start_pipeline rt sv text image_path audio_path session)
  = Ok final ->
  session_id final = match ParserAgent.given session with
                     | Some sid => sid
                     | None => uuid4 sv
                     end
  /\ sessions_of (trace (Orchestrator.start_pipeline rt sv text image_path audio_path
                           session))
     = match ParserAgent.given session with
       | Some _ => []
       | None => [uuid4 sv]
       end
  /\ Forall (eq (session_id final))
       (log_sessions_of (trace (Orchestrator.start_pipeline rt sv text image_path
                                  audio_path session))).
Proof.
  intros Hres.
  destruct (start_pipeline_shape rt sv text image_path audio_path session final Hres)
    as [parsed [rest [_ [-> [Hsid Hrest]]]]].
  destruct (parser_events _ (parser_run_events rt sv text image_path audio_path))
    as [_ [Hps [Hpl _]]].
  split; [exact Hsid|].
  rewrite !sessions_of_app, !log_sessions_of_app, Hps, Hpl.
  cbn [app sessions_of log_sessions_of]. rewrite Hsid.
  assert (Hcreated : forall created : list event,
             created = match ParserAgent.given session with
                       | Some _ => []
                       | None => [CreateSession (uuid4 sv)]
                       end ->
             sessions_of created = match ParserAgent.given session with
                                   | Some _ => []
                                   | None => [uuid4 sv]
                                   end
             /\ log_sessions_of created = []).
  { intros created ->. destruct (ParserAgent.given session); split; reflexivity. }
  destruct (Hcreated _ eq_refl) as [-> ->]. cbn [app].
  destruct Hrest as [[_ [-> _]] | [_ [prompt [content [routed [-> [Hrouted Hrun]]]]]]].
  - rewrite app_nil_r. split; [reflexivity | repeat constructor].
  - cbn [sessions_of log_sessions_of].
    destruct (run_solver_phase_log rt sv routed final Hrun) as [-> Hlog].
    rewrite app_nil_r. split; [reflexivity|].
    rewrite Hrouted in Hlog. repeat constructor. exact Hlog.
Qed.

(** An instance: a run without input and without session id. *)
Lemma run_is_logged_under_one_session_witness :
  let rt := CPython.runtime in
  let sv := Examples.prose_evaluator in
  let final :=
    set_step "parsed"
      (set_hitl_reason (Some "Ambiguous Input: No valid input provided")
         (set_needs_hitl true
            (set_parsed_data
               [("problem_text", PStr "");
                ("input_type", PStr "none");
                ("is_ambiguous", PBool true);
                ("ambiguity_reason", PStr "No valid input provided");
                ("raw_input_combined", PStr "");
                ("sources", PList [])]
               (new_state (uuid4 sv) None [] None)))) in
  session_id final = uuid4 sv
  /\ sessions_of (trace (Orchestrator.start_pipeline rt sv None None None (Some "")))
     = [uuid4 sv]
  /\ Forall (eq (session_id final))
       (log_sessions_of (trace (Orchestrator.start_pipeline rt sv None None None
                                  (Some "")))).
Proof.
  intros rt sv final.
  apply (run_is_logged_under_one_session rt sv None None None (Some "") final).
  vm_compute. reflexivity.
Defined.

(** X23. The three ways a run ends. A returning start_pipeline leaves the
    state at step parsed (kept for a human, only the parser logged), at
    step verified (kept for a human, the log has parser, router, solver and
    verifier) or at step complete (cleared, the explainer logged last); a
    state is kept for a human exactly when its step is not complete. *)
Theorem pipeline_outcomes (rt : Runtime) (sv : Services)
    (text image_path audio_path session : option string) (final : PipelineState) :
  result (Orchestrator.start_pipeline rt sv text image_path audio_path session)
  = Ok final ->
  (step final = "parsed" /\ needs_hitl final = true
   /\ roles_of (trace (Orchestrator.start_pipeline rt sv text image_path audio_path
                         session))
      = ["parser"])
  \/ (step final = "verified" /\ needs_hitl final = true
      /\ roles_of (trace (Orchestrator.start_pipeline rt sv text image_path audio_path
                            session))
         = ["parser"; "router"; "solver"; "verifier"])
  \/ (step final = "complete" /\ needs_hitl final = false
      /\ roles_of (trace (Orchestrator.start_pipeline rt sv text image_path audio_path
                            session))
         = ["parser"; "router"; "solver"; "verifier"; "explainer"]).
Proof.
  intros Hres.
  destruct (start_pipeline_shape rt sv text image_path audio_path session final Hres)
    as [parsed [rest [_ [-> [_ Hrest]]]]].
  destruct (parser_events _ (parser_run_events rt sv text image_path audio_path))
    as [Hpr _].
  rewrite !roles_of_app, Hpr. cbn [app roles_of].
  assert (Hcreated : roles_of match ParserAgent.given session with
                              | Some _ => []
                              | None => [CreateSession (uuid4 sv)]
                              end = [])
    by (destruct (ParserAgent.given session); reflexivity).
  rewrite Hcreated. cbn [app].
  destruct Hrest as [[_ [-> [Hstep Hneeds]]]
                    | [_ [prompt [content [routed [-> [_ Hrun]]]]]]].
  - left. auto.
  - right. cbn [roles_of].
    destruct (run_solver_phase_ok rt sv routed final Hrun)
      as [solution [verification [before [decided H]]]].
    destruct H as [_ [_ [_ [_ [_ [_ [_ [Hneeds [_ [_ [_ [_ [_ Hstep]]]]]]]]]]]]].
    rewrite <- Hneeds in Hstep.
    destruct (run_solver_phase_events rt sv routed final Hrun) as [-> _].
    destruct (needs_hitl final); [left | right]; auto.
Qed.

(** An instance: a whole run on the calculator, cleared. *)
Lemma pipeline_outcomes_witness :
  exists final,
    result (Orchestrator.start_pipeline CPython.runtime RunExamples.services
              (Some "square root of 123456") None None None) = Ok final
    /\ step final = "complete"
    /\ ((step final = "parsed" /\ needs_hitl final = true
         /\ roles_of (trace (Orchestrator.start_pipeline CPython.runtime
                               RunExamples.services (Some "square root of 123456")
                               None None None))
            = ["parser"])
        \/ (step final = "verified" /\ needs_hitl final = true
            /\ roles_of (trace (Orchestrator.start_pipeline CPython.runtime
                                  RunExamples.services (Some "square root of 123456")
                                  None None None))
               = ["parser"; "router"; "solver"; "verifier"])
        \/ (step final = "complete" /\ needs_hitl final = false
            /\ roles_of (trace (Orchestrator.start_pipeline CPython.runtime
                                  RunExamples.services (Some "square root of 123456")
                                  None None None))
               = ["parser"; "router"; "solver"; "verifier"; "explainer"])).
Proof.
  eexists. split; [vm_compute; reflexivity|].
  split; [reflexivity|].
  apply (pipeline_outcomes CPython.runtime RunExamples.services
           (Some "square root of 123456") None None None).
  vm_compute. reflexivity.
Defined.

(** ** The calculator *)

Lemma first_match_not_empty (s expr : string) :
  Calculator.first_match Calculator.simple_patterns s = Some expr -> expr <> "".
Proof.
  unfold Calculator.first_match, Calculator.simple_patterns.
  repeat match goal with
         | |- context [Re.search ?p s] => destruct (Re.search p s)
         end;
    intros H; try discriminate H; injection H as <-; discriminate.
Qed.

(** X24. The fast path never consults the model: when one of the four
    patterns matches the lowered, stripped query, solve_arithmetic makes a
    single call, of SymPy on the expression of the first matching pattern;
    the dict it returns records that expression and the query, and reports
    success exactly when SymPy returned a value. *)
Theorem fast_path_skips_the_model (rt : Runtime) (sv : Services) (q expr : string) :
  Calculator.first_match Calculator.simple_patterns (Str.strip (str_lower rt q))
  = Some expr ->
  exists res,
    Calculator.solve_arithmetic rt sv (PStr q)
    = ([SympyEval expr (sympy_eval sv expr)], Ok res)
    /\ dict_get res "parsed_expression" = Some (PStr expr)
    /\ dict_get res "original_query" = Some (PStr q)
    /\ (dict_get res "success" = Some (PBool true) <-> exists v, sympy_eval sv expr = Ok v).
Proof.
  intros Hmatch. pose proof (first_match_not_empty _ _ Hmatch) as Hne.
  unfold Calculator.solve_arithmetic, Calculator.parse_query, Calculator._try_simple_parse.
  rewrite Hmatch. destruct expr as [| c expr]; [contradiction|].
  unfold Calculator.compute, run_sympy, try_except, lift, bind, ret.
  cbn [fst snd app negb].
  destruct (sympy_eval sv (String c expr)) as [v | e]; cbn [fst snd app];
    eexists; (split; [reflexivity|]);
    (split; [rewrite dict_get_set_other by discriminate; apply dict_get_set_same|]);
    (split; [apply dict_get_set_same|]);
    rewrite !dict_get_set_other by discriminate.
  - split; [intros _; exists v; reflexivity | reflexivity].
  - split; [discriminate | intros [v H]; discriminate H].
Qed.

(** An instance: the square root of 123456. *)
Lemma fast_path_skips_the_model_witness :
  exists res,
    Calculator.solve_arithmetic CPython.runtime PolicyExamples.scenario1
      (PStr "What is the Square Root of 123456?")
    = ([SympyEval "sqrt(123456)" (sympy_eval PolicyExamples.scenario1 "sqrt(123456)")],
       Ok res)
    /\ dict_get res "parsed_expression" = Some (PStr "sqrt(123456)")
    /\ dict_get res "original_query" = Some (PStr "What is the Square Root of 123456?")
    /\ (dict_get res "success" = Some (PBool true)
        <-> exists v, sympy_eval PolicyExamples.scenario1 "sqrt(123456)" = Ok v).
Proof.
  apply (fast_path_skips_the_model CPython.runtime PolicyExamples.scenario1
           "What is the Square Root of 123456?" "sqrt(123456)").
  vm_compute. reflexivity.
Defined.

(** X25. A query that cannot be translated is refused without computing:
    when no pattern matches and the translating agent raises or answers
    with ERROR_NOT_MATH, solve_arithmetic returns (it does not raise) the
    failure dict with the error Could not parse mathematical expression and
    the raw query, and SymPy is not called. *)
Theorem untranslatable_query_is_refused (rt : Runtime) (sv : Services) (q : string) :
  Calculator.first_match Calculator.simple_patterns (Str.strip (str_lower rt q)) = None ->
  match agent_run sv CalculatorLLM ("Convert: " ++ py_str rt (PStr q)) with
  | Ok content => Str.contains "ERROR_NOT_MATH" (Str.strip content) = true
  | Raise _ => True
  end ->
  Calculator.solve_arithmetic rt sv (PStr q)
  = ([AgentRun CalculatorLLM ("Convert: " ++ py_str rt (PStr q))
        (agent_run sv CalculatorLLM ("Convert: " ++ py_str rt (PStr q)))],
     Ok [("success", PBool false);
         ("error", PStr "Could not parse mathematical expression");
         ("raw_query", PStr q)]).
Proof.
  intros Hmatch Hagent.
  unfold Calculator.solve_arithmetic, Calculator.parse_query, Calculator._try_simple_parse,
    Calculator._try_llm_parse.
  rewrite Hmatch. unfold run_agent, try_except, lift, bind, ret.
  cbn [fst snd app].
  destruct (agent_run sv CalculatorLLM ("Convert: " ++ py_str rt (PStr q)))
    as [content | e]; cbn [fst snd app]; [|reflexivity].
  rewrite Hagent. reflexivity.
Qed.

Lemma untranslatable_query_is_refused_witness :
  Calculator.solve_arithmetic CPython.runtime PolicyExamples.scenario1
    (PStr "tell me a story")
  = ([AgentRun CalculatorLLM ("Convert: " ++ py_str CPython.runtime (PStr "tell me a story"))
        (agent_run PolicyExamples.scenario1 CalculatorLLM
           ("Convert: " ++ py_str CPython.runtime (PStr "tell me a story")))],
     Ok [("success", PBool false);
         ("error", PStr "Could not parse mathematical expression");
         ("raw_query", PStr "tell me a story")]).
Proof.
  apply (untranslatable_query_is_refused CPython.runtime PolicyExamples.scenario1
           "tell me a story").
  - vm_compute. reflexivity.
  - exact I.
Defined.

(** X26. A problem text that is not a string is not handled on the
    arithmetic path: for the category ARITHMETIC and a problem text that is
    None, a number, a list or a dict (the parser passes on whatever the model
    put under problem_text), solve raises AttributeError before anything is
    called. *)
Theorem non_string_arithmetic_query_raises (rt : Runtime) (sv : Services)
    (problem_text context_str : pyval) :
  (forall q, problem_text <> PStr q) ->
  SolverAgent.solve rt sv problem_text (Some "ARITHMETIC") context_str
  = ([], Raise (mk_exn AttributeError
                  ("'" ++ type_name problem_text ++ "' object has no attribute 'lower'"))).
Proof.
  intros Hshape.
  unfold SolverAgent.solve, SolverAgent._solve_with_tool, Calculator.solve_arithmetic,
    Calculator.parse_query, Calculator._try_simple_parse.
  cbn [SolverAgent.is_arithmetic].
  destruct problem_text as [| b | z | f | q | l | d]; try reflexivity.
  exfalso. exact (Hshape q eq_refl).
Qed.

Lemma non_string_arithmetic_query_raises_witness :
  SolverAgent.solve CPython.runtime PolicyExamples.scenario1 PNone (Some "ARITHMETIC")
    (PStr "")
  = ([], Raise (mk_exn AttributeError "'NoneType' object has no attribute 'lower'")).
Proof.
  apply (non_string_arithmetic_query_raises CPython.runtime PolicyExamples.scenario1
           PNone (PStr "")).
  intros q H. discriminate H.
Defined.

(** ** The solve stage: what an executor's answer becomes *)

(** X27. Once the executor has answered, solve returns an attempt and does
    not raise. The attempt has an error field exactly when no attempt could
    be extracted from the answer; an extracted attempt has at least one
    step and carries the context, a degraded one has lost the context (the
    dict of the except branch has no context key). *)
Theorem executor_error_marks_parse_failure (rt : Runtime) (sv : Services)
    (problem_text : pyval) (problem_type : option string) (context_str : pyval)
    (content : string) :
  answered (SolverAgent.solve rt sv problem_text problem_type context_str)
    ExecutorLLM content ->
  exists sol,
    result (SolverAgent.solve rt sv problem_text problem_type context_str) = Ok sol
    /\ (extraction_fails content = true <-> sol_error sol <> None)
    /\ (extraction_fails content = false ->
        sol_steps sol <> [] /\ sol_context sol <> None)
    /\ (extraction_fails content = true -> sol_context sol = None).
Proof.
  intros Hans.
  destruct (solve_after_executor _ _ _ _ _ _ Hans) as [plan [context Hres]].
  destruct (extraction_fails content) eqn:Hfail.
  - destruct (extract_sections_fails rt content Hfail) as [e He].
    rewrite He in Hres. eexists. split; [exact Hres|]. cbn.
    split; [split; [discriminate | reflexivity]|].
    split; [discriminate | reflexivity].
  - destruct (extract_sections_succeeds rt content Hfail) as [st [sts [fa [conf He]]]].
    rewrite He in Hres. eexists. split; [exact Hres|]. cbn.
    split; [split; [discriminate | intros H; contradiction]|].
    split; [intros _; split; discriminate | discriminate].
Qed.

(** An instance: an executor that answers without any delimiter. *)
Lemma executor_error_marks_parse_failure_witness :
  exists sol,
    result (SolverAgent.solve CPython.runtime SolveExamples.rambling_executor
              (PStr "Solve x + y = 4, x - y = 0") (Some "ALGEBRA") (PStr "")) = Ok sol
    /\ (extraction_fails "The answer is probably 4." = true <-> sol_error sol <> None)
    /\ (extraction_fails "The answer is probably 4." = false ->
        sol_steps sol <> [] /\ sol_context sol <> None)
    /\ (extraction_fails "The answer is probably 4." = true -> sol_context sol = None).
Proof.
  apply (executor_error_marks_parse_failure CPython.runtime
           SolveExamples.rambling_executor (PStr "Solve x + y = 4, x - y = 0")
           (Some "ALGEBRA") (PStr "") "The answer is probably 4.").
  apply answered_intro. vm_compute. left. reflexivity.
Defined.

(** ** The explainer *)

Lemma explain_answered (rt : Runtime) (sv : Services) (problem_text : pyval)
    (solution_steps : list string) (final_answer category : pyval) (content : string) :
  answered (ExplainerAgent.explain rt sv problem_text solution_steps final_answer category)
    ExplainerLLM content ->
  result (ExplainerAgent.explain rt sv problem_text solution_steps final_answer category)
  = result
      (try_except
         (match Re.search ExplainerAgent.braces content with
          | Some m => lift (json_loads rt (Re.matched m))
          | None =>
              ret (PDict [("concept", category);
                          ("strategy", PStr "Direct computation");
                          ("key_insight", PStr (String.substring 0 200 content));
                          ("learning_points", PList [PStr "Review the solution carefully"]);
                          ("common_mistakes", PList []);
                          ("difficulty", PStr "Medium");
                          ("jee_relevance", PStr "JEE Main")])
          end)
         (fun e =>
            ret (PDict [("concept", category);
                        ("strategy", PStr "Standard approach");
                        ("key_insight", PStr (String.substring 0 300 content));
                        ("learning_points", PList [PStr "Focus on the methodology"]);
                        ("common_mistakes", PList []);
                        ("difficulty", PStr "Medium");
                        ("jee_relevance", PStr "JEE Main");
                        ("error", PStr (exn_str e))]))).
Proof.
  intros [p Hin]. revert Hin. unfold ExplainerAgent.explain.
  match goal with |- context [run_agent sv ExplainerLLM ?q] => generalize q end.
  intros prompt. rewrite trace_bind, result_bind, trace_run_agent, !result_run_agent.
  destruct (agent_run sv ExplainerLLM prompt) as [content' | e].
  - intros [Hin | Hin].
    + injection Hin as _ ->. reflexivity.
    + exfalso. revert Hin. rewrite trace_try_except.
      destruct (Re.search ExplainerAgent.braces content') as [m |].
      * rewrite trace_lift, result_lift.
        destruct (json_loads rt (Re.matched m)); intros [].
      * intros [].
  - intros [Hin | []]. discriminate Hin.
Qed.

(** X28. The explainer degrades to a stub and does not raise. When its
    agent answers a text without a brace pair, explain returns a dict whose
    concept is the category passed in, whose strategy is Direct computation
    and whose key_insight is the first 200 characters of the answer. When
    json.loads rejects the text from the first opening to the last closing
    brace, the strategy is Standard approach, the key_insight is the first
    300 characters of the answer, and the dict has the decoder's message
    under error. *)
Theorem explainer_falls_back (rt : Runtime) (sv : Services) (problem_text : pyval)
    (solution_steps : list string) (final_answer category : pyval) (content : string) :
  answered (ExplainerAgent.explain rt sv problem_text solution_steps final_answer category)
    ExplainerLLM content ->
  match Re.search ExplainerAgent.braces content with
  | Some m => exists e, json_loads rt (Re.matched m) = Raise e
  | None => True
  end ->
  exists d,
    result (ExplainerAgent.explain rt sv problem_text solution_steps final_answer category)
    = Ok (PDict d)
    /\ dict_get d "concept" = Some category
    /\ match Re.search ExplainerAgent.braces content with
       | None =>
           dict_get d "strategy" = Some (PStr "Direct computation")
           /\ dict_get d "key_insight" = Some (PStr (String.substring 0 200 content))
           /\ dict_get d "error" = None
       | Some m =>
           dict_get d "strategy" = Some (PStr "Standard approach")
           /\ dict_get d "key_insight" = Some (PStr (String.substring 0 300 content))
           /\ exists e, json_loads rt (Re.matched m) = Raise e
                        /\ dict_get d "error" = Some (PStr (exn_str e))
       end.
Proof.
  intros Hans Hbad. rewrite (explain_answered _ _ _ _ _ _ _ Hans).
  rewrite result_try_except.
  destruct (Re.search ExplainerAgent.braces content) as [m |].
  - destruct Hbad as [e He]. rewrite result_lift, He.
    eexists. split; [reflexivity|]. split; [reflexivity|].
    split; [reflexivity|]. split; [reflexivity|].
    exists e. split; reflexivity.
  - eexists. split; [reflexivity|]. split; [reflexivity|].
    split; [reflexivity|]. split; reflexivity.
Qed.

(** An instance: an answer in prose, without braces. *)
Lemma explainer_falls_back_witness :
  exists d,
    result (ExplainerAgent.explain CPython.runtime Examples.prose_evaluator
              (PStr "Solve 2x = 8") ["Divide both sides by 2"] (PStr "x = 4")
              (PStr "ALGEBRA"))
    = Ok (PDict d)
    /\ dict_get d "concept" = Some (PStr "ALGEBRA")
    /\ dict_get d "strategy" = Some (PStr "Direct computation")
    /\ dict_get d "key_insight" = Some (PStr "I cannot judge this plan.")
    /\ dict_get d "error" = None.
Proof.
  destruct (explainer_falls_back CPython.runtime Examples.prose_evaluator
              (PStr "Solve 2x = 8") ["Divide both sides by 2"] (PStr "x = 4")
              (PStr "ALGEBRA") "I cannot judge this plan.")
    as [d [Hres [Hconcept Hrest]]].
  - apply answered_intro. vm_compute. left. reflexivity.
  - vm_compute. exact I.
  - exists d. split; [exact Hres|]. split; [exact Hconcept|].
    exact Hrest.
Defined.
